(** * A shallow embedding of the knowledge-helper relevance and attribution core

    The development follows [src/web_app.py] and [src/document_processor.py]:
    Python strings are modelled as [string] (ASCII code points), dictionaries
    whose iteration order matters as insertion-ordered association lists,
    counters as [gmap], and the effects of the program (the documents folder,
    the log, the analytics ledger, the external generator) by explicit state
    passing. *)

From stdpp Require Import gmap strings pretty list fin_maps sorting.
From Stdlib Require Import Ascii Permutation Sorted QArith.

Local Open Scope string_scope.
Local Open Scope nat_scope.

(* ===================================================================== *)
(** * Python string primitives *)
(* ===================================================================== *)

Module PyStr.

(** [str.lower()] on ASCII code points. *)
Definition lower_char (c : ascii) : ascii :=
  let n := nat_of_ascii c in
  if (65 <=? n) && (n <=? 90) then ascii_of_nat (n + 32) else c.

Fixpoint lower (s : string) : string :=
  match s with
  | EmptyString => EmptyString
  | String c t => String (lower_char c) (lower t)
  end.

(** [str.isspace()] on ASCII code points: TAB, LF, VT, FF, CR, FS, GS, RS, US
    and the blank. *)
Definition is_space (c : ascii) : bool :=
  let n := nat_of_ascii c in
  ((9 <=? n) && (n <=? 13)) || ((28 <=? n) && (n <=? 32)).

(** [needle in hay] *)
Fixpoint contains (needle hay : string) : bool :=
  String.prefix needle hay ||
  match hay with
  | EmptyString => false
  | String _ t => contains needle t
  end.

(** [s.split(sep)] for a one-character separator. *)
Fixpoint split_on (sep : ascii) (s : string) : list string :=
  match s with
  | EmptyString => [EmptyString]
  | String c t =>
      if Ascii.eqb c sep then EmptyString :: split_on sep t
      else match split_on sep t with
           | h :: r => String c h :: r
           | [] => [String c EmptyString]
           end
  end.

(** [s.split()]: split on runs of white space, no empty pieces. *)
Fixpoint split (s : string) : list string :=
  match s with
  | EmptyString => []
  | String c t =>
      if is_space c then split t
      else match t with
           | EmptyString => [String c EmptyString]
           | String d _ =>
               if is_space d then String c EmptyString :: split t
               else match split t with
                    | h :: r => String c h :: r
                    | [] => [String c EmptyString]
                    end
           end
  end.

Fixpoint lstrip (s : string) : string :=
  match s with
  | EmptyString => EmptyString
  | String c t => if is_space c then lstrip t else s
  end.

Fixpoint rstrip (s : string) : string :=
  match s with
  | EmptyString => EmptyString
  | String c t =>
      match rstrip t with
      | EmptyString => if is_space c then EmptyString else String c EmptyString
      | r => String c r
      end
  end.

(** [s.strip()] *)
Definition strip (s : string) : string := rstrip (lstrip s).

(** [s.replace(a, b)] for one-character [a] and [b]. *)
Fixpoint replace (a b : ascii) (s : string) : string :=
  match s with
  | EmptyString => EmptyString
  | String c t => String (if Ascii.eqb c a then b else c) (replace a b t)
  end.

(** [sep.join(l)] *)
Fixpoint join (sep : string) (l : list string) : string :=
  match l with
  | [] => EmptyString
  | [x] => x
  | x :: r => x ++ sep ++ join sep r
  end.

(** [s[:n]] *)
Fixpoint take (n : nat) (s : string) : string :=
  match n, s with
  | S k, String c t => String c (take k t)
  | _, _ => EmptyString
  end.

(** [s[n:]] *)
Fixpoint drop (n : nat) (s : string) : string :=
  match n, s with
  | S k, String _ t => drop k t
  | _, _ => s
  end.

(** [s.rfind(c)] for a one-character [c]; [-1] when absent. *)
Fixpoint rfind_from (c : ascii) (s : string) (i : Z) (last : Z) : Z :=
  match s with
  | EmptyString => last
  | String d t => rfind_from c t (i + 1)%Z (if Ascii.eqb d c then i else last)
  end.

Definition rfind (c : ascii) (s : string) : Z := rfind_from c s 0%Z (-1)%Z.

Fixpoint any_char (p : ascii -> bool) (s : string) : bool :=
  match s with
  | EmptyString => false
  | String c t => p c || any_char p t
  end.

(** [l[-n:]] on a list. *)
Definition last_n {A} (n : nat) (l : list A) : list A :=
  skipn (length l - n) l.

End PyStr.

(* ===================================================================== *)
(** * [os.path] *)
(* ===================================================================== *)

Module OsPath.

(** [os.path.splitext]: the extension starts at the last dot, provided that
    dot comes after the last separator and some character between the two is
    not a dot. *)
Definition splitext (p : string) : string * string :=
  let sepIndex := PyStr.rfind "/" p in
  let dotIndex := PyStr.rfind "." p in
  if (sepIndex <? dotIndex)%Z then
    let filenameIndex := Z.to_nat (sepIndex + 1) in
    let dot := Z.to_nat dotIndex in
    if PyStr.any_char (fun c => negb (Ascii.eqb c "."))
         (PyStr.take (dot - filenameIndex) (PyStr.drop filenameIndex p))
    then (PyStr.take dot p, PyStr.drop dot p)
    else (p, EmptyString)
  else (p, EmptyString).

(** [os.path.join(a, b)] *)
Definition join (a b : string) : string :=
  if String.prefix "/" b then b
  else if String.eqb a "" || String.eqb (PyStr.drop (String.length a - 1) a) "/"
       then a ++ b
       else a ++ "/" ++ b.

End OsPath.

(* ===================================================================== *)
(** * Outcomes of calls that may raise *)
(* ===================================================================== *)

Inductive outcome (A : Type) : Type :=
| Returned (a : A)
| Raised (message : string).
Arguments Returned {A} a.
Arguments Raised {A} message.

(* ===================================================================== *)
(** * The documents folder and [DynamicDocumentProcessor] *)
(* ===================================================================== *)

Record dirent := { d_name : string; d_is_dir : bool }.

(** The part of the file system the program looks at.  [fs_folder] is [None]
    while the documents folder does not exist; otherwise it holds what
    [os.listdir] does (the entries in listing order, or the exception it
    raises).  [fs_makedirs] is the exception [os.makedirs] raises for the
    documents folder while it does not exist ([None] when the folder can be
    created).  [fs_read ext path] is the outcome of the format reader chosen
    for extension [ext] at [path]: the text it returns or the exception that
    escapes it. *)
Record filesystem := {
  fs_folder : option (outcome (list dirent));
  fs_makedirs : option string;
  fs_read : string -> string -> outcome string
}.

(** [os.makedirs(self.documents_folder, exist_ok=True)] for a folder that
    does not exist: the folder is created empty, or the call raises and the
    file system stays as it is. *)
Definition makedirs (fs : filesystem) : outcome unit * filesystem :=
  match fs_makedirs fs with
  | None =>
      (Returned tt,
       {| fs_folder := Some (Returned []); fs_makedirs := fs_makedirs fs;
          fs_read := fs_read fs |})
  | Some e => (Raised e, fs)
  end.

(** A Python [dict] with string keys, in insertion order: assigning an
    existing key replaces its value in place. *)
Definition dict (V : Type) := list (string * V).

Fixpoint dict_set {V} (k : string) (v : V) (d : dict V) : dict V :=
  match d with
  | [] => [(k, v)]
  | (k', v') :: r =>
      if String.eqb k' k then (k', v) :: r else (k', v') :: dict_set k v r
  end.

Fixpoint dict_get {V} (k : string) (d : dict V) : option V :=
  match d with
  | [] => None
  | (k', v') :: r => if String.eqb k' k then Some v' else dict_get k r
  end.

Module DynamicDocumentProcessor.

Definition supported_extensions : list string :=
  [".txt"; ".pdf"; ".doc"; ".docx"; ".rtf"].

Definition is_supported (ext : string) : bool :=
  existsb (String.eqb ext) supported_extensions.

(** The document key of a file name: the name without its extension, blanks
    and hyphens replaced by underscores. *)
Definition doc_key (filename : string) : string :=
  PyStr.replace "-" "_" (PyStr.replace " " "_" (fst (OsPath.splitext filename))).

(** The body of the loop of [scan_documents_folder] for one entry. *)
Definition scan_entry (folder : string) (documents : dict string) (e : dirent)
  : dict string :=
  let filename := d_name e in
  let file_path := OsPath.join folder filename in
  if d_is_dir e then documents
  else
    let ext := snd (OsPath.splitext (PyStr.lower filename)) in
    if is_supported ext then dict_set (doc_key filename) file_path documents
    else documents.

Definition scan_entries (folder : string) (entries : list dirent) : dict string :=
  fold_left (scan_entry folder) entries [].

(** [scan_documents_folder]: a missing folder is created and the empty
    dictionary returned; an exception of [os.makedirs] or of [os.listdir]
    escapes. *)
Definition scan_documents_folder (folder : string) (fs : filesystem)
  : outcome (dict string) * filesystem :=
  match fs_folder fs with
  | None =>
      match makedirs fs with
      | (Returned _, fs') => (Returned [], fs')
      | (Raised e, fs') => (Raised e, fs')
      end
  | Some (Raised e) => (Raised e, fs)
  | Some (Returned entries) => (Returned (scan_entries folder entries), fs)
  end.

(** [extract_text_from_file]: an exception of the reader is caught and turned
    into a message that is returned as the text. *)
Definition extract_text_from_file (fs : filesystem) (file_path : string) : string :=
  let ext := snd (OsPath.splitext (PyStr.lower file_path)) in
  if is_supported ext then
    match fs_read fs ext file_path with
    | Returned text => text
    | Raised e => "Error reading " ++ file_path ++ ": " ++ e
    end
  else "Unsupported file format: " ++ ext.

End DynamicDocumentProcessor.

(* ===================================================================== *)
(** * [web_app.py]: the relevance matcher *)
(* ===================================================================== *)

(** An element of [relevant_docs]: the tuple
    [(doc_name, file_path, total_score, content)]. *)
Record candidate := {
  c_name : string;
  c_path : string;
  c_score : nat;
  c_content : string
}.

(** [sum(1 for x in l if p x)] *)
Definition count_if {A} (p : A -> bool) (l : list A) : nat :=
  length (List.filter p l).

Definition doc_patterns : dict (list string) :=
  [ ("employee_handbook",
      ["handbook"; "employee"; "work hours"; "dress code"; "performance";
       "mission"; "core hours"; "collaboration"; "growth"]);
    ("pto_policy",
      ["pto"; "vacation"; "time off"; "leave"; "holiday"; "sick days";
       "personal days"; "paid time"]);
    ("health_benefits",
      ["health"; "medical"; "benefits"; "insurance"; "healthcare"; "dental";
       "vision"; "coverage"]);
    ("it_security_policy",
      ["security"; "password"; "it policy"; "network"; "vpn"; "device";
       "data protection"; "cybersecurity"]);
    ("claude_usage_policy",
      ["claude"; "ai"; "artificial intelligence"; "usage policy";
       "ai guidelines"]);
    ("org_structure",
      ["organization"; "structure"; "department"; "team"; "hierarchy";
       "reporting"]) ].

Definition stop_words : list string :=
  ["the"; "and"; "for"; "with"; "about"; "what"; "how"; "can"; "you"].

(** The query words: tokens of the lowercased query longer than two
    characters that are not stop words. *)
Definition query_words (query_lower : string) : list string :=
  List.filter
    (fun word => (2 <? String.length word) && negb (existsb (String.eqb word) stop_words))
    (PyStr.split query_lower).

(** The value [pattern_score] has at the end of one iteration of the loop over
    [doc_patterns]. *)
Definition pattern_score (query_lower doc_name_lower : string)
    (pattern_name : string) (keywords : list string) : nat :=
  let query_pattern_matches :=
    count_if (fun keyword => PyStr.contains keyword query_lower) keywords in
  if existsb (fun pattern_part => PyStr.contains pattern_part doc_name_lower)
       (PyStr.split_on "_" pattern_name)
  then 0 + query_pattern_matches * 5
  else 0.

(** One iteration of the loop over [doc_patterns]; the state is
    [(best_pattern_score, matching_pattern)]. *)
Definition pattern_step (query_lower doc_name_lower : string)
    (st : nat * option string) (entry : string * list string)
  : nat * option string :=
  let '(best_pattern_score, matching_pattern) := st in
  let '(pattern_name, keywords) := entry in
  let ps := pattern_score query_lower doc_name_lower pattern_name keywords in
  if best_pattern_score <? ps then (ps, Some pattern_name)
  else (best_pattern_score, matching_pattern).

Definition best_pattern (query_lower doc_name_lower : string) : nat * option string :=
  fold_left (pattern_step query_lower doc_name_lower) doc_patterns (0, None).

Definition best_pattern_score (query_lower doc_name_lower : string) : nat :=
  fst (best_pattern query_lower doc_name_lower).

Definition content_matches (query_lower content_lower : string) : nat :=
  count_if (fun word => PyStr.contains word content_lower) (query_words query_lower).

Definition name_matches (query_lower doc_name_lower : string) : nat :=
  count_if (fun word => PyStr.contains word doc_name_lower) (query_words query_lower).

Definition total_score (query_lower doc_name_lower content_lower : string) : nat :=
  content_matches query_lower content_lower * 2
  + name_matches query_lower doc_name_lower * 3
  + best_pattern_score query_lower doc_name_lower.

(** The admission test of the loop body. *)
Definition admitted (query_lower doc_name_lower content_lower : string) : bool :=
  (5 <=? total_score query_lower doc_name_lower content_lower)
  && ((0 <? name_matches query_lower doc_name_lower)
      || (2 <? content_matches query_lower content_lower)
      || (0 <? best_pattern_score query_lower doc_name_lower)).

(** The body of the loop over [document_files.items()]. *)
Definition scan_step (fs : filesystem) (query_lower : string)
    (relevant_docs : list candidate) (item : string * string) : list candidate :=
  let '(doc_name, file_path) := item in
  let content := DynamicDocumentProcessor.extract_text_from_file fs file_path in
  let content_lower := PyStr.lower content in
  let doc_name_lower := PyStr.lower doc_name in
  if admitted query_lower doc_name_lower content_lower
  then relevant_docs ++
       [ {| c_name := doc_name; c_path := file_path;
            c_score := total_score query_lower doc_name_lower content_lower;
            c_content := content |} ]
  else relevant_docs.

(** [relevant_docs] when the loop ends. *)
Definition scan_loop (fs : filesystem) (query_lower : string)
    (document_files : dict string) : list candidate :=
  fold_left (scan_step fs query_lower) document_files [].

(** [list.sort(key=lambda x: x[2], reverse=True)]: a stable sort by
    descending score, as an insertion sort that takes the elements from the
    last to the first and puts each one in front of the elements whose score
    is not greater. *)
Fixpoint insert_desc (x : candidate) (l : list candidate) : list candidate :=
  match l with
  | [] => [x]
  | y :: r => if c_score y <=? c_score x then x :: y :: r else y :: insert_desc x r
  end.

Definition sort_desc (l : list candidate) : list candidate :=
  fold_right insert_desc [] l.

(** The two [return] statements that follow the sort. *)
Definition top_candidates (relevant_docs : list candidate) : list candidate :=
  match relevant_docs with
  | a :: b :: _ =>
      if c_score b * 2 <? c_score a then firstn 1 relevant_docs
      else firstn 2 relevant_docs
  | _ => firstn 2 relevant_docs
  end.

(** What [find_relevant_documents] runs in: the global
    [dynamic_doc_processor] ([None] before initialisation, else its documents
    folder), the file system and the log. *)
Record world := {
  w_processor : option string;
  w_fs : filesystem;
  w_log : list string
}.

(** [relevant_docs] before the sort: the admitted candidates in scan order
    (none when the processor is missing or the scan raises). *)
Definition admitted_candidates (w : world) (query : string) : list candidate :=
  match w_processor w with
  | None => []
  | Some folder =>
      match DynamicDocumentProcessor.scan_documents_folder folder (w_fs w) with
      | (Returned document_files, fs') =>
          scan_loop fs' (PyStr.lower query) document_files
      | (Raised _, _) => []
      end
  end.

Definition find_relevant_documents (w : world) (query : string)
  : list candidate * world :=
  match w_processor w with
  | None => ([], w)
  | Some folder =>
      let query_lower := PyStr.lower query in
      match DynamicDocumentProcessor.scan_documents_folder folder (w_fs w) with
      | (Returned document_files, fs') =>
          let relevant_docs := sort_desc (scan_loop fs' query_lower document_files) in
          (top_candidates relevant_docs,
           {| w_processor := w_processor w; w_fs := fs'; w_log := w_log w |})
      | (Raised e, fs') =>
          ([], {| w_processor := w_processor w; w_fs := fs';
                  w_log := w_log w ++ ["Error finding relevant documents: " ++ e] |})
      end
  end.

(* ===================================================================== *)
(** * [web_app.py]: the context assembler *)
(* ===================================================================== *)

(** An element of [document_excerpts]. *)
Record excerpt := {
  document : string;
  text : string;
  highlight : string
}.

Definition excerpt_of (query_words : list string) (c : candidate) : excerpt :=
  let content := c_content c in
  let cleaned_content :=
    PyStr.join "
" (map PyStr.strip
         (List.filter (fun line => negb (String.eqb (PyStr.strip line) ""))
            (PyStr.split_on "010" content))) in
  let lines := PyStr.split_on "010" content in
  let highlight_lines :=
    map PyStr.strip
      (List.filter
         (fun line => existsb (fun word => PyStr.contains word (PyStr.lower line))
                        query_words)
         lines) in
  let highlight_text :=
    match highlight_lines with
    | [] => PyStr.take 200 content
    | _ => PyStr.join "
" (firstn 2 highlight_lines)
    end in
  let highlight_text :=
    if 200 <? String.length highlight_text
    then PyStr.take 200 highlight_text ++ "..."
    else highlight_text in
  {| document := c_name c; text := cleaned_content; highlight := highlight_text |}.

Definition get_document_excerpts (relevant_docs : list candidate) (query : string)
  : list excerpt :=
  let query_words :=
    map PyStr.lower
      (List.filter (fun word => 2 <? String.length word) (PyStr.split query)) in
  fold_left (fun excerpts c => (excerpts ++ [excerpt_of query_words c])%list)
    relevant_docs [].

(* ===================================================================== *)
(** * [web_app.py]: the response generator *)
(* ===================================================================== *)

(** An element of [response.content]: a block with a [text] attribute, or any
    other block, of which [str] is taken. *)
Inductive content_block :=
| TextBlock (block_text : string)
| OtherBlock (block_str : string).

(** The external service behind [anthropic_client.messages.create]: from the
    prompt to [response.content], or the exception raised. *)
Definition generator := string -> outcome (list content_block).

(** An element of the caller-supplied [conversation_history]: a JSON object
    with optional string fields [role] and [content], or another JSON value,
    on which [msg.get] raises. *)
Inductive history_item :=
| Msg (role : option string) (content : option string)
| NotAnObject (error : string).

Definition preamble : string :=
  "You are an internal company assistant helping employees find information quickly and accurately. You have access to complete company documents and can answer detailed questions about any aspect of company policies, procedures, and benefits.

Complete company documents provided:
".

Definition instructions : string :=
  "

Instructions:
- You have access to the COMPLETE content of relevant company documents, not just excerpts
- Provide comprehensive, accurate answers based on the full document content
- Reference specific sections, policies, or procedures when applicable
- If you need to cite specific details, you can quote directly from the documents
- Maintain conversational context and reference previous discussion when relevant
- If information isn't available in the provided documents, clearly state that and suggest appropriate contacts

Provide a helpful, detailed response using the complete document information available to you.".

Definition not_configured_message : string :=
  "I apologize, but I'm not properly configured. Please contact your system administrator.".

Definition no_content_message : string :=
  "I apologize, but I couldn't generate a proper response.".

Definition apology_prefix : string :=
  "I apologize, but I encountered an error processing your request. Please try again or contact IT support at it-help@company.com. Error: ".

(** The loop that renders the last four history entries. *)
Fixpoint render_history (conversation_context : string) (msgs : list history_item)
  : outcome string :=
  match msgs with
  | [] => Returned conversation_context
  | NotAnObject e :: _ => Raised e
  | Msg role content :: r =>
      let role_label :=
        match role with
        | Some "user" => "Employee"
        | _ => "Assistant"
        end in
      render_history
        (conversation_context ++ role_label ++ ": " ++ default "" content ++ "
")
        r
  end.

Definition conversation_context_of (conversation_history : option (list history_item))
  : outcome string :=
  match conversation_history with
  | None | Some [] => Returned ""
  | Some h => render_history "

Previous conversation:
" (PyStr.last_n 4 h)
  end.

Definition build_prompt (query context conversation_context : string) : string :=
  preamble ++ context ++ "
" ++ conversation_context ++ "

Current employee question: " ++ query ++ instructions.

(** [generate_response]: the result (or the exception that escapes) and the
    lines logged. *)
Definition generate_response (client : option generator)
    (query context : string) (conversation_history : option (list history_item))
  : outcome string * list string :=
  match client with
  | None => (Returned not_configured_message, [])
  | Some create =>
      match conversation_context_of conversation_history with
      | Raised e => (Raised e, [])
      | Returned conversation_context =>
          match create (build_prompt query context conversation_context) with
          | Returned (TextBlock t :: _) => (Returned t, [])
          | Returned (OtherBlock s :: _) => (Returned s, [])
          | Returned [] => (Returned no_content_message, [])
          | Raised e =>
              (Returned (apology_prefix ++ e), ["Error generating response: " ++ e])
          end
      end
  end.

(* ===================================================================== *)
(** * [web_app.py]: the query classifier and the usage ledger *)
(* ===================================================================== *)

Definition any_in (words : list string) (s : string) : bool :=
  existsb (fun word => PyStr.contains word s) words.

Definition classify_query_type (query : string) : string :=
  let query_lower := PyStr.lower query in
  if any_in ["pto"; "vacation"; "time off"; "leave"; "holiday"] query_lower
  then "PTO & Leave"
  else if any_in ["health"; "medical"; "benefits"; "insurance"; "dental"] query_lower
  then "Health Benefits"
  else if any_in ["security"; "password"; "it policy"; "vpn"; "network"] query_lower
  then "IT Security"
  else if any_in ["handbook"; "policy"; "employee"; "work hours"; "dress code"] query_lower
  then "Employee Handbook"
  else if any_in ["org"; "organization"; "structure"; "contact"; "email"; "phone"] query_lower
  then "Organization"
  else if any_in ["claude"; "ai"; "usage"; "policy"] query_lower
  then "AI Usage"
  else "General".

(** An entry of [usage_analytics['users']]. *)
Record user_data := {
  query_count : nat;
  first_seen : string;
  last_seen : string;
  user_departments : gset string
}.

(** The global [usage_analytics].  Response times are kept in microseconds. *)
Record analytics := {
  total_queries : nat;
  users : gmap string user_data;
  departments : gmap string nat;
  documents_accessed : gmap string nat;
  query_types : gmap string nat;
  daily_usage : gmap string nat;
  response_times : list N;
  popular_queries : list string;
  error_count : nat
}.

Definition initial_analytics : analytics :=
  {| total_queries := 0; users := ∅; departments := ∅; documents_accessed := ∅;
     query_types := ∅; daily_usage := ∅; response_times := [];
     popular_queries := []; error_count := 0 |}.

(** [if k not in d: d[k] = 0] followed by [d[k] += 1] *)
Definition bump (k : string) (d : gmap string nat) : gmap string nat :=
  let d := match d !! k with
           | None => <[k := 0]> d
           | Some _ => d
           end in
  <[k := default 0 (d !! k) + 1]> d.

Definition track_user (today user_id department : string)
    (us : gmap string user_data) : gmap string user_data :=
  let us := match us !! user_id with
            | None =>
                <[user_id := {| query_count := 0; first_seen := today;
                                last_seen := today; user_departments := ∅ |}]> us
            | Some _ => us
            end in
  match us !! user_id with
  | Some user_data =>
      <[user_id := {| query_count := query_count user_data + 1;
                      first_seen := first_seen user_data;
                      last_seen := today;
                      user_departments := user_departments user_data ∪ {[department]} |}]> us
  | None => us
  end.

(** [l.append(x)] followed by [if len(l) > n: l = l[-n:]] *)
Definition append_keep_last {A} (n : nat) (x : A) (l : list A) : list A :=
  let l := (l ++ [x])%list in
  if n <? length l then PyStr.last_n n l else l.

(** [log_usage_analytics]; [today] is the date read from the clock. *)
Definition log_usage_analytics (today : string) (a : analytics)
    (user_id department query : string) (response_time : N)
    (documents_used : list excerpt) (error_occurred : bool) : analytics :=
  {| total_queries := total_queries a + 1;
     users := track_user today user_id department (users a);
     departments := bump department (departments a);
     documents_accessed :=
       fold_left (fun d doc => bump (document doc) d) documents_used
         (documents_accessed a);
     query_types := bump (classify_query_type query) (query_types a);
     daily_usage := bump today (daily_usage a);
     response_times := append_keep_last 100 response_time (response_times a);
     popular_queries := append_keep_last 50 (PyStr.take 100 query) (popular_queries a);
     error_count := if error_occurred then error_count a + 1 else error_count a |}.

(* ===================================================================== *)
(** * [web_app.py]: the source attribution verifier and [process_query] *)
(* ===================================================================== *)

(** The key phrases of a lowercased excerpt text. *)
Definition key_phrases (excerpt_text : string) : list string :=
  firstn 3
    (map PyStr.strip
       (List.filter (fun phrase => 20 <? String.length (PyStr.strip phrase))
          (PyStr.split_on "." excerpt_text))).

Definition phrase_words (phrase : string) : list string :=
  List.filter (fun w => 4 <? String.length w) (PyStr.split phrase).

(** [matching_words >= len(phrase_words) * 0.6].  The product is a binary
    float in the source; for every list length below [2^50] the comparison
    agrees with the exact one on [3/5], which is stated here on naturals. *)
Definition overlap_reached (matching_words len_phrase_words : nat) : bool :=
  len_phrase_words * 3 <=? matching_words * 5.

(** The loop over [key_phrases_from_doc]; [is_referenced] is the flag on
    entry, and the [break] ends the loop with the flag set. *)
Fixpoint phrase_loop (response_lower : string) (is_referenced : bool)
    (phrases : list string) : bool :=
  match phrases with
  | [] => is_referenced
  | phrase :: rest =>
      let phrase_words := phrase_words phrase in
      if 2 <=? length phrase_words then
        let matching_words :=
          count_if (fun word => PyStr.contains word response_lower) phrase_words in
        if overlap_reached matching_words (length phrase_words) then true
        else phrase_loop response_lower is_referenced rest
      else phrase_loop response_lower is_referenced rest
  end.

(** The identifier tokens: [doc_name.replace('_', ' ').split()]. *)
Definition name_parts (doc_name : string) : list string :=
  PyStr.split (PyStr.replace "_" " " doc_name).

Definition name_mentioned (response_lower doc_name : string) : bool :=
  existsb (fun part => PyStr.contains part response_lower) (name_parts doc_name).

(** The value of [is_referenced] at the end of the loop body for one
    excerpt. *)
Definition is_referenced (response_lower : string) (e : excerpt) : bool :=
  let doc_name := PyStr.lower (document e) in
  let excerpt_text := PyStr.lower (text e) in
  let key_phrases_from_doc := key_phrases excerpt_text in
  let is_referenced := false in
  let is_referenced :=
    if name_mentioned response_lower doc_name then true else is_referenced in
  phrase_loop response_lower is_referenced key_phrases_from_doc.

(** The loop that fills [actual_sources]. *)
Definition attribution_step (response_lower : string)
    (actual_sources : list excerpt) (e : excerpt) : list excerpt :=
  if is_referenced response_lower e then (actual_sources ++ [e])%list
  else actual_sources.

Definition verify_sources (response : string) (document_excerpts : list excerpt)
  : list excerpt :=
  fold_left (attribution_step (PyStr.lower response)) document_excerpts [].

(** The loop that builds [context]; [i] is the index [enumerate] gives. *)
Fixpoint build_context (i : nat) (context : string) (document_excerpts : list excerpt)
  : string :=
  match document_excerpts with
  | [] => context
  | e :: r =>
      let doc_label := "Document_" ++ pretty (i + 1) in
      build_context (i + 1)
        (context ++ "

" ++ doc_label ++ " - " ++ document e ++ ":
" ++ text e)
        r
  end.

(** The dictionary [process_query] returns. *)
Record query_result := {
  response : string;
  sources : list excerpt;
  processing_time : N;
  optimization_tips : list string
}.

(** The state [process_query] runs in. *)
Record app_state := {
  app_world : world;
  app_client : option generator;
  app_analytics : analytics
}.

(** [process_query].  [today] and [elapsed] are the readings of the clock:
    the date at logging time and the time since [start_time]. *)
Definition process_query (today : string) (elapsed : N) (s : app_state)
    (query user_id department : string)
    (conversation_history : option (list history_item))
  : outcome query_result * app_state :=
  let '(relevant_docs, w) := find_relevant_documents (app_world s) query in
  let document_excerpts := get_document_excerpts relevant_docs query in
  let context := build_context 0 "" document_excerpts in
  let '(generated, logged) :=
    generate_response (app_client s) query context conversation_history in
  let w := {| w_processor := w_processor w; w_fs := w_fs w;
              w_log := (w_log w ++ logged)%list |} in
  match generated with
  | Returned response =>
      let actual_sources := verify_sources response document_excerpts in
      (Returned
         {| response := response;
            sources := actual_sources;
            processing_time := elapsed;
            optimization_tips :=
              match actual_sources with
              | [] => []
              | _ => ["📄 Click on document links to view the full source documents"]
              end |},
       {| app_world := w; app_client := app_client s;
          app_analytics :=
            log_usage_analytics today (app_analytics s) user_id department query
              elapsed actual_sources false |})
  | Raised e =>
      (Raised e,
       {| app_world := w; app_client := app_client s;
          app_analytics :=
            log_usage_analytics today (app_analytics s) user_id department query
              elapsed [] true |})
  end.

(* ===================================================================== *)
(** * Notions used in the statements *)
(* ===================================================================== *)

(** Descending by score. *)
Definition score_ge (a b : candidate) : Prop := c_score b <= c_score a.

(** [l'] keeps the candidates of every score in the order they have in [l]. *)
Definition ties_in_order (l l' : list candidate) : Prop :=
  forall s, List.filter (fun c => c_score c =? s) l'
            = List.filter (fun c => c_score c =? s) l.

(** The dominance rule, on a ranked list. *)
Definition dominance (ranked : list candidate) : list candidate :=
  match ranked with
  | a :: b :: _ => if decide (2 * c_score b < c_score a) then [a] else [a; b]
  | _ => ranked
  end.

(** The admission gate, as a proposition on the three counts. *)
Definition gate (total name_hits content_hits pattern : nat) : Prop :=
  5 <= total /\ (0 < name_hits \/ 2 < content_hits \/ 0 < pattern).

(* ===================================================================== *)
(** * Sample worlds *)
(* ===================================================================== *)

Module Samples.

Definition pto_text : string :=
  "Employees receive 15 days of paid time off annually. Vacation requests must be submitted two weeks in advance.".

Definition file (name : string) : dirent := {| d_name := name; d_is_dir := false |}.

(** A folder with two readable documents, an unsupported file and a
    directory. *)
Definition fs_two : filesystem :=
  {| fs_folder :=
       Some (Returned [ file "pto-policy.txt"; file "Health Benefits.txt";
                        file "notes.md";
                        {| d_name := "archive"; d_is_dir := true |} ]);
     fs_makedirs := None;
     fs_read := fun _ p =>
       if String.eqb p "documents/pto-policy.txt" then Returned pto_text
       else Returned "Medical and dental insurance coverage starts on the first day." |}.

Definition w_two : world :=
  {| w_processor := Some "documents"; w_fs := fs_two; w_log := [] |}.

Definition pto_candidate : candidate :=
  {| c_name := "pto_policy"; c_path := "documents/pto-policy.txt";
     c_score := 9; c_content := pto_text |}.

End Samples.

(** What the loop body guarantees of every candidate it appends. *)
Definition well_scored (query_lower : string) (c : candidate) : Prop :=
  c_score c
  = total_score query_lower (PyStr.lower (c_name c)) (PyStr.lower (c_content c))
  /\ admitted query_lower (PyStr.lower (c_name c)) (PyStr.lower (c_content c)) = true.

(** Whether a phrase carries the candidate: at least two significant words,
    three fifths of which occur in the answer. *)
Definition phrase_echoed (response_lower phrase : string) : bool :=
  let ws := phrase_words phrase in
  (2 <=? length ws)
  && overlap_reached
       (count_if (fun word => PyStr.contains word response_lower) ws) (length ws).

(** The claim's words: the period-split fragments of the (lowercased) full
    text whose trimmed length exceeds 20, the first three of them. *)
Definition long_fragments (full_text : string) : list string :=
  firstn 3
    (List.filter (fun fragment => 20 <? String.length (PyStr.strip fragment))
       (PyStr.split_on "." full_text)).

(** The words of a fragment longer than four characters. *)
Definition significant_words (fragment : string) : list string :=
  List.filter (fun w => 4 <? String.length w) (PyStr.split fragment).

(** The fraction of the words that occur in the answer. *)
Definition overlap_fraction (response_lower : string) (ws : list string) : Q :=
  Z.of_nat (count_if (fun word => PyStr.contains word response_lower) ws)
  # Pos.of_nat (length ws).

Definition sample_excerpt : excerpt :=
  {| document := "pto_policy"; text := Samples.pto_text; highlight := "" |}.

Definition sample_answer : string :=
  "Employees receive fifteen days annually, to be requested ahead.".

(** The candidate the loop body builds for an item of [document_files]. *)
Definition candidate_of (fs : filesystem) (query_lower : string)
    (item : string * string) : candidate :=
  let content := DynamicDocumentProcessor.extract_text_from_file fs (snd item) in
  {| c_name := fst item; c_path := snd item;
     c_score := total_score query_lower (PyStr.lower (fst item)) (PyStr.lower content);
     c_content := content |}.

Definition admits (fs : filesystem) (query_lower : string)
    (item : string * string) : bool :=
  admitted query_lower (PyStr.lower (fst item))
    (PyStr.lower (DynamicDocumentProcessor.extract_text_from_file fs (snd item))).

(** The candidates that do not come from the file at [path]. *)
Definition not_from (path : string) (l : list candidate) : list candidate :=
  List.filter (fun c => negb (String.eqb (c_path c) path)) l.

(** The claim as the specification words it: when the text of a document of
    the scan cannot be obtained, the document is left out of the result and
    a diagnostic is logged. *)
Definition failing_document_excluded : Prop :=
  forall (w : world) (query folder : string) (entries : list dirent)
         (name path e : string),
    w_processor w = Some folder ->
    fs_folder (w_fs w) = Some (Returned entries) ->
    In (name, path) (DynamicDocumentProcessor.scan_entries folder entries) ->
    fs_read (w_fs w) (snd (OsPath.splitext (PyStr.lower path))) path = Raised e ->
    ~ In name (map c_name (fst (find_relevant_documents w query)))
    /\ w_log (snd (find_relevant_documents w query)) <> w_log w.

Module FailingRead.

(** A folder whose only document cannot be opened: [open] raises in
    [_read_text_file]. *)
Definition detail : string :=
  "[Errno 13] Permission denied: 'documents/Health Benefits.txt'".

Definition entries : list dirent := [Samples.file "Health Benefits.txt"].

Definition fs : filesystem :=
  {| fs_folder := Some (Returned entries);
     fs_makedirs := None;
     fs_read := fun _ _ => Raised detail |}.

Definition w : world :=
  {| w_processor := Some "documents"; w_fs := fs; w_log := [] |}.

Definition path : string := "documents/Health Benefits.txt".

Definition message : string :=
  "Error reading documents/Health Benefits.txt: [Errno 13] Permission denied: 'documents/Health Benefits.txt'".

End FailingRead.

(** The claim as the specification words it: a request whose generator call
    raises or returns no content is counted as an error in the analytics. *)
Definition generator_failure_counted : Prop :=
  forall (today : string) (elapsed : N) (s : app_state)
         (query user_id department : string) (create : generator),
    app_client s = Some create ->
    (forall prompt, (exists e, create prompt = Raised e) \/ create prompt = Returned []) ->
    error_count
      (app_analytics
         (snd (process_query today elapsed s query user_id department None)))
    = error_count (app_analytics s) + 1.

Module FailingGenerator.

Definition create : generator := fun _ => Raised "timeout".

Definition s : app_state :=
  {| app_world := Samples.w_two; app_client := Some create;
     app_analytics := initial_analytics |}.

End FailingGenerator.

(** The prompt [process_query] sends for a query, given the rendered
    conversation context. *)
Definition prompt_of (s : app_state) (query conversation_context : string) : string :=
  build_prompt query
    (build_context 0 ""
       (get_document_excerpts (fst (find_relevant_documents (app_world s) query)) query))
    conversation_context.

Definition raised {A} (o : outcome A) : bool :=
  match o with
  | Raised _ => true
  | Returned _ => false
  end.

(** The claim's words: the identifier, split on its separator, shares a token
    with the topic name. *)
Definition shares_token (doc_name_lower topic : string) : bool :=
  existsb (fun token => existsb (String.eqb token) (PyStr.split_on "_" topic))
    (PyStr.split_on "_" doc_name_lower).

Definition keyword_count (query_lower : string) (keywords : list string) : nat :=
  count_if (fun keyword => PyStr.contains keyword query_lower) keywords.

(** The claim's words: per topic the count of its keywords in the query,
    multiplied by 5 only when a token is shared; the maximum over the
    topics. *)
Definition spec_pattern_score (query_lower doc_name_lower : string) : nat :=
  list_max
    (map (fun entry : string * list string =>
            if shares_token doc_name_lower (fst entry)
            then keyword_count query_lower (snd entry) * 5
            else keyword_count query_lower (snd entry))
       doc_patterns).

(** What the code tests instead: a part of the topic name occurs somewhere in
    the identifier. *)
Definition name_has_part (doc_name_lower topic : string) : bool :=
  existsb (fun pattern_part => PyStr.contains pattern_part doc_name_lower)
    (PyStr.split_on "_" topic).

Definition topic_value (query_lower doc_name_lower : string)
    (entry : string * list string) : nat :=
  if name_has_part doc_name_lower (fst entry)
  then 5 * keyword_count query_lower (snd entry)
  else 0.

(** A directory entry the scan takes: a file with a supported extension. *)
Definition taken (e : dirent) : bool :=
  negb (d_is_dir e)
  && DynamicDocumentProcessor.is_supported
       (snd (OsPath.splitext (PyStr.lower (d_name e)))).

(** The claim as the specification words it: distinct supported files get
    distinct identifiers, and none is lost from the scan. *)
Definition identifiers_unique : Prop :=
  forall (folder : string) (entries : list dirent) (e1 e2 : dirent),
    In e1 entries -> In e2 entries ->
    taken e1 = true -> taken e2 = true ->
    d_name e1 <> d_name e2 ->
    DynamicDocumentProcessor.doc_key (d_name e1)
    <> DynamicDocumentProcessor.doc_key (d_name e2)
    /\ In (OsPath.join folder (d_name e1))
          (map snd (DynamicDocumentProcessor.scan_entries folder entries)).

Module Collision.

Definition entries : list dirent :=
  [Samples.file "pto policy.txt"; Samples.file "pto-policy.pdf"].

End Collision.

Definition is_separator (c : ascii) : bool := Ascii.eqb c " " || Ascii.eqb c "-".

(** Two listings of the documents folder show the same content: the same
    entries, in whatever order [os.listdir] gives them.  A missing folder and
    a listing that raises are the same only as themselves. *)
Definition same_listing (l l' : option (outcome (list dirent))) : Prop :=
  match l, l' with
  | Some (Returned entries), Some (Returned entries') => Permutation entries entries'
  | _, _ => l = l'
  end.

(** Two worlds hold the same corpus content: the same processor, the same
    entries in the documents folder and the same outcome of every read.  The
    logs, and whether a missing folder can be created, may differ. *)
Definition same_content (w w' : world) : Prop :=
  w_processor w = w_processor w'
  /\ same_listing (fs_folder (w_fs w)) (fs_folder (w_fs w'))
  /\ forall ext p, fs_read (w_fs w) ext p = fs_read (w_fs w') ext p.

(** The claim as the specification words it, in its two parts: runs on the
    same corpus content with the same query return the same result, and a run
    leaves the world as it found it. *)
Definition matcher_deterministic : Prop :=
  forall (w w' : world) (query : string),
    same_content w w' ->
    fst (find_relevant_documents w query) = fst (find_relevant_documents w' query).

Definition matcher_side_effect_free : Prop :=
  forall (w : world) (query : string),
    snd (find_relevant_documents w query) = w.

(** No two supported files of a listing get the same identifier. *)
Definition unambiguous (entries : list dirent) : Prop :=
  List.NoDup (map (fun e => DynamicDocumentProcessor.doc_key (d_name e))
                (List.filter taken entries)).

(** The item of [document_files] a supported file gives. *)
Definition item_of (folder : string) (e : dirent) : string * string :=
  (DynamicDocumentProcessor.doc_key (d_name e), OsPath.join folder (d_name e)).

Module Rerun.

(** The sample world with the two documents listed the other way round. *)
Definition w_swapped : world :=
  {| w_processor := Some "documents";
     w_fs := {| fs_folder :=
                  Some (Returned [ Samples.file "Health Benefits.txt";
                                   Samples.file "pto-policy.txt";
                                   Samples.file "notes.md";
                                   {| d_name := "archive"; d_is_dir := true |} ]);
                fs_makedirs := None;
                fs_read := fs_read Samples.fs_two |};
     w_log := [] |}.

(** A world whose documents folder does not exist yet. *)
Definition w_fresh : world :=
  {| w_processor := Some "documents";
     w_fs := {| fs_folder := None; fs_makedirs := None;
                fs_read := fun _ _ => Raised "missing" |};
     w_log := [] |}.

(** A world whose documents folder does not exist and cannot be created. *)
Definition w_read_only : world :=
  {| w_processor := Some "documents";
     w_fs := {| fs_folder := None;
                fs_makedirs := Some "[Errno 30] Read-only file system: 'documents'";
                fs_read := fun _ _ => Raised "missing" |};
     w_log := [] |}.

Definition pto : candidate :=
  {| c_name := "pto_policy"; c_path := "documents/pto-policy.txt";
     c_score := 7; c_content := Samples.pto_text |}.

Definition health : candidate :=
  {| c_name := "Health_Benefits"; c_path := "documents/Health Benefits.txt";
     c_score := 7;
     c_content := "Medical and dental insurance coverage starts on the first day." |}.

End Rerun.

(** The bounds of the ledger: at most 100 response times, at most 50 recent
    queries, each of at most 100 characters. *)
Definition bounded (a : analytics) : Prop :=
  length (response_times a) <= 100
  /\ length (popular_queries a) <= 50
  /\ Forall (fun q => String.length q <= 100) (popular_queries a).

(** A call of the hook, by its arguments. *)
Record call := {
  call_today : string;
  call_user : string;
  call_department : string;
  call_query : string;
  call_time : N;
  call_documents : list excerpt;
  call_error : bool
}.

Definition apply_call (a : analytics) (c : call) : analytics :=
  log_usage_analytics (call_today c) a (call_user c) (call_department c)
    (call_query c) (call_time c) (call_documents c) (call_error c).

(* ===================================================================== *)
(** * [simple_auth.py]: users and sessions *)
(* ===================================================================== *)

Module SimpleUserAuth.

Local Unset Elimination Schemes.

(** A value of the data file, as [json.load] gives it. *)
Inductive json : Type :=
| JNull
| JBool (b : bool)
| JInt (n : Z)
| JFloat (q : Q)
| JStr (s : string)
| JArr (items : list json)
| JObj (members : list (string * json)).

Local Set Elimination Schemes.

(** The truth value Python gives a value in a condition. *)
Definition truthy (v : json) : bool :=
  match v with
  | JNull => false
  | JBool b => b
  | JInt n => negb (n =? 0)%Z
  | JFloat q => negb (Qeq_bool q 0%Q)
  | JStr s => negb (String.eqb s "")
  | JArr items => match items with [] => false | _ => true end
  | JObj members => match members with [] => false | _ => true end
  end.

(** An entry of [data['employees']]: each key may be absent.  A key that is
    present holds a value of the type [init_data_storage] writes, except
    [is_active], of which only the truth value is used and which holds any
    value; [last_login] is [None] also when it holds [null]. *)
Record employee := {
  employee_id : option string;
  username : option string;
  email : option string;
  password_hash : option string;
  first_name : option string;
  last_name : option string;
  department : option string;
  position : option string;
  is_admin : option bool;
  is_active : option json;
  created_at : option string;
  last_login : option string
}.

(** An entry of [self.sessions]; the times are in microseconds. *)
Record session := {
  s_employee_id : string;
  expires_at : Z;
  s_created_at : Z
}.

(** The dictionary the authentication functions return. *)
Record user_info := {
  ui_employee_id : string;
  ui_username : string;
  ui_email : string;
  ui_first_name : string;
  ui_last_name : string;
  ui_department : string;
  ui_position : string;
  ui_is_admin : bool;
  ui_session_token : option string
}.

(** The state of a [SimpleUserAuth]: what reading the data file gives (the
    object under its key [employees], which maps user names to records, or
    the exception raised), the exception that writing it raises, if any, the
    sessions held in memory and the log. *)
Record auth := {
  data_file : outcome (dict employee);
  write_error : option string;
  sessions : gmap string session;
  auth_log : list string
}.

Definition with_log (a : auth) (line : string) : auth :=
  {| data_file := data_file a; write_error := write_error a; sessions := sessions a;
     auth_log := (auth_log a ++ [line])%list |}.

Definition with_sessions (a : auth) (ss : gmap string session) : auth :=
  {| data_file := data_file a; write_error := write_error a; sessions := ss;
     auth_log := auth_log a |}.

(** Sequencing of steps that may raise. *)
Definition bind {A B} (m : outcome A) (k : A -> outcome B) : outcome B :=
  match m with
  | Returned v => k v
  | Raised e => Raised e
  end.

Notation "x <- m ;; k" := (bind m (fun x => k))
  (at level 20, m at level 99, k at level 200, only parsing).

(** [user[key]]: a missing key raises [KeyError], which prints as the key in
    quotes. *)
Definition item {A} (key : string) (field : option A) : outcome A :=
  match field with
  | Some v => Returned v
  | None => Raised ("'" ++ key ++ "'")
  end.

(** [load_data]: the employees, none when the file cannot be read. *)
Definition load_data (a : auth) : dict employee * auth :=
  match data_file a with
  | Returned employees => (employees, a)
  | Raised e => ([], with_log a ("Error loading user data: " ++ e))
  end.

(** [save_data] *)
Definition save_data (a : auth) (employees : dict employee) : bool * auth :=
  match write_error a with
  | None =>
      (true, {| data_file := Returned employees; write_error := write_error a;
                sessions := sessions a; auth_log := auth_log a |})
  | Some e => (false, with_log a ("Error saving user data: " ++ e))
  end.

(** Twenty-four hours. *)
Definition session_lifetime : Z := 86400000000.

(** [create_session]; [token] is what [secrets.token_urlsafe] gives, [now]
    and [created] are the two readings of the clock. *)
Definition create_session (a : auth) (employee_id token : string) (now created : Z)
  : string * auth :=
  (token,
   with_sessions a
     (<[token := {| s_employee_id := employee_id;
                    expires_at := (now + session_lifetime)%Z;
                    s_created_at := created |}]> (sessions a))).

(** The dictionary display that both functions return: the eight keys are
    read in this order, and the first that is missing raises. *)
Definition info_of (user : employee) (session_token : option string)
  : outcome user_info :=
  v_employee_id <- item "employee_id" (employee_id user) ;;
  v_username <- item "username" (username user) ;;
  v_email <- item "email" (email user) ;;
  v_first_name <- item "first_name" (first_name user) ;;
  v_last_name <- item "last_name" (last_name user) ;;
  v_department <- item "department" (department user) ;;
  v_position <- item "position" (position user) ;;
  v_is_admin <- item "is_admin" (is_admin user) ;;
  Returned {| ui_employee_id := v_employee_id;
              ui_username := v_username;
              ui_email := v_email;
              ui_first_name := v_first_name;
              ui_last_name := v_last_name;
              ui_department := v_department;
              ui_position := v_position;
              ui_is_admin := v_is_admin;
              ui_session_token := session_token |}.

(** [user['last_login'] = datetime.now().isoformat()] *)
Definition logged_in (user : employee) (now_iso : string) : employee :=
  {| employee_id := employee_id user; username := username user;
     email := email user; password_hash := password_hash user;
     first_name := first_name user; last_name := last_name user;
     department := department user; position := position user;
     is_admin := is_admin user; is_active := is_active user;
     created_at := created_at user; last_login := Some now_iso |}.

(** [user.get('password_hash') == password_hash and user.get('is_active', True)],
    as a condition. *)
Definition password_accepted (user : employee) (password_hash_given : string) : bool :=
  match password_hash user with
  | Some stored => String.eqb stored password_hash_given
  | None => false
  end
  && match is_active user with
     | Some v => truthy v
     | None => true
     end.

Section Hash.

(** [hash_password]: the SHA-256 digest in hexadecimal. *)
Variable hash_password : string -> string.

(** [authenticate_user]; [now_iso] is the clock reading stored as the last
    login.  An exception of the body, here the [KeyError] of a record that
    lacks a key, is logged and [None] returned, with whatever the body did up
    to then left in place. *)
Definition authenticate_user (a : auth) (username password : string)
    (now_iso token : string) (now created : Z) : option user_info * auth :=
  let '(employees, a) := load_data a in
  let password_hash_given := hash_password password in
  match dict_get username employees with
  | Some user =>
      if password_accepted user password_hash_given
      then
        let user := logged_in user now_iso in
        let '(_, a) := save_data a (dict_set username user employees) in
        match item "employee_id" (employee_id user) with
        | Returned id =>
            let '(session_token, a) := create_session a id token now created in
            match info_of user (Some session_token) with
            | Returned info => (Some info, a)
            | Raised e => (None, with_log a ("Authentication error: " ++ e))
            end
        | Raised e => (None, with_log a ("Authentication error: " ++ e))
        end
      else (None, a)
  | None => (None, a)
  end.

End Hash.

(** The loop of [get_user_from_session] over the employees. *)
Fixpoint find_employee (employee_id_sought : string) (employees : dict employee)
  : outcome (option user_info) :=
  match employees with
  | [] => Returned None
  | (_, user) :: rest =>
      id <- item "employee_id" (employee_id user) ;;
      if String.eqb id employee_id_sought
      then info <- info_of user None ;; Returned (Some info)
      else find_employee employee_id_sought rest
  end.

(** [get_user_from_session]; an exception of the loop is logged and [None]
    returned. *)
Definition get_user_from_session (a : auth) (session_token : string) (now : Z)
  : option user_info * auth :=
  if String.eqb session_token "" then (None, a)
  else
    match sessions a !! session_token with
    | None => (None, a)
    | Some session =>
        if (expires_at session <? now)%Z
        then (None, with_sessions a (delete session_token (sessions a)))
        else
          let '(employees, a) := load_data a in
          match find_employee (s_employee_id session) employees with
          | Returned found => (found, a)
          | Raised e => (None, with_log a ("Session validation error: " ++ e))
          end
    end.

(** [logout_user] *)
Definition logout_user (a : auth) (session_token : string) : bool * auth :=
  match sessions a !! session_token with
  | Some _ => (true, with_sessions a (delete session_token (sessions a)))
  | None => (false, a)
  end.

End SimpleUserAuth.

(** The user name is in the data file with the hash of the password and is
    not marked inactive: [is_active] is absent or holds a value that counts
    as true. *)
Definition credentials_ok (hash_password : string -> string)
    (a : SimpleUserAuth.auth) (name password : string)
    (user : SimpleUserAuth.employee) : Prop :=
  dict_get name (fst (SimpleUserAuth.load_data a)) = Some user
  /\ SimpleUserAuth.password_hash user = Some (hash_password password)
  /\ from_option SimpleUserAuth.truthy true (SimpleUserAuth.is_active user) = true.

(** A record has the eight keys of the answer. *)
Definition complete (user : SimpleUserAuth.employee) : Prop :=
  is_Some (SimpleUserAuth.employee_id user)
  /\ is_Some (SimpleUserAuth.username user)
  /\ is_Some (SimpleUserAuth.email user)
  /\ is_Some (SimpleUserAuth.first_name user)
  /\ is_Some (SimpleUserAuth.last_name user)
  /\ is_Some (SimpleUserAuth.department user)
  /\ is_Some (SimpleUserAuth.position user)
  /\ is_Some (SimpleUserAuth.is_admin user).

(** [info] is the answer for the first employee with identifier [id]: the
    records listed before it have other identifiers, and it has the eight
    keys of the answer. *)
Definition first_with_id (id : string) (employees : dict SimpleUserAuth.employee)
    (info : SimpleUserAuth.user_info) : Prop :=
  exists before name user after,
    employees = (before ++ (name, user) :: after)%list
    /\ Forall (fun entry => exists other,
                 SimpleUserAuth.employee_id (snd entry) = Some other /\ other <> id)
         before
    /\ SimpleUserAuth.employee_id user = Some id
    /\ SimpleUserAuth.info_of user None = Returned info.

(** The session [create_session] stores. *)
Definition session_of (id : string) (now created : Z) : SimpleUserAuth.session :=
  {| SimpleUserAuth.s_employee_id := id;
     SimpleUserAuth.expires_at := (now + SimpleUserAuth.session_lifetime)%Z;
     SimpleUserAuth.s_created_at := created |}.

Module AuthSamples.

Import SimpleUserAuth.

Definition toy_hash (password : string) : string := "sha256:" ++ password.

Definition jane : employee :=
  {| employee_id := Some "EMP002"; username := Some "jane.smith";
     email := Some "jane.smith@company.com";
     password_hash := Some (toy_hash "password123");
     first_name := Some "Jane"; last_name := Some "Smith";
     department := Some "Human Resources"; position := Some "HR Manager";
     is_admin := Some false; is_active := Some (JBool true);
     created_at := Some "2025-01-01T09:00:00"; last_login := None |}.

Definition jane_info (session_token : option string) : user_info :=
  {| ui_employee_id := "EMP002"; ui_username := "jane.smith";
     ui_email := "jane.smith@company.com"; ui_first_name := "Jane";
     ui_last_name := "Smith"; ui_department := "Human Resources";
     ui_position := "HR Manager"; ui_is_admin := false;
     ui_session_token := session_token |}.

Definition a0 : auth :=
  {| data_file := Returned [("jane.smith", jane)]; write_error := None;
     sessions := ∅; auth_log := [] |}.

Definition old_session : session :=
  {| s_employee_id := "EMP002"; expires_at := 100; s_created_at := 0 |}.

Definition a_old : auth :=
  {| data_file := Returned [("jane.smith", jane)]; write_error := None;
     sessions := {[ "tok" := old_session ]}; auth_log := [] |}.

(** Jane's record without the key [email]. *)
Definition jane_no_email : employee :=
  {| employee_id := Some "EMP002"; username := Some "jane.smith";
     email := None;
     password_hash := Some (toy_hash "password123");
     first_name := Some "Jane"; last_name := Some "Smith";
     department := Some "Human Resources"; position := Some "HR Manager";
     is_admin := Some false; is_active := Some (JBool true);
     created_at := Some "2025-01-01T09:00:00"; last_login := None |}.

Definition a_no_email : auth :=
  {| data_file := Returned [("jane.smith", jane_no_email)]; write_error := None;
     sessions := ∅; auth_log := [] |}.

(** Jane's record with [is_active] set to [null]. *)
Definition jane_null_active : employee :=
  {| employee_id := Some "EMP002"; username := Some "jane.smith";
     email := Some "jane.smith@company.com";
     password_hash := Some (toy_hash "password123");
     first_name := Some "Jane"; last_name := Some "Smith";
     department := Some "Human Resources"; position := Some "HR Manager";
     is_admin := Some false; is_active := Some JNull;
     created_at := Some "2025-01-01T09:00:00"; last_login := None |}.

Definition a_null_active : auth :=
  {| data_file := Returned [("jane.smith", jane_null_active)]; write_error := None;
     sessions := ∅; auth_log := [] |}.

(** A record without any key, listed before Jane's. *)
Definition ghost : employee :=
  {| employee_id := None; username := None; email := None; password_hash := None;
     first_name := None; last_name := None; department := None; position := None;
     is_admin := None; is_active := None; created_at := None; last_login := None |}.

Definition a_ghost : auth :=
  {| data_file := Returned [("ghost", ghost); ("jane.smith", jane)];
     write_error := None; sessions := ∅; auth_log := [] |}.

End AuthSamples.

(* ===================================================================== *)
(** * Further notions: the matcher *)
(* ===================================================================== *)

(** The worlds in which the scan finds no document: no processor, no
    documents folder, a listing that raises, or a folder none of whose
    entries is a file with a supported extension. *)
Definition no_documents (w : world) : Prop :=
  w_processor w = None
  \/ fs_folder (w_fs w) = None
  \/ (exists e, fs_folder (w_fs w) = Some (Raised e))
  \/ (exists entries, fs_folder (w_fs w) = Some (Returned entries)
                      /\ Forall (fun e => taken e = false) entries).

(** The scan of the documents folder raises [e]: listing the folder raises
    it, or the folder is missing and creating it raises it. *)
Definition scan_raises (fs : filesystem) (e : string) : Prop :=
  fs_folder fs = Some (Raised e)
  \/ (fs_folder fs = None /\ fs_makedirs fs = Some e).

(** The dictionary [scan_documents_folder] gives in a world ([[]] when it
    raises or no processor exists). *)
Definition document_files_of (w : world) : dict string :=
  match w_processor w with
  | None => []
  | Some folder =>
      match fst (DynamicDocumentProcessor.scan_documents_folder folder (w_fs w)) with
      | Returned document_files => document_files
      | Raised _ => []
      end
  end.

(** The item of the scanned dictionary a directory entry gives rise to. *)
Definition from_entry (folder : string) (entries : list dirent)
    (item : string * string) : Prop :=
  exists e, In e entries /\ taken e = true
            /\ fst item = DynamicDocumentProcessor.doc_key (d_name e)
            /\ snd item = OsPath.join folder (d_name e).

(** The index of the last occurrence of a character, if any. *)
Fixpoint rindex (c : ascii) (s : string) : option nat :=
  match s with
  | EmptyString => None
  | String d t =>
      match rindex c t with
      | Some k => Some (S k)
      | None => if Ascii.eqb d c then Some 0 else None
      end
  end.

(** A name as [os.listdir] gives them: without a path separator. *)
Definition no_slash (name : string) : Prop :=
  PyStr.any_char (fun c => Ascii.eqb c "/") name = false.

(** What [extract_text_from_file] does with the reader for [ext]. *)
Definition read_with (fs : filesystem) (ext file_path : string) : string :=
  match fs_read fs ext file_path with
  | Returned text => text
  | Raised e => "Error reading " ++ file_path ++ ": " ++ e
  end.

(** An entry of the history on which [msg.get] raises. *)
Definition malformed (item : history_item) : bool :=
  match item with
  | NotAnObject _ => true
  | Msg _ _ => false
  end.

(** The entries of the history [generate_response] looks at. *)
Definition recent_history (conversation_history : option (list history_item))
  : list history_item :=
  match conversation_history with
  | None => []
  | Some h => PyStr.last_n 4 h
  end.

(** The labels [classify_query_type] can give. *)
Definition query_type_labels : list string :=
  ["PTO & Leave"; "Health Benefits"; "IT Security"; "Employee Handbook";
   "Organization"; "AI Usage"; "General"].

(** The keywords of the five rules that come before the rule for AI usage. *)
Definition earlier_rule_keywords : list string :=
  ["pto"; "vacation"; "time off"; "leave"; "holiday";
   "health"; "medical"; "benefits"; "insurance"; "dental";
   "security"; "password"; "it policy"; "vpn"; "network";
   "handbook"; "policy"; "employee"; "work hours"; "dress code";
   "org"; "organization"; "structure"; "contact"; "email"; "phone"].

(** The sum of the counters of a dictionary. *)
Definition total_of (m : gmap string nat) : nat :=
  map_fold (fun _ v acc => v + acc) 0 m.

(** What the counters of the ledger add up to. *)
Definition ledger_consistent (a : analytics) : Prop :=
  error_count a <= total_queries a
  /\ total_of (departments a) = total_queries a
  /\ total_of (query_types a) = total_queries a
  /\ total_of (daily_usage a) = total_queries a
  /\ map_Forall (fun _ u => 1 <= query_count u) (users a).

(** The number of the excerpts that come from document [name]. *)
Definition uses_of (name : string) (documents_used : list excerpt) : nat :=
  length (List.filter (fun doc => String.eqb (document doc) name) documents_used).

Module Extras.

Definition w_empty_folder : world :=
  {| w_processor := Some "documents";
     w_fs := {| fs_folder := Some (Returned [ {| d_name := "archive"; d_is_dir := true |};
                                              Samples.file "notes.md" ]);
                fs_makedirs := None;
                fs_read := fun _ _ => Raised "unused" |};
     w_log := [] |}.

Definition w_listing_fails : world :=
  {| w_processor := Some "documents";
     w_fs := {| fs_folder := Some (Raised "[Errno 13] Permission denied: 'documents'");
                fs_makedirs := None;
                fs_read := fun _ _ => Raised "unused" |};
     w_log := [] |}.

Definition health_text : string :=
  "Medical and dental insurance coverage starts on the first day.".

Definition echo : generator := fun prompt => Returned [TextBlock "Noted."].

Definition s_echo : app_state :=
  {| app_world := Samples.w_two; app_client := Some echo;
     app_analytics := initial_analytics |}.

Definition turn (who what : string) : history_item := Msg (Some who) (Some what).

Definition recent : list history_item :=
  [turn "user" "Hi"; turn "assistant" "Hello"; turn "user" "PTO?";
   turn "assistant" "15 days"].

End Extras.

(* ===================================================================== *)
(** * The relevance matcher: ranking, cut-off and admission *)
(* ===================================================================== *)

Section Sorting.

Lemma insert_desc_perm x l : Permutation (x :: l) (insert_desc x l).
Proof.
  induction l as [|y r IH]; simpl; [reflexivity|].
  destruct (c_score y <=? c_score x); [reflexivity|].
  rewrite perm_swap. now apply perm_skip.
Qed.

Lemma sort_desc_perm l : Permutation l (sort_desc l).
Proof.
  induction l as [|x l IH]; simpl; [constructor|].
  etransitivity; [apply perm_skip, IH | apply insert_desc_perm].
Qed.

Lemma insert_desc_sorted x l :
  StronglySorted score_ge l -> StronglySorted score_ge (insert_desc x l).
Proof.
  induction 1 as [|y r Hr IH Hy]; simpl.
  - repeat constructor.
  - destruct (c_score y <=? c_score x) eqn:E.
    + apply Nat.leb_le in E. constructor; [now constructor|].
      constructor; [exact E|].
      eapply List.Forall_impl; [|exact Hy]. unfold score_ge. intros; lia.
    + apply Nat.leb_gt in E. constructor; [exact IH|].
      eapply Permutation_Forall; [apply insert_desc_perm|].
      constructor; [unfold score_ge; lia | exact Hy].
Qed.

Lemma sort_desc_sorted l : StronglySorted score_ge (sort_desc l).
Proof.
  induction l; simpl; [constructor | now apply insert_desc_sorted].
Qed.

Lemma insert_desc_ties x l s :
  List.filter (fun c => c_score c =? s) (insert_desc x l)
  = List.filter (fun c => c_score c =? s) (x :: l).
Proof.
  induction l as [|y r IH]; [reflexivity|].
  cbn [insert_desc]. destruct (c_score y <=? c_score x) eqn:E; [reflexivity|].
  apply Nat.leb_gt in E. cbn [List.filter] in *. rewrite IH.
  destruct (c_score x =? s) eqn:Ex, (c_score y =? s) eqn:Ey; try reflexivity.
  apply Nat.eqb_eq in Ex, Ey. lia.
Qed.

Lemma sort_desc_ties l : ties_in_order l (sort_desc l).
Proof.
  intros s. induction l as [|x l IH]; [reflexivity|].
  cbn [sort_desc fold_right]. rewrite insert_desc_ties. cbn [List.filter].
  fold (sort_desc l). now rewrite IH.
Qed.

End Sorting.

Lemma top_candidates_dominance l : top_candidates l = dominance l.
Proof.
  destruct l as [|a [|b r]]; try reflexivity.
  unfold top_candidates, dominance.
  destruct (c_score b * 2 <? c_score a) eqn:E; case_decide; try reflexivity.
  - apply Nat.ltb_lt in E. lia.
  - apply Nat.ltb_ge in E. lia.
Qed.

Lemma find_relevant_documents_result w q :
  fst (find_relevant_documents w q)
  = top_candidates (sort_desc (admitted_candidates w q)).
Proof.
  unfold find_relevant_documents, admitted_candidates.
  destruct (w_processor w); [|reflexivity].
  destruct (DynamicDocumentProcessor.scan_documents_folder _ _) as [[docs|e] fs'];
    reflexivity.
Qed.

Lemma top_candidates_length l : length (top_candidates l) <= 2.
Proof.
  destruct l as [|a [|b r]]; simpl; try lia.
  destruct (c_score b * 2 <? c_score a); simpl; lia.
Qed.

Lemma top_candidates_incl l c : In c (top_candidates l) -> In c l.
Proof.
  destruct l as [|a [|b r]]; simpl; try tauto.
  destruct (c_score b * 2 <? c_score a); simpl; tauto.
Qed.

(** C1: the matcher returns at most two candidates; the admitted candidates
    are ranked by a stable sort on descending total score (a permutation of
    them, descending, ties in scan order); and the result is the head of the
    ranking alone when there are at least two ranked candidates and the first
    score exceeds twice the second, the first two otherwise. *)
Theorem find_relevant_documents_ranked (w : world) (query : string) :
  let ranked := sort_desc (admitted_candidates w query) in
  let result := fst (find_relevant_documents w query) in
  length result <= 2
  /\ Permutation (admitted_candidates w query) ranked
  /\ StronglySorted score_ge ranked
  /\ ties_in_order (admitted_candidates w query) ranked
  /\ result = dominance ranked.
Proof.
  cbv zeta. rewrite find_relevant_documents_result.
  split; [apply top_candidates_length|].
  split; [apply sort_desc_perm|].
  split; [apply sort_desc_sorted|].
  split; [apply sort_desc_ties|].
  apply top_candidates_dominance.
Qed.

Lemma scan_loop_well_scored fs q docs acc :
  Forall (well_scored q) acc ->
  Forall (well_scored q) (fold_left (scan_step fs q) docs acc).
Proof.
  revert acc. induction docs as [|[doc_name file_path] docs IH]; intros acc Hacc;
    [exact Hacc|].
  cbn [fold_left]. apply IH. unfold scan_step.
  destruct (admitted q _ _) eqn:E; [|exact Hacc].
  apply Forall_app. split; [exact Hacc|].
  constructor; [|constructor]. split; [reflexivity | exact E].
Qed.

Lemma admitted_candidates_well_scored w q :
  Forall (well_scored (PyStr.lower q)) (admitted_candidates w q).
Proof.
  unfold admitted_candidates.
  destruct (w_processor w); [|constructor].
  destruct (DynamicDocumentProcessor.scan_documents_folder _ _) as [[docs|e] fs'];
    [|constructor].
  apply scan_loop_well_scored. constructor.
Qed.

Lemma returned_is_admitted w q c :
  In c (fst (find_relevant_documents w q)) -> In c (admitted_candidates w q).
Proof.
  rewrite find_relevant_documents_result. intros H.
  apply top_candidates_incl in H.
  eapply Permutation_in; [symmetry; apply sort_desc_perm | exact H].
Qed.

Lemma admitted_gate q n c :
  admitted q n c = true ->
  gate (total_score q n c) (name_matches q n) (content_matches q c)
       (best_pattern_score q n).
Proof.
  unfold admitted, gate. intros H.
  apply andb_prop in H as [H5 Hor]. apply Nat.leb_le in H5.
  split; [exact H5|].
  apply orb_prop in Hor as [Hor|Hp].
  - apply orb_prop in Hor as [Hn|Hc].
    + left. now apply Nat.ltb_lt.
    + right; left. now apply Nat.ltb_lt.
  - right; right. now apply Nat.ltb_lt.
Qed.

(** C2: a candidate the matcher returns carries the total score of its
    document, that score is at least 5, and the document has a name match, or
    more than two content matches, or a positive pattern score. *)
Theorem returned_candidate_passes_gate (w : world) (query : string) (c : candidate) :
  In c (fst (find_relevant_documents w query)) ->
  let q := PyStr.lower query in
  let n := PyStr.lower (c_name c) in
  let t := PyStr.lower (c_content c) in
  c_score c = total_score q n t
  /\ gate (c_score c) (name_matches q n) (content_matches q t) (best_pattern_score q n)
  /\ ~ c_score c < 5.
Proof.
  intros Hin. cbv zeta.
  apply returned_is_admitted in Hin.
  pose proof (admitted_candidates_well_scored w query) as Hall.
  rewrite List.Forall_forall in Hall. destruct (Hall c Hin) as [Hs Ha].
  apply admitted_gate in Ha. rewrite <- Hs in Ha.
  split; [exact Hs|]. split; [exact Ha|]. destruct Ha. lia.
Qed.

Lemma returned_candidate_passes_gate_witness :
  In Samples.pto_candidate
     (fst (find_relevant_documents Samples.w_two "How many vacation days do I get?"))
  /\ c_score Samples.pto_candidate = 9
  /\ gate 9 0 2 5.
Proof.
  assert (Hin : In Samples.pto_candidate
     (fst (find_relevant_documents Samples.w_two "How many vacation days do I get?"))).
  { vm_compute. left. reflexivity. }
  split; [exact Hin|]. split; [reflexivity|].
  exact (proj1 (proj2
    (returned_candidate_passes_gate Samples.w_two
       "How many vacation days do I get?" Samples.pto_candidate Hin))).
Defined.

(* ===================================================================== *)
(** * The source attribution verifier *)
(* ===================================================================== *)

Lemma attribution_loop_filter response_lower l acc :
  fold_left (attribution_step response_lower) l acc
  = (acc ++ List.filter (is_referenced response_lower) l)%list.
Proof.
  revert acc. induction l as [|e l IH]; intros acc; cbn [fold_left List.filter].
  - now rewrite app_nil_r.
  - rewrite IH. unfold attribution_step.
    destruct (is_referenced response_lower e); [|reflexivity].
    now rewrite <- app_assoc.
Qed.

Lemma verify_sources_filter response l :
  verify_sources response l
  = List.filter (is_referenced (PyStr.lower response)) l.
Proof. unfold verify_sources. now rewrite attribution_loop_filter. Qed.

Lemma filter_sublist {A} (p : A -> bool) (l : list A) :
  List.filter p l `sublist_of` l.
Proof.
  induction l as [|x l IH]; cbn [List.filter]; [constructor|].
  destruct (p x); [now apply sublist_skip | now apply sublist_cons].
Qed.

Lemma sublist_map {A B} (f : A -> B) (l1 l2 : list A) :
  l1 `sublist_of` l2 -> map f l1 `sublist_of` map f l2.
Proof.
  induction 1; cbn [map]; [constructor | now apply sublist_skip | now apply sublist_cons].
Qed.

(** C3: whatever the answer text and the candidates offered, the verifier
    returns a subsequence of them: every source it returns was offered, and
    the sources (and their document identifiers) come in the order of the
    input. *)
Theorem verify_sources_subsequence (response : string) (offered : list excerpt) :
  verify_sources response offered `sublist_of` offered
  /\ map document (verify_sources response offered) `sublist_of` map document offered
  /\ Forall (fun e => In e offered) (verify_sources response offered).
Proof.
  rewrite verify_sources_filter.
  split; [apply filter_sublist|].
  split; [apply sublist_map, filter_sublist|].
  apply List.Forall_forall. intros e He. now apply List.filter_In in He.
Qed.

(** The sources [process_query] returns are those the verifier keeps of the
    excerpts built from the matcher's candidates. *)
Lemma process_query_sources today elapsed s q u d h r s' :
  process_query today elapsed s q u d h = (Returned r, s') ->
  sources r
  = verify_sources (response r)
      (get_document_excerpts (fst (find_relevant_documents (app_world s) q)) q).
Proof.
  unfold process_query.
  destruct (find_relevant_documents (app_world s) q) as [docs w].
  destruct (generate_response _ _ _ _) as [[resp|e] logged]; intros H;
    inversion H; reflexivity.
Qed.

Section WhiteSpace.

Lemma split_lstrip s : PyStr.split (PyStr.lstrip s) = PyStr.split s.
Proof.
  induction s as [|c t IH]; [reflexivity|].
  cbn [PyStr.lstrip]. destruct (PyStr.is_space c) eqn:E.
  - rewrite IH. cbn [PyStr.split]. now rewrite E.
  - reflexivity.
Qed.

Lemma rstrip_head c t :
  PyStr.rstrip (String c t) = EmptyString
  \/ exists r, PyStr.rstrip (String c t) = String c r.
Proof.
  cbn [PyStr.rstrip]. destruct (PyStr.rstrip t).
  - destruct (PyStr.is_space c); [now left | right; eauto].
  - right; eauto.
Qed.

Lemma rstrip_empty_head c t :
  PyStr.rstrip (String c t) = EmptyString -> PyStr.is_space c = true.
Proof.
  cbn [PyStr.rstrip]. destruct (PyStr.rstrip t); [|discriminate].
  destruct (PyStr.is_space c); [reflexivity | discriminate].
Qed.

Lemma split_cons2 c d t :
  PyStr.split (String c (String d t))
  = if PyStr.is_space c then PyStr.split (String d t)
    else if PyStr.is_space d
         then String c EmptyString :: PyStr.split (String d t)
         else match PyStr.split (String d t) with
              | h :: r => String c h :: r
              | [] => [String c EmptyString]
              end.
Proof. reflexivity. Qed.

Lemma split_rstrip s : PyStr.split (PyStr.rstrip s) = PyStr.split s.
Proof.
  induction s as [|c t IH]; [reflexivity|].
  cbn [PyStr.rstrip]. destruct (PyStr.rstrip t) as [|d' r'] eqn:Er.
  - (* the tail is white space only *)
    assert (Ht : PyStr.split t = []) by (now rewrite <- IH).
    destruct (PyStr.is_space c) eqn:Ec.
    + cbn [PyStr.split]. now rewrite Ec.
    + cbn [PyStr.split]. rewrite Ec. destruct t as [|d t']; [reflexivity|].
      apply rstrip_empty_head in Er. rewrite Er. now rewrite Ht.
  - destruct t as [|d t']; [discriminate|].
    destruct (rstrip_head d t') as [H0|[r Hr]]; [congruence|].
    assert (d' = d) by congruence. subst d'.
    rewrite (split_cons2 c d r'), (split_cons2 c d t'), IH. reflexivity.
Qed.

Lemma split_strip s : PyStr.split (PyStr.strip s) = PyStr.split s.
Proof. unfold PyStr.strip. now rewrite split_rstrip, split_lstrip. Qed.

End WhiteSpace.

Lemma phrase_loop_exists response_lower flag phrases :
  phrase_loop response_lower flag phrases
  = flag || existsb (phrase_echoed response_lower) phrases.
Proof.
  induction phrases as [|p r IH]; cbn [phrase_loop existsb].
  - now rewrite orb_false_r.
  - unfold phrase_echoed at 1.
    destruct (2 <=? length (phrase_words p)); cbn [andb].
    + destruct (overlap_reached _ _); cbn [orb]; [now rewrite orb_true_r | exact IH].
    + exact IH.
Qed.

Lemma phrase_words_strip fragment :
  phrase_words (PyStr.strip fragment) = significant_words fragment.
Proof. unfold phrase_words, significant_words. now rewrite split_strip. Qed.

Lemma overlap_reached_fraction response_lower ws :
  2 <= length ws ->
  overlap_reached
    (count_if (fun word => PyStr.contains word response_lower) ws) (length ws) = true
  <-> (3 # 5 <= overlap_fraction response_lower ws)%Q.
Proof.
  intros Hlen. unfold overlap_reached, overlap_fraction, Qle. cbn [Qnum Qden].
  rewrite Nat.leb_le.
  replace (Z.pos (Pos.of_nat (length ws))) with (Z.of_nat (length ws)).
  - lia.
  - rewrite <- positive_nat_Z, Nat2Pos.id by lia. reflexivity.
Qed.

Lemma phrase_echoed_spec response_lower fragment :
  phrase_echoed response_lower (PyStr.strip fragment) = true
  <-> 2 <= length (significant_words fragment)
      /\ (3 # 5 <= overlap_fraction response_lower (significant_words fragment))%Q.
Proof.
  unfold phrase_echoed. rewrite phrase_words_strip, andb_true_iff, Nat.leb_le.
  split; intros [H2 H]; (split; [exact H2|]);
    now apply (overlap_reached_fraction response_lower _ H2).
Qed.

Lemma key_phrases_fragments full_text :
  key_phrases full_text = map PyStr.strip (long_fragments full_text).
Proof. unfold key_phrases, long_fragments. now rewrite firstn_map. Qed.

(** C4: for a candidate none of whose identifier tokens occurs in the
    lowercased answer, the verifier marks it referenced exactly when, among
    the first three period-split fragments of its text whose trimmed length
    exceeds 20, there is one that keeps at least two words longer than four
    characters and whose fraction of such words occurring in the lowercased
    answer is at least 3/5. *)
Theorem referenced_by_content_iff (response : string) (e : excerpt) :
  name_mentioned (PyStr.lower response) (PyStr.lower (document e)) = false ->
  is_referenced (PyStr.lower response) e = true
  <-> exists fragment,
        In fragment (long_fragments (PyStr.lower (text e)))
        /\ 2 <= length (significant_words fragment)
        /\ (3 # 5 <= overlap_fraction (PyStr.lower response)
                       (significant_words fragment))%Q.
Proof.
  intros Hname. unfold is_referenced. rewrite Hname, phrase_loop_exists.
  cbn [orb]. rewrite key_phrases_fragments, existsb_exists. split.
  - intros [phrase [Hin Hecho]]. apply in_map_iff in Hin as [fragment [<- Hin]].
    exists fragment. split; [exact Hin|]. now apply phrase_echoed_spec.
  - intros [fragment [Hin Hecho]]. exists (PyStr.strip fragment).
    split; [now apply in_map | now apply phrase_echoed_spec].
Qed.

Lemma referenced_by_content_iff_witness :
  name_mentioned (PyStr.lower sample_answer) (PyStr.lower (document sample_excerpt)) = false
  /\ is_referenced (PyStr.lower sample_answer) sample_excerpt = true
  /\ exists fragment,
        In fragment (long_fragments (PyStr.lower (text sample_excerpt)))
        /\ 2 <= length (significant_words fragment)
        /\ (3 # 5 <= overlap_fraction (PyStr.lower sample_answer)
                       (significant_words fragment))%Q.
Proof.
  assert (Hname : name_mentioned (PyStr.lower sample_answer)
                    (PyStr.lower (document sample_excerpt)) = false)
    by (vm_compute; reflexivity).
  split; [exact Hname|].
  assert (Href : is_referenced (PyStr.lower sample_answer) sample_excerpt = true)
    by (vm_compute; reflexivity).
  split; [exact Href|].
  exact (proj1 (referenced_by_content_iff sample_answer sample_excerpt Hname) Href).
Defined.

(* ===================================================================== *)
(** * Extraction failures during the scan *)
(* ===================================================================== *)

Lemma scan_loop_map fs q docs acc :
  fold_left (scan_step fs q) docs acc
  = (acc ++ map (candidate_of fs q) (List.filter (admits fs q) docs))%list.
Proof.
  revert acc. induction docs as [|[n p] docs IH]; intros acc;
    cbn [fold_left List.filter map].
  - now rewrite app_nil_r.
  - rewrite IH. unfold scan_step, admits. cbn [fst snd].
    destruct (admitted q _ _); [|reflexivity].
    now rewrite <- app_assoc.
Qed.

Lemma extract_agrees fs1 fs2 path p :
  (forall ext p', p' <> path -> fs_read fs1 ext p' = fs_read fs2 ext p') ->
  p <> path ->
  DynamicDocumentProcessor.extract_text_from_file fs1 p
  = DynamicDocumentProcessor.extract_text_from_file fs2 p.
Proof.
  intros Hagree Hp. unfold DynamicDocumentProcessor.extract_text_from_file.
  now rewrite (Hagree _ p Hp).
Qed.

Lemma not_from_cons fs q path n p docs :
  not_from path
    (map (candidate_of fs q) (List.filter (admits fs q) ((n, p) :: docs)))
  = ((if admits fs q (n, p) && negb (String.eqb p path)
      then [candidate_of fs q (n, p)] else [])
     ++ not_from path (map (candidate_of fs q) (List.filter (admits fs q) docs)))%list.
Proof.
  cbn [List.filter]. destruct (admits fs q (n, p)); [|reflexivity].
  unfold not_from. cbn [map List.filter candidate_of c_path snd andb].
  destruct (String.eqb p path); reflexivity.
Qed.

Lemma others_unchanged fs1 fs2 q path docs :
  (forall ext p', p' <> path -> fs_read fs1 ext p' = fs_read fs2 ext p') ->
  not_from path (scan_loop fs1 q docs) = not_from path (scan_loop fs2 q docs).
Proof.
  intros Hagree. unfold scan_loop. rewrite !scan_loop_map. cbn [List.app].
  induction docs as [|[n p] docs IH]; [reflexivity|].
  rewrite !not_from_cons, IH. f_equal.
  destruct (String.eqb p path) eqn:Ep.
  - now rewrite !andb_false_r.
  - apply String.eqb_neq in Ep. unfold admits, candidate_of. cbn [fst snd].
    now rewrite (extract_agrees fs1 fs2 path p Hagree Ep).
Qed.

Lemma scan_continues w q folder entries :
  w_processor w = Some folder ->
  fs_folder (w_fs w) = Some (Returned entries) ->
  find_relevant_documents w q
  = (top_candidates
       (sort_desc (scan_loop (w_fs w) (PyStr.lower q)
                     (DynamicDocumentProcessor.scan_entries folder entries))), w).
Proof.
  intros Hp Hf. unfold find_relevant_documents,
    DynamicDocumentProcessor.scan_documents_folder.
  rewrite Hp, Hf. destruct w; cbn in *. now subst.
Qed.

(** C5, counterexample: the only document cannot be read, yet the matcher
    returns it, scored on the error message, and logs nothing. *)
Lemma failing_document_not_excluded : ~ failing_document_excluded.
Proof.
  intros H.
  destruct (H FailingRead.w "health benefits" "documents" FailingRead.entries
              "Health_Benefits" FailingRead.path FailingRead.detail
              eq_refl eq_refl) as [Hnot _].
  - vm_compute. left. reflexivity.
  - vm_compute. reflexivity.
  - apply Hnot. vm_compute. left. reflexivity.
Qed.

(** C5, as the code has it: when the reader of a scanned document raises,
    [extract_text_from_file] gives the message [Error reading <path>: <detail>]
    as the text; the scan goes on to the end and the world, log included, is
    left as it was; the document is a candidate exactly when the message
    passes the admission gate; and the candidates built from the other
    documents are those of any file system that differs at this path only. *)
Theorem extraction_failure_scored_as_text
    (w : world) (query folder : string) (entries : list dirent)
    (name path e : string) :
  w_processor w = Some folder ->
  fs_folder (w_fs w) = Some (Returned entries) ->
  In (name, path) (DynamicDocumentProcessor.scan_entries folder entries) ->
  DynamicDocumentProcessor.is_supported (snd (OsPath.splitext (PyStr.lower path))) = true ->
  fs_read (w_fs w) (snd (OsPath.splitext (PyStr.lower path))) path = Raised e ->
  let q := PyStr.lower query in
  let message := "Error reading " ++ path ++ ": " ++ e in
  let docs := DynamicDocumentProcessor.scan_entries folder entries in
  DynamicDocumentProcessor.extract_text_from_file (w_fs w) path = message
  /\ find_relevant_documents w query
     = (top_candidates (sort_desc (scan_loop (w_fs w) q docs)), w)
  /\ (In {| c_name := name; c_path := path;
            c_score := total_score q (PyStr.lower name) (PyStr.lower message);
            c_content := message |} (admitted_candidates w query)
      <-> admitted q (PyStr.lower name) (PyStr.lower message) = true)
  /\ forall fs2,
       (forall ext p', p' <> path -> fs_read (w_fs w) ext p' = fs_read fs2 ext p') ->
       not_from path (scan_loop (w_fs w) q docs) = not_from path (scan_loop fs2 q docs).
Proof.
  intros Hp Hf Hin Hsup Hread. cbv zeta.
  assert (Hmsg : DynamicDocumentProcessor.extract_text_from_file (w_fs w) path
                 = "Error reading " ++ path ++ ": " ++ e).
  { unfold DynamicDocumentProcessor.extract_text_from_file. now rewrite Hsup, Hread. }
  split; [exact Hmsg|].
  split; [now apply scan_continues|].
  split; [|intros fs2 Hagree; now apply others_unchanged].
  unfold admitted_candidates, DynamicDocumentProcessor.scan_documents_folder.
  rewrite Hp, Hf. unfold scan_loop. rewrite scan_loop_map. cbn [List.app].
  rewrite in_map_iff. split.
  - intros [[n p] [Hc Hadm]]. apply List.filter_In in Hadm as [_ Hadm].
    unfold candidate_of in Hc. cbn [fst snd] in Hc.
    injection Hc as Hn Hpath _ _. subst n p.
    unfold admits in Hadm. cbn [fst snd] in Hadm. now rewrite Hmsg in Hadm.
  - intros Hadm. exists (name, path). split.
    + unfold candidate_of. cbn [fst snd]. now rewrite Hmsg.
    + apply List.filter_In. split; [exact Hin|].
      unfold admits. cbn [fst snd]. now rewrite Hmsg.
Qed.

Lemma extraction_failure_scored_as_text_witness :
  DynamicDocumentProcessor.extract_text_from_file FailingRead.fs FailingRead.path
  = FailingRead.message
  /\ find_relevant_documents FailingRead.w "health benefits"
     = ([ {| c_name := "Health_Benefits"; c_path := FailingRead.path;
             c_score := 20; c_content := FailingRead.message |} ], FailingRead.w).
Proof.
  pose proof (extraction_failure_scored_as_text FailingRead.w "health benefits"
    "documents" FailingRead.entries "Health_Benefits"
    FailingRead.path FailingRead.detail eq_refl eq_refl
    (or_introl eq_refl) eq_refl eq_refl) as [Hmsg [Hrun _]].
  split; [exact Hmsg | exact Hrun].
Defined.

(* ===================================================================== *)
(** * Generator failures *)
(* ===================================================================== *)

Lemma log_usage_analytics_error_count today a u d q t docs err :
  error_count (log_usage_analytics today a u d q t docs err)
  = if err then error_count a + 1 else error_count a.
Proof. reflexivity. Qed.

Lemma log_usage_analytics_total today a u d q t docs err :
  total_queries (log_usage_analytics today a u d q t docs err) = total_queries a + 1.
Proof. reflexivity. Qed.

(** A request is counted as an error exactly when [process_query] raises. *)
Lemma process_query_error_count today elapsed s q u d h :
  let run := process_query today elapsed s q u d h in
  error_count (app_analytics (snd run))
  = (if raised (fst run) then error_count (app_analytics s) + 1
     else error_count (app_analytics s))
  /\ total_queries (app_analytics (snd run)) = total_queries (app_analytics s) + 1.
Proof.
  cbv zeta. unfold process_query.
  destruct (find_relevant_documents (app_world s) q) as [docs w].
  destruct (generate_response _ _ _ _) as [[resp|e] logged]; split; reflexivity.
Qed.

Lemma process_query_generate today elapsed s q u d h create ctx :
  app_client s = Some create ->
  conversation_context_of h = Returned ctx ->
  exists resp logged,
    generate_response (Some create) q
      (build_context 0 ""
         (get_document_excerpts (fst (find_relevant_documents (app_world s) q)) q)) h
    = (Returned resp, logged)
    /\ (forall e, create (prompt_of s q ctx) = Raised e ->
          resp = apology_prefix ++ e /\ logged = ["Error generating response: " ++ e])
    /\ (create (prompt_of s q ctx) = Returned [] -> resp = no_content_message)
    /\ exists r s',
         process_query today elapsed s q u d h = (Returned r, s')
         /\ response r = resp
         /\ w_log (app_world s')
            = (w_log (snd (find_relevant_documents (app_world s) q)) ++ logged)%list.
Proof.
  intros Hc Hctx. unfold process_query, prompt_of. rewrite Hc.
  destruct (find_relevant_documents (app_world s) q) as [docs w]. cbn [fst snd].
  unfold generate_response. rewrite Hctx.
  destruct (create _) as [[|[t|b] blocks]|e] eqn:Ecreate;
    (eexists; eexists; split; [reflexivity|]);
    (split; [intros e' He'; try discriminate; injection He' as <-; now split|]);
    (split; [intros H0; try discriminate; reflexivity|]);
    eexists; eexists; split; try reflexivity; split; reflexivity.
Qed.

(** C6, counterexample: the generator raises on every prompt, the request
    returns normally and the error counter stays at 0. *)
Lemma generator_failure_not_counted : ~ generator_failure_counted.
Proof.
  intros H.
  specialize (H "2025-01-01" 7%N FailingGenerator.s "pto" "u1" "Engineering"
                FailingGenerator.create eq_refl).
  assert (Hfail : forall prompt : string,
            (exists e, FailingGenerator.create prompt = Raised e)
            \/ FailingGenerator.create prompt = Returned []).
  { intros prompt. left. exists "timeout". reflexivity. }
  specialize (H Hfail).
  pose proof (process_query_error_count "2025-01-01" 7%N FailingGenerator.s
                "pto" "u1" "Engineering" None) as [Hcount _].
  cbv zeta in Hcount. rewrite Hcount in H.
  assert (Hret : raised (fst (process_query "2025-01-01" 7%N FailingGenerator.s
                                "pto" "u1" "Engineering" None)) = false)
    by (vm_compute; reflexivity).
  rewrite Hret in H. lia.
Qed.

(** C6, as the code has it: when the generator call raises, the caller
    receives the fixed apology followed by the error detail (and the error is
    logged); when it returns no content, the caller receives the fixed
    no-content apology, which carries no detail; in both cases
    [process_query] returns normally, the request is added to the total of
    queries and the error counter is left as it was. *)
Theorem generator_failure_apology
    (today : string) (elapsed : N) (s : app_state)
    (query user_id department : string)
    (conversation_history : option (list history_item))
    (create : generator) (ctx : string) :
  app_client s = Some create ->
  conversation_context_of conversation_history = Returned ctx ->
  (exists e, create (prompt_of s query ctx) = Raised e)
  \/ create (prompt_of s query ctx) = Returned [] ->
  let run := process_query today elapsed s query user_id department
               conversation_history in
  (exists r,
     fst run = Returned r
     /\ (forall e, create (prompt_of s query ctx) = Raised e ->
           response r = apology_prefix ++ e)
     /\ (create (prompt_of s query ctx) = Returned [] ->
           response r = no_content_message))
  /\ error_count (app_analytics (snd run)) = error_count (app_analytics s)
  /\ total_queries (app_analytics (snd run)) = total_queries (app_analytics s) + 1.
Proof.
  intros Hc Hctx _. cbv zeta.
  destruct (process_query_generate today elapsed s query user_id department
              conversation_history create ctx Hc Hctx)
    as (resp & logged & _ & Hraise & Hempty & r & s' & Hrun & Hresp & _).
  pose proof (process_query_error_count today elapsed s query user_id department
                conversation_history) as [Hcount Htotal].
  cbv zeta in Hcount, Htotal. rewrite Hrun in *. cbn [fst snd raised] in *.
  split; [|split; assumption].
  exists r. split; [reflexivity|]. split.
  - intros e He. rewrite Hresp. now apply Hraise.
  - intros He. rewrite Hresp. now apply Hempty.
Qed.

Lemma generator_failure_apology_witness :
  exists r s',
    process_query "2025-01-01" 7%N FailingGenerator.s "pto" "u1" "Engineering" None
    = (Returned r, s')
    /\ response r = apology_prefix ++ "timeout"
    /\ error_count (app_analytics s') = 0
    /\ total_queries (app_analytics s') = 1.
Proof.
  pose proof (generator_failure_apology "2025-01-01" 7%N FailingGenerator.s
    "pto" "u1" "Engineering" None FailingGenerator.create "" eq_refl eq_refl
    (or_introl (ex_intro _ "timeout" eq_refl))) as [[r [Hr [Hraise _]]] [Herr Htot]].
  cbv zeta in *.
  destruct (process_query "2025-01-01" 7%N FailingGenerator.s "pto" "u1"
              "Engineering" None) as [o s'] eqn:Erun.
  cbn [fst snd] in *. subst o. exists r, s'.
  split; [reflexivity|]. split; [now apply Hraise|]. split; assumption.
Defined.

(* ===================================================================== *)
(** * The pattern score *)
(* ===================================================================== *)

Lemma pattern_score_topic_value q n topic keywords :
  pattern_score q n topic keywords = topic_value q n (topic, keywords).
Proof.
  unfold pattern_score, topic_value, name_has_part, keyword_count. cbn [fst snd].
  destruct (existsb _ _); lia.
Qed.

Lemma pattern_loop_max q n l best matching :
  fst (fold_left (pattern_step q n) l (best, matching))
  = Nat.max best (list_max (map (topic_value q n) l)).
Proof.
  revert best matching. induction l as [|[topic keywords] l IH]; intros best matching.
  - cbn. lia.
  - cbn [fold_left map list_max fold_right]. unfold pattern_step at 2.
    rewrite pattern_score_topic_value.
    destruct (best <? topic_value q n (topic, keywords)) eqn:E; rewrite IH.
    + apply Nat.ltb_lt in E. fold (list_max (map (topic_value q n) l)). lia.
    + apply Nat.ltb_ge in E. fold (list_max (map (topic_value q n) l)). lia.
Qed.

(** C7, counterexample: for the document [laptop_guide] and the query [pto]
    the code gives 5 (the part [pto] occurs inside [laptop]) where the claim
    gives 1; for the document [foo] and the query [vacation] the code gives 0
    where the claim gives the unmultiplied count 1. *)
Lemma pattern_score_differs :
  best_pattern_score "pto" "laptop_guide" = 5
  /\ spec_pattern_score "pto" "laptop_guide" = 1
  /\ best_pattern_score "vacation" "foo" = 0
  /\ spec_pattern_score "vacation" "foo" = 1
  /\ ~ (forall q n, best_pattern_score q n = spec_pattern_score q n).
Proof.
  repeat split; try (vm_compute; reflexivity).
  intros H. specialize (H "pto" "laptop_guide"). vm_compute in H. discriminate H.
Qed.

(** C7, as the code has it: the pattern score of a document is the maximum
    over the topics of the table of this value: five times the number of the
    topic's keywords that occur in the lowercased query when some
    underscore-separated part of the topic name occurs as a substring of the
    lowercased identifier, and 0 otherwise. *)
Theorem best_pattern_score_max (query_lower doc_name_lower : string) :
  best_pattern_score query_lower doc_name_lower
  = list_max (map (topic_value query_lower doc_name_lower) doc_patterns)
  /\ (forall entry, In entry doc_patterns ->
        topic_value query_lower doc_name_lower entry
        <= best_pattern_score query_lower doc_name_lower)
  /\ (best_pattern_score query_lower doc_name_lower = 0
      \/ exists entry, In entry doc_patterns
           /\ name_has_part doc_name_lower (fst entry) = true
           /\ best_pattern_score query_lower doc_name_lower
              = 5 * keyword_count query_lower (snd entry)).
Proof.
  assert (Hmax : best_pattern_score query_lower doc_name_lower
                 = list_max (map (topic_value query_lower doc_name_lower) doc_patterns)).
  { unfold best_pattern_score, best_pattern. rewrite pattern_loop_max. lia. }
  split; [exact Hmax|]. rewrite Hmax. split.
  - intros entry Hin.
    pose proof (proj1 (list_max_le (map (topic_value query_lower doc_name_lower)
                                      doc_patterns) _) (Nat.le_refl _)) as Hall.
    rewrite List.Forall_forall in Hall. apply Hall. now apply in_map.
  - destruct (list_max (map (topic_value query_lower doc_name_lower) doc_patterns))
      as [|m] eqn:E; [now left | right].
    assert (Hne : map (topic_value query_lower doc_name_lower) doc_patterns <> [])
      by discriminate.
    assert (Hin : In (S m) (map (topic_value query_lower doc_name_lower) doc_patterns)).
    { rewrite <- E. clear E Hmax.
      generalize dependent (map (topic_value query_lower doc_name_lower) doc_patterns).
      induction l as [|x l IH]; intros Hne; [congruence|].
      cbn [list_max fold_right]. fold (list_max l).
      destruct l as [|y l'].
      - cbn. left. lia.
      - destruct (Nat.max_spec x (list_max (y :: l'))) as [[_ ->]|[_ ->]].
        + right. apply IH. discriminate.
        + now left. }
    apply in_map_iff in Hin as [entry [Hval Hin]]. exists entry.
    split; [exact Hin|]. unfold topic_value in Hval.
    destruct (name_has_part doc_name_lower (fst entry)); [|discriminate].
    split; [reflexivity | now symmetry].
Qed.

(* ===================================================================== *)
(** * Document identifiers *)
(* ===================================================================== *)

Section Dict.

Context {V : Type}.

Lemma dict_get_set_eq k (v : V) d : dict_get k (dict_set k v d) = Some v.
Proof.
  induction d as [|[k' v'] d IH]; cbn [dict_set dict_get].
  - now rewrite String.eqb_refl.
  - destruct (String.eqb k' k) eqn:E; cbn [dict_get]; rewrite E; [reflexivity | exact IH].
Qed.

Lemma dict_get_set_ne k k' (v : V) d :
  k <> k' -> dict_get k' (dict_set k v d) = dict_get k' d.
Proof.
  intros Hne. induction d as [|[k0 v0] d IH]; cbn [dict_set dict_get].
  - apply String.eqb_neq in Hne. now rewrite Hne.
  - destruct (String.eqb k0 k) eqn:E; cbn [dict_get].
    + apply String.eqb_eq in E. subst k0.
      apply String.eqb_neq in Hne. now rewrite Hne.
    + now rewrite IH.
Qed.

Lemma dict_set_keys k (v : V) d :
  map fst (dict_set k v d)
  = if existsb (fun k' => String.eqb k' k) (map fst d)
    then map fst d else (map fst d ++ [k])%list.
Proof.
  induction d as [|[k' v'] d IH]; [reflexivity|].
  cbn [dict_set map fst existsb].
  destruct (String.eqb k' k); cbn [orb map fst]; [reflexivity|].
  rewrite IH. now destruct (existsb _ _).
Qed.

Lemma dict_set_NoDup k (v : V) d :
  List.NoDup (map fst d) -> List.NoDup (map fst (dict_set k v d)).
Proof.
  intros Hd. rewrite dict_set_keys.
  destruct (existsb _ _) eqn:E; [exact Hd|].
  apply List.NoDup_app; [exact Hd | repeat constructor; intros [] |].
  intros a Ha [Heq|[]]. subst a.
  assert (existsb (fun k' => String.eqb k' k) (map fst d) = true); [|congruence].
  apply existsb_exists. exists k. split; [exact Ha | apply String.eqb_refl].
Qed.

End Dict.

Section Scan.

Import DynamicDocumentProcessor.

Variable folder : string.

Lemma scan_entry_taken documents e :
  scan_entry folder documents e
  = if taken e
    then dict_set (doc_key (d_name e)) (OsPath.join folder (d_name e)) documents
    else documents.
Proof.
  unfold scan_entry, taken. destruct (d_is_dir e); cbn [negb andb]; reflexivity.
Qed.

Lemma scan_fold_NoDup entries documents :
  List.NoDup (map fst documents) ->
  List.NoDup (map fst (fold_left (scan_entry folder) entries documents)).
Proof.
  revert documents. induction entries as [|e entries IH]; intros documents Hd;
    [exact Hd|].
  cbn [fold_left]. apply IH. rewrite scan_entry_taken.
  destruct (taken e); [now apply dict_set_NoDup | exact Hd].
Qed.

Lemma scan_fold_keeps entries documents k :
  (forall e', In e' entries -> taken e' = true -> doc_key (d_name e') <> k) ->
  dict_get k (fold_left (scan_entry folder) entries documents) = dict_get k documents.
Proof.
  revert documents. induction entries as [|e entries IH]; intros documents Hlater;
    [reflexivity|].
  cbn [fold_left]. rewrite IH by (intros e' He'; apply Hlater; now right).
  rewrite scan_entry_taken. destruct (taken e) eqn:Et; [|reflexivity].
  apply dict_get_set_ne. apply Hlater; [now left | exact Et].
Qed.

End Scan.

Lemma replace_removes a b s :
  a <> b -> PyStr.any_char (Ascii.eqb a) (PyStr.replace a b s) = false.
Proof.
  intros Hab. induction s as [|c t IH]; [reflexivity|].
  cbn [PyStr.replace PyStr.any_char]. rewrite IH, orb_false_r.
  destruct (Ascii.eqb c a) eqn:E.
  - now apply Ascii.eqb_neq.
  - rewrite Ascii.eqb_sym. exact E.
Qed.

Lemma replace_keeps_absent a b c s :
  c <> b ->
  PyStr.any_char (Ascii.eqb c) s = false ->
  PyStr.any_char (Ascii.eqb c) (PyStr.replace a b s) = false.
Proof.
  intros Hcb. induction s as [|d t IH]; [reflexivity|].
  cbn [PyStr.replace PyStr.any_char]. intros H.
  apply orb_false_iff in H as [Hd Ht]. rewrite (IH Ht), orb_false_r.
  destruct (Ascii.eqb d a); [now apply Ascii.eqb_neq | exact Hd].
Qed.

(** C8, counterexample: two distinct supported files of one folder get the
    identifier [pto_policy], and the scan keeps the second only. *)
Lemma identifiers_collide : ~ identifiers_unique.
Proof.
  intros H.
  destruct (H "documents" Collision.entries
              (Samples.file "pto policy.txt") (Samples.file "pto-policy.pdf"))
    as [Hkeys _].
  - left. reflexivity.
  - right. left. reflexivity.
  - reflexivity.
  - reflexivity.
  - discriminate.
  - apply Hkeys. vm_compute. reflexivity.
Qed.

Example collision_scan :
  DynamicDocumentProcessor.scan_entries "documents" Collision.entries
  = [("pto_policy", "documents/pto-policy.pdf")].
Proof. vm_compute. reflexivity. Qed.

(** C8, as the code has it: the identifier of a file is its name without the
    extension, every blank and hyphen replaced by an underscore; the
    identifiers of the scan result are pairwise distinct keys; and a taken
    file is found under its identifier when no file taken later in the
    listing has the same identifier (of several files with one identifier the
    last listed is kept). *)
Theorem scan_keeps_last_of_identifier
    (folder : string) (before after : list dirent) (e : dirent) :
  taken e = true ->
  (forall e', In e' after -> taken e' = true ->
     DynamicDocumentProcessor.doc_key (d_name e')
     <> DynamicDocumentProcessor.doc_key (d_name e)) ->
  let documents :=
    DynamicDocumentProcessor.scan_entries folder (before ++ e :: after) in
  dict_get (DynamicDocumentProcessor.doc_key (d_name e)) documents
  = Some (OsPath.join folder (d_name e))
  /\ List.NoDup (map fst documents)
  /\ PyStr.any_char is_separator (DynamicDocumentProcessor.doc_key (d_name e)) = false.
Proof.
  intros Ht Hlater. cbv zeta. unfold DynamicDocumentProcessor.scan_entries.
  split; [|split].
  - rewrite fold_left_app. cbn [fold_left].
    rewrite scan_fold_keeps by exact Hlater.
    rewrite scan_entry_taken, Ht. apply dict_get_set_eq.
  - apply scan_fold_NoDup. constructor.
  - unfold DynamicDocumentProcessor.doc_key.
    generalize (fst (OsPath.splitext (d_name e))). intros stem.
    assert (Hb : PyStr.any_char (Ascii.eqb " ")
                   (PyStr.replace "-" "_" (PyStr.replace " " "_" stem)) = false).
    { apply replace_keeps_absent; [discriminate|].
      apply replace_removes. discriminate. }
    assert (Hh : PyStr.any_char (Ascii.eqb "-")
                   (PyStr.replace "-" "_" (PyStr.replace " " "_" stem)) = false).
    { apply replace_removes. discriminate. }
    revert Hb Hh. generalize (PyStr.replace "-" "_" (PyStr.replace " " "_" stem)).
    induction s as [|c t IH]; [reflexivity|]. cbn [PyStr.any_char].
    intros Hb Hh. apply orb_false_iff in Hb as [Hb1 Hb2].
    apply orb_false_iff in Hh as [Hh1 Hh2]. rewrite (IH Hb2 Hh2), orb_false_r.
    unfold is_separator. rewrite (Ascii.eqb_sym c " "), (Ascii.eqb_sym c "-").
    now rewrite Hb1, Hh1.
Qed.

Lemma scan_keeps_last_of_identifier_witness :
  dict_get "pto_policy"
    (DynamicDocumentProcessor.scan_entries "documents" Collision.entries)
  = Some "documents/pto-policy.pdf".
Proof.
  exact (proj1 (scan_keeps_last_of_identifier "documents"
           [Samples.file "pto policy.txt"] [] (Samples.file "pto-policy.pdf")
           eq_refl (fun e' (H : In e' []) => match H with end))).
Defined.

(* ===================================================================== *)
(** * Determinism of the matcher *)
(* ===================================================================== *)

Lemma scan_loop_ext fs1 fs2 q docs :
  (forall ext p, fs_read fs1 ext p = fs_read fs2 ext p) ->
  scan_loop fs1 q docs = scan_loop fs2 q docs.
Proof.
  intros Hread. unfold scan_loop. generalize (@nil candidate).
  induction docs as [|[n p] docs IH]; intros acc; [reflexivity|].
  cbn [fold_left].
  replace (scan_step fs1 q acc (n, p)) with (scan_step fs2 q acc (n, p)); [apply IH|].
  unfold scan_step, DynamicDocumentProcessor.extract_text_from_file.
  now rewrite Hread.
Qed.

Lemma scan_loop_flat fs q docs :
  scan_loop fs q docs = map (candidate_of fs q) (List.filter (admits fs q) docs).
Proof. unfold scan_loop. now rewrite scan_loop_map. Qed.

(** What the scan gives for each state of the folder. *)
Lemma admitted_candidates_cases w q :
  admitted_candidates w q
  = match w_processor w, fs_folder (w_fs w) with
    | Some folder, Some (Returned entries) =>
        scan_loop (w_fs w) (PyStr.lower q)
          (DynamicDocumentProcessor.scan_entries folder entries)
    | _, _ => []
    end.
Proof.
  unfold admitted_candidates, DynamicDocumentProcessor.scan_documents_folder, makedirs.
  destruct (w_processor w); [|reflexivity].
  destruct (fs_folder (w_fs w)) as [[entries|e]|]; try reflexivity.
  destruct (fs_makedirs (w_fs w)); reflexivity.
Qed.

Lemma admitted_candidates_rerun w q :
  admitted_candidates (snd (find_relevant_documents w q)) q = admitted_candidates w q.
Proof.
  rewrite !admitted_candidates_cases.
  unfold find_relevant_documents, DynamicDocumentProcessor.scan_documents_folder,
    makedirs.
  destruct (w_processor w) eqn:Hp; cbn [snd]; [|now rewrite Hp].
  destruct (fs_folder (w_fs w)) as [[entries|e]|] eqn:Hf;
    cbn [snd w_processor w_fs fs_folder]; try (rewrite Hf; reflexivity).
  destruct (fs_makedirs (w_fs w)); cbn [snd w_processor w_fs fs_folder];
    try rewrite Hf; reflexivity.
Qed.

Section Listing.

Import DynamicDocumentProcessor.

Variable folder : string.

Lemma dict_set_fresh {V} k (v : V) d :
  ~ In k (map fst d) -> dict_set k v d = (d ++ [(k, v)])%list.
Proof.
  induction d as [|[k' v'] d IH]; [reflexivity|].
  cbn [dict_set map fst In List.app]. intros Hk.
  destruct (String.eqb_spec k' k) as [->|_]; [exfalso; apply Hk; now left|].
  rewrite IH; [reflexivity|]. intros Hin. apply Hk. now right.
Qed.

Lemma scan_fold_unambiguous entries documents :
  List.NoDup (map fst documents
              ++ map (fun e => doc_key (d_name e)) (List.filter taken entries))%list ->
  fold_left (scan_entry folder) entries documents
  = (documents ++ map (item_of folder) (List.filter taken entries))%list.
Proof.
  revert documents. induction entries as [|e entries IH]; intros documents Hnd.
  - cbn. now rewrite app_nil_r.
  - cbn [fold_left List.filter] in *. rewrite scan_entry_taken.
    destruct (taken e) eqn:Et.
    + cbn [map] in Hnd.
      rewrite dict_set_fresh.
      * rewrite IH.
        -- rewrite <- app_assoc. reflexivity.
        -- rewrite map_app. cbn [map fst]. rewrite <- app_assoc. exact Hnd.
      * intros Hin. apply List.NoDup_remove_2 in Hnd. apply Hnd.
        apply in_or_app. now left.
    + now apply IH.
Qed.

Lemma scan_entries_unambiguous entries :
  unambiguous entries ->
  scan_entries folder entries = map (item_of folder) (List.filter taken entries).
Proof.
  intros Hnd. unfold scan_entries. now rewrite scan_fold_unambiguous.
Qed.

End Listing.

Lemma filter_Permutation' {A} (p : A -> bool) (l l' : list A) :
  Permutation l l' -> Permutation (List.filter p l) (List.filter p l').
Proof.
  induction 1 as [|x l l' _ IH|x y l|l l' l'' _ IH1 _ IH2]; cbn [List.filter].
  - constructor.
  - destruct (p x); [now constructor | exact IH].
  - destruct (p x), (p y); try reflexivity. apply perm_swap.
  - now transitivity (List.filter p l').
Qed.

Lemma unambiguous_Permutation entries entries' :
  Permutation entries entries' -> unambiguous entries -> unambiguous entries'.
Proof.
  unfold unambiguous. intros Hp. apply Permutation_NoDup.
  now apply Permutation_map, filter_Permutation'.
Qed.

(** The ranking by score of two permutations shows the same scores. *)
Lemma sort_desc_scores l l' :
  Permutation l l' ->
  map c_score (sort_desc l) = map c_score (sort_desc l').
Proof.
  intros Hp.
  assert (Hsorted : forall k, StronglySorted ge (map c_score (sort_desc k))).
  { intros k. pose proof (sort_desc_sorted k) as Hs.
    induction Hs as [|a r _ IH Ha]; cbn [map]; constructor; [exact IH|].
    apply Forall_map. eapply List.Forall_impl; [|exact Ha].
    unfold score_ge, ge. auto. }
  apply (StronglySorted_unique_strong ge).
  - intros x1 x2 _ _. unfold ge. lia.
  - apply Hsorted.
  - apply Hsorted.
  - apply Permutation_map.
    rewrite <- (sort_desc_perm l), <- (sort_desc_perm l'). exact Hp.
Qed.

(** Without ties the ranking of two permutations is the same list. *)
Lemma sort_desc_unique l l' :
  Permutation l l' -> List.NoDup (map c_score l) ->
  sort_desc l = sort_desc l'.
Proof.
  intros Hp Hnd.
  apply (StronglySorted_unique_strong score_ge);
    [|apply sort_desc_sorted|apply sort_desc_sorted|].
  - intros x1 x2 H1 H2 H12 H21. unfold score_ge in *.
    assert (Hs : c_score x1 = c_score x2) by lia.
    apply list_elem_of_In in H1, H2.
    apply (Permutation_in _ (Permutation_sym (sort_desc_perm l))) in H1.
    apply (Permutation_in _ (Permutation_sym (sort_desc_perm l'))) in H2.
    apply (Permutation_in _ (Permutation_sym Hp)) in H2.
    clear - Hs H1 H2 Hnd.
    induction l as [|a l IH]; [destruct H1|].
    cbn [map] in Hnd. apply List.NoDup_cons_iff in Hnd as [Ha Hnd].
    destruct H1 as [->|H1], H2 as [->|H2]; auto.
    + exfalso. apply Ha. rewrite Hs. now apply in_map.
    + exfalso. apply Ha. rewrite <- Hs. now apply in_map.
  - rewrite <- (sort_desc_perm l), <- (sort_desc_perm l'). exact Hp.
Qed.

(** The scores of the cut depend on the scores of the ranking only. *)
Lemma top_candidates_scores l l' :
  map c_score l = map c_score l' ->
  map c_score (top_candidates l) = map c_score (top_candidates l').
Proof.
  destruct l as [|a [|b r]], l' as [|a' [|b' r']]; cbn [map]; try discriminate;
    try reflexivity.
  - intros H. exact H.
  - intros H. injection H as Ha Hb _. unfold top_candidates.
    rewrite Ha, Hb. destruct (c_score b' * 2 <? c_score a'); cbn [firstn map];
      now rewrite ?Ha, ?Hb.
Qed.

(** The admitted candidates of two listings of the same files. *)
Lemma admitted_candidates_Permutation w w' q entries :
  same_content w w' ->
  fs_folder (w_fs w) = Some (Returned entries) ->
  unambiguous entries ->
  Permutation (admitted_candidates w q) (admitted_candidates w' q).
Proof.
  intros (Hp & Hl & Hread) Hf Hnd. rewrite !admitted_candidates_cases.
  rewrite <- Hp. destruct (w_processor w) as [folder|]; [|reflexivity].
  rewrite Hf in *. unfold same_listing in Hl.
  destruct (fs_folder (w_fs w')) as [[entries'|e']|]; try discriminate Hl.
  rewrite (scan_loop_ext (w_fs w') (w_fs w)) by (intros; symmetry; apply Hread).
  rewrite !scan_loop_flat.
  rewrite !scan_entries_unambiguous
    by (try exact Hnd; now apply (unambiguous_Permutation entries)).
  now apply Permutation_map, filter_Permutation', Permutation_map, filter_Permutation'.
Qed.

Lemma admitted_candidates_same_order w w' q :
  same_content w w' ->
  fs_folder (w_fs w) = fs_folder (w_fs w') ->
  admitted_candidates w q = admitted_candidates w' q.
Proof.
  intros (Hp & _ & Hread) Hf. rewrite !admitted_candidates_cases.
  rewrite <- Hp, <- Hf. destruct (w_processor w); [|reflexivity].
  destruct (fs_folder (w_fs w)) as [[entries|e]|]; try reflexivity.
  now apply scan_loop_ext.
Qed.

(** The two sample listings rank the tied documents in listing order. *)
Lemma swapped_listing_results :
  same_content Samples.w_two Rerun.w_swapped
  /\ fst (find_relevant_documents Samples.w_two "vacation insurance")
     = [Rerun.pto; Rerun.health]
  /\ fst (find_relevant_documents Rerun.w_swapped "vacation insurance")
     = [Rerun.health; Rerun.pto].
Proof.
  split; [|split; vm_compute; reflexivity].
  split; [reflexivity|]. split; [|reflexivity].
  cbn. apply perm_swap.
Qed.

(** C9, as worded, does not hold: the listing order of the folder, which is
    no part of the corpus content, decides the order of candidates with equal
    scores; and a run creates a missing documents folder and writes to the
    log when the scan raises. *)
Lemma matcher_order_and_effects :
  ~ matcher_deterministic /\ ~ matcher_side_effect_free.
Proof.
  split.
  - intros H.
    destruct swapped_listing_results as (Hsame & Hr & Hr').
    specialize (H _ _ "vacation insurance" Hsame).
    rewrite Hr, Hr' in H. discriminate H.
  - intros H.
    pose proof (f_equal (fun w => fs_folder (w_fs w)) (H Rerun.w_fresh "pto")) as Hfs.
    discriminate Hfs.
Qed.

(** C9, amended: for two runs of the matcher with the same query in worlds
    with the same corpus content (the same processor, the same entries in
    the documents folder in whatever order, the same outcome of every read;
    the logs may differ): when the listing order is the same the results are
    the same; when only the order differs and no two supported files share
    an identifier, the admitted candidates are the same up to order, the
    returned scores are the same in the same order, and the returned
    candidates are the same whenever no two admitted candidates have equal
    scores.  Running the matcher again in the world a run leaves returns the
    same result once more. *)
Theorem matcher_runs_agree (w w' : world) (query : string) :
  same_content w w' ->
  let result := fst (find_relevant_documents w query) in
  let result' := fst (find_relevant_documents w' query) in
  (fs_folder (w_fs w) = fs_folder (w_fs w') -> result = result')
  /\ (forall entries,
        fs_folder (w_fs w) = Some (Returned entries) -> unambiguous entries ->
        Permutation (admitted_candidates w query) (admitted_candidates w' query)
        /\ map c_score result = map c_score result'
        /\ (List.NoDup (map c_score (admitted_candidates w query)) ->
            result = result'))
  /\ fst (find_relevant_documents (snd (find_relevant_documents w query)) query)
     = result.
Proof.
  intros Hsame. cbv zeta. rewrite !find_relevant_documents_result.
  split; [|split].
  - intros Hf. now rewrite (admitted_candidates_same_order w w' query Hsame Hf).
  - intros entries Hf Hnd.
    pose proof (admitted_candidates_Permutation w w' query entries Hsame Hf Hnd) as Hp.
    split; [exact Hp|]. split.
    + now apply top_candidates_scores, sort_desc_scores.
    + intros Hties. now rewrite (sort_desc_unique _ _ Hp Hties).
  - now rewrite admitted_candidates_rerun.
Qed.

Lemma matcher_runs_agree_witness :
  same_content Samples.w_two Rerun.w_swapped
  /\ map c_score (fst (find_relevant_documents Samples.w_two "vacation insurance"))
     = map c_score (fst (find_relevant_documents Rerun.w_swapped "vacation insurance"))
  /\ fst (find_relevant_documents Samples.w_two "How many vacation days do I get?")
     = fst (find_relevant_documents Rerun.w_swapped "How many vacation days do I get?").
Proof.
  assert (Hsame : same_content Samples.w_two Rerun.w_swapped).
  { split; [reflexivity|]. split; [cbn; apply perm_swap | reflexivity]. }
  assert (Hnd : unambiguous
                  [ Samples.file "pto-policy.txt"; Samples.file "Health Benefits.txt";
                    Samples.file "notes.md";
                    {| d_name := "archive"; d_is_dir := true |} ]).
  { vm_compute. repeat constructor; cbn; intuition discriminate. }
  split; [exact Hsame|]. split.
  - exact (proj1 (proj2 (proj1 (proj2
             (matcher_runs_agree Samples.w_two Rerun.w_swapped "vacation insurance"
                Hsame)) _ eq_refl Hnd))).
  - apply (proj2 (proj2 (proj1 (proj2
             (matcher_runs_agree Samples.w_two Rerun.w_swapped
                "How many vacation days do I get?" Hsame)) _ eq_refl Hnd))).
    vm_compute. repeat constructor; cbn; intuition discriminate.
Defined.

(** A missing folder is created by the first run; the second run finds it
    empty and returns the same empty result.  When the folder cannot be
    created, every run logs the error and returns the empty result. *)
Example rerun_on_missing_folder :
  fst (find_relevant_documents Rerun.w_fresh "pto") = []
  /\ fs_folder (w_fs (snd (find_relevant_documents Rerun.w_fresh "pto")))
     = Some (Returned [])
  /\ fst (find_relevant_documents
            (snd (find_relevant_documents Rerun.w_fresh "pto")) "pto") = []
  /\ find_relevant_documents Rerun.w_read_only "pto"
     = ([], {| w_processor := w_processor Rerun.w_read_only;
               w_fs := w_fs Rerun.w_read_only;
               w_log := ["Error finding relevant documents: [Errno 30] Read-only file system: 'documents'"] |}).
Proof. repeat split. Qed.

(* ===================================================================== *)
(** * Bounds of the usage ledger *)
(* ===================================================================== *)

Lemma take_length n s : String.length (PyStr.take n s) <= n.
Proof.
  revert s. induction n as [|n IH]; intros [|c t]; cbn [PyStr.take String.length];
    try lia.
  specialize (IH t). lia.
Qed.

Lemma append_keep_last_length {A} n (x : A) l :
  n <> 0 -> length (append_keep_last n x l) <= n.
Proof.
  intros Hn. unfold append_keep_last, PyStr.last_n.
  destruct (n <? length (l ++ [x])) eqn:E.
  - rewrite length_skipn. lia.
  - now apply Nat.ltb_ge in E.
Qed.

Lemma append_keep_last_Forall {A} (P : A -> Prop) n x l :
  P x -> Forall P l -> Forall P (append_keep_last n x l).
Proof.
  intros Hx Hl. unfold append_keep_last, PyStr.last_n.
  assert (Hall : Forall P (l ++ [x])).
  { apply Forall_app. split; [exact Hl | now repeat constructor]. }
  destruct (n <? length (l ++ [x])); [now apply Forall_drop | exact Hall].
Qed.

Lemma log_preserves_bounded today a u d q t docs err :
  bounded a -> bounded (log_usage_analytics today a u d q t docs err).
Proof.
  intros (_ & _ & Hq). unfold bounded.
  cbn [log_usage_analytics response_times popular_queries].
  split; [apply append_keep_last_length; lia|].
  split; [apply append_keep_last_length; lia|].
  apply append_keep_last_Forall; [apply take_length | exact Hq].
Qed.

(** C10: a call of the update hook on a ledger within its bounds leaves it
    within them: at most 100 response times, at most 50 recent queries, and
    every stored query of at most 100 characters. *)
Theorem log_usage_analytics_bounded
    (today : string) (a : analytics) (user_id department query : string)
    (response_time : N) (documents_used : list excerpt) (error_occurred : bool) :
  bounded a ->
  bounded (log_usage_analytics today a user_id department query response_time
             documents_used error_occurred).
Proof. apply log_preserves_bounded. Qed.

Lemma log_usage_analytics_bounded_witness :
  bounded initial_analytics
  /\ bounded (log_usage_analytics "2025-01-01" initial_analytics "u1" "Engineering"
                "How many vacation days do I get?" 7%N [] false).
Proof.
  assert (H0 : bounded initial_analytics).
  { unfold bounded. cbn. repeat split; try lia. constructor. }
  split; [exact H0|].
  exact (log_usage_analytics_bounded "2025-01-01" initial_analytics "u1"
           "Engineering" "How many vacation days do I get?" 7%N [] false H0).
Defined.

(** The ledger is within its bounds after any sequence of calls from the
    initial state. *)
Lemma reachable_bounded (calls : list call) :
  bounded (fold_left apply_call calls initial_analytics).
Proof.
  assert (H0 : bounded initial_analytics).
  { unfold bounded. cbn. repeat split; try lia. constructor. }
  revert H0. generalize initial_analytics.
  induction calls as [|c calls IH]; intros a Ha; [exact Ha|].
  cbn [fold_left]. apply IH. now apply log_preserves_bounded.
Qed.

(* ===================================================================== *)
(** * Further properties of the matcher *)
(* ===================================================================== *)

Lemma scan_fold_none_taken folder entries documents :
  Forall (fun e => taken e = false) entries ->
  fold_left (DynamicDocumentProcessor.scan_entry folder) entries documents = documents.
Proof.
  revert documents. induction entries as [|e entries IH]; intros documents Hall;
    [reflexivity|].
  apply Forall_cons in Hall as [He Hall]. cbn [fold_left].
  rewrite scan_entry_taken, He. now apply IH.
Qed.

Lemma admitted_candidates_no_documents w q :
  no_documents w -> admitted_candidates w q = [].
Proof.
  unfold admitted_candidates, DynamicDocumentProcessor.scan_documents_folder.
  intros [Hp|[Hf|[[e Hf]|[entries [Hf Hall]]]]].
  - now rewrite Hp.
  - destruct (w_processor w); [|reflexivity]. rewrite Hf. unfold makedirs.
    now destruct (fs_makedirs (w_fs w)).
  - destruct (w_processor w); [|reflexivity]. now rewrite Hf.
  - destruct (w_processor w); [|reflexivity]. rewrite Hf.
    unfold DynamicDocumentProcessor.scan_entries.
    now rewrite scan_fold_none_taken.
Qed.

(** X1: in a world without documents (no processor, no folder, a listing
    that raises, or a folder without a supported file) the matcher returns
    the empty list for every query. *)
Theorem no_documents_no_candidates (w : world) (query : string) :
  no_documents w -> fst (find_relevant_documents w query) = [].
Proof.
  intros H. rewrite find_relevant_documents_result.
  now rewrite admitted_candidates_no_documents.
Qed.

Lemma no_documents_no_candidates_witness :
  no_documents Extras.w_empty_folder
  /\ fst (find_relevant_documents Extras.w_empty_folder "vacation pto") = [].
Proof.
  assert (H : no_documents Extras.w_empty_folder).
  { right; right; right. eexists. split; [reflexivity|].
    repeat constructor. }
  split; [exact H|].
  exact (no_documents_no_candidates Extras.w_empty_folder "vacation pto" H).
Defined.

(** X2: when the matcher returns two candidates, the first scores at least
    as much as the second and at most twice as much. *)
Theorem two_candidates_scores (w : world) (query : string) (a b : candidate) :
  fst (find_relevant_documents w query) = [a; b] ->
  c_score b <= c_score a <= 2 * c_score b.
Proof.
  rewrite find_relevant_documents_result.
  pose proof (sort_desc_sorted (admitted_candidates w query)) as Hs.
  destruct (sort_desc (admitted_candidates w query)) as [|a' [|b' r]];
    cbn [top_candidates firstn]; try discriminate.
  destruct (c_score b' * 2 <? c_score a') eqn:E; cbn [firstn]; [discriminate|].
  intros H. injection H as -> ->. apply Nat.ltb_ge in E.
  apply StronglySorted_inv in Hs as [_ Hall].
  apply Forall_cons in Hall as [Hab _]. unfold score_ge in Hab. lia.
Qed.

Lemma two_candidates_scores_witness :
  exists a b,
    fst (find_relevant_documents Samples.w_two "vacation insurance") = [a; b]
    /\ c_score b <= c_score a <= 2 * c_score b.
Proof.
  eexists. eexists.
  assert (H : fst (find_relevant_documents Samples.w_two "vacation insurance")
              = [ {| c_name := "pto_policy"; c_path := "documents/pto-policy.txt";
                     c_score := 7; c_content := Samples.pto_text |};
                  {| c_name := "Health_Benefits";
                     c_path := "documents/Health Benefits.txt";
                     c_score := 7; c_content := Extras.health_text |} ])
    by (vm_compute; reflexivity).
  split; [exact H|].
  exact (two_candidates_scores Samples.w_two "vacation insurance" _ _ H).
Defined.

Lemma admitted_candidates_scan w q :
  admitted_candidates w q
  = scan_loop (w_fs w) (PyStr.lower q) (document_files_of w).
Proof.
  unfold admitted_candidates, document_files_of,
    DynamicDocumentProcessor.scan_documents_folder, makedirs.
  destruct (w_processor w); [|reflexivity].
  destruct (fs_folder (w_fs w)) as [[entries|e]|]; try reflexivity.
  now destruct (fs_makedirs (w_fs w)).
Qed.

Lemma document_files_NoDup w : List.NoDup (map fst (document_files_of w)).
Proof.
  unfold document_files_of, DynamicDocumentProcessor.scan_documents_folder, makedirs.
  destruct (w_processor w); [|constructor].
  destruct (fs_folder (w_fs w)) as [[entries|e]|]; cbn [fst]; try constructor.
  - apply scan_fold_NoDup. constructor.
  - destruct (fs_makedirs (w_fs w)); constructor.
Qed.

Lemma top_candidates_sublist l : top_candidates l `sublist_of` l.
Proof.
  destruct l as [|a [|b r]]; cbn [top_candidates]; try apply sublist_take.
  destruct (c_score b * 2 <? c_score a); apply sublist_take.
Qed.

(** X3: the matcher never returns a document twice: the identifiers of the
    returned candidates are pairwise distinct. *)
Theorem returned_names_distinct (w : world) (query : string) :
  List.NoDup (map c_name (fst (find_relevant_documents w query))).
Proof.
  rewrite find_relevant_documents_result.
  apply NoDup_ListNoDup.
  eapply sublist_NoDup; [|apply sublist_map, top_candidates_sublist].
  apply NoDup_ListNoDup.
  eapply Permutation_NoDup;
    [apply Permutation_map, sort_desc_perm|].
  rewrite admitted_candidates_scan, scan_loop_flat, map_map.
  cbn [candidate_of c_name].
  change (fun x : string * string => fst x) with (@fst string string).
  apply NoDup_ListNoDup.
  eapply sublist_NoDup; [|apply sublist_map, filter_sublist].
  apply NoDup_ListNoDup, document_files_NoDup.
Qed.

(** X4: a returned candidate comes from the scan: its identifier and path
    are an item of the scanned dictionary, its content is what
    [extract_text_from_file] gives for that path, and its score is the total
    score of that content. *)
Theorem returned_candidate_provenance (w : world) (query : string) (c : candidate) :
  In c (fst (find_relevant_documents w query)) ->
  In (c_name c, c_path c) (document_files_of w)
  /\ dict_get (c_name c) (document_files_of w) = Some (c_path c)
  /\ c = candidate_of (w_fs w) (PyStr.lower query) (c_name c, c_path c).
Proof.
  intros Hin. apply returned_is_admitted in Hin.
  rewrite admitted_candidates_scan, scan_loop_flat in Hin.
  apply in_map_iff in Hin as [[n p] [<- Hin]].
  apply List.filter_In in Hin as [Hin _]. cbn [candidate_of c_name c_path fst snd].
  split; [exact Hin|]. split; [|reflexivity].
  pose proof (document_files_NoDup w) as Hnd.
  induction (document_files_of w) as [|[k v] d IH]; [destruct Hin|].
  cbn [dict_get]. cbn [map fst] in Hnd. apply List.NoDup_cons_iff in Hnd as [Hk Hnd].
  destruct Hin as [Heq|Hin].
  - injection Heq as -> ->. now rewrite String.eqb_refl.
  - destruct (String.eqb k n) eqn:E; [|now apply IH].
    apply String.eqb_eq in E. subst k. exfalso. apply Hk.
    apply in_map_iff. exists (n, p). split; [reflexivity | exact Hin].
Qed.

Lemma returned_candidate_provenance_witness :
  In (c_name Samples.pto_candidate, c_path Samples.pto_candidate)
     (document_files_of Samples.w_two).
Proof.
  assert (Hin : In Samples.pto_candidate
     (fst (find_relevant_documents Samples.w_two "How many vacation days do I get?"))).
  { vm_compute. left. reflexivity. }
  exact (proj1 (returned_candidate_provenance Samples.w_two
                  "How many vacation days do I get?" Samples.pto_candidate Hin)).
Defined.

(** X5: the matcher writes to the log exactly when the scan of the documents
    folder raises (the listing raises, or the folder is missing and cannot
    be created), and then one line that carries the error; it never changes
    the processor or the outcome of a read, and the only change to the file
    system is the creation of a missing folder, which happens whenever the
    folder is missing and can be created. *)
Theorem matcher_effects (w : world) (query : string) :
  let w' := snd (find_relevant_documents w query) in
  w_processor w' = w_processor w
  /\ (forall ext p, fs_read (w_fs w') ext p = fs_read (w_fs w) ext p)
  /\ fs_makedirs (w_fs w') = fs_makedirs (w_fs w)
  /\ (fs_folder (w_fs w') = fs_folder (w_fs w)
      \/ (fs_folder (w_fs w) = None /\ fs_folder (w_fs w') = Some (Returned [])))
  /\ (fs_folder (w_fs w') <> fs_folder (w_fs w)
      <-> w_processor w <> None /\ fs_folder (w_fs w) = None
          /\ fs_makedirs (w_fs w) = None)
  /\ (w_log w' = w_log w
      \/ exists folder e,
           w_processor w = Some folder
           /\ scan_raises (w_fs w) e
           /\ w_log w' = (w_log w ++ [("Error finding relevant documents: " ++ e)%string])%list)
  /\ ((exists e, w_processor w <> None /\ scan_raises (w_fs w) e)
      <-> w_log w' <> w_log w).
Proof.
  assert (Hgrow : forall (l : list string) x, (l ++ [x])%list <> l).
  { intros l x Heq. apply (f_equal length) in Heq.
    rewrite length_app in Heq. cbn in Heq. lia. }
  cbv zeta. unfold find_relevant_documents,
    DynamicDocumentProcessor.scan_documents_folder, makedirs, scan_raises.
  destruct (w_processor w) as [folder|] eqn:Hp; cbn [snd];
    [destruct (fs_folder (w_fs w)) as [[entries|e]|] eqn:Hf;
       [| |destruct (fs_makedirs (w_fs w)) as [e|] eqn:Hm]|];
    cbn [snd w_processor w_fs w_log fs_folder fs_read fs_makedirs];
    rewrite ?Hp, ?Hf, ?Hm;
    (split; [reflexivity|]); (split; [reflexivity|]); (split; [reflexivity|]).
  - (* the folder is listed *)
    split; [now left|]. split; [split; [congruence | intros (_ & H & _); discriminate]|].
    split; [now left|]. split; [|congruence].
    intros [e [_ [He|[He _]]]]; discriminate.
  - (* the listing raises *)
    split; [now left|]. split; [split; [congruence | intros (_ & H & _); discriminate]|].
    split; [right; exists folder, e; auto|]. split; [intros _; apply Hgrow|].
    intros _. exists e. split; [discriminate | now left].
  - (* the folder is missing and cannot be created *)
    split; [now left|]. split; [split; [congruence | intros (_ & _ & H); discriminate]|].
    split; [right; exists folder, e; auto|]. split; [intros _; apply Hgrow|].
    intros _. exists e. split; [discriminate | now right].
  - (* the folder is missing and is created *)
    split; [now right|]. split; [split; [intros _; repeat split; discriminate | discriminate]|].
    split; [now left|]. split; [|congruence].
    intros [e [_ [He|[_ He]]]]; discriminate.
  - (* no processor *)
    split; [now left|]. split; [split; [congruence | intros (H & _); congruence]|].
    split; [now left|]. split; [|congruence].
    intros [e [H _]]. congruence.
Qed.

(* ===================================================================== *)
(** * Further properties of the folder scan *)
(* ===================================================================== *)

Section DictMore.

Context {V : Type}.

Lemma dict_set_In k k0 (v v0 : V) d :
  In (k, v) (dict_set k0 v0 d) -> (k = k0 /\ v = v0) \/ In (k, v) d.
Proof.
  induction d as [|[k' v'] d IH]; cbn [dict_set].
  - intros [H|[]]. injection H as <- <-. now left.
  - destruct (String.eqb k' k0) eqn:E.
    + apply String.eqb_eq in E. subst k'. intros [H|H].
      * injection H as <- <-. now left.
      * right. now right.
    + intros [H|H]; [right; now left|].
      destruct (IH H) as [?|?]; [now left | right; now right].
Qed.

Lemma dict_get_In k (v : V) d : dict_get k d = Some v -> In (k, v) d.
Proof.
  induction d as [|[k' v'] d IH]; cbn [dict_get]; [discriminate|].
  destruct (String.eqb k' k) eqn:E.
  - apply String.eqb_eq in E. subst k'. intros H. injection H as <-. now left.
  - intros H. right. now apply IH.
Qed.

Lemma dict_get_set_Some k k0 (v0 : V) d :
  is_Some (dict_get k d) -> is_Some (dict_get k (dict_set k0 v0 d)).
Proof.
  intros H. destruct (String.eqb_spec k0 k) as [->|Hne].
  - rewrite dict_get_set_eq. eauto.
  - now rewrite dict_get_set_ne.
Qed.

End DictMore.

Section ScanMore.

Import DynamicDocumentProcessor.

Variable folder : string.

Lemma scan_fold_sound entries documents item :
  In item (fold_left (scan_entry folder) entries documents) ->
  In item documents \/ from_entry folder entries item.
Proof.
  revert documents. induction entries as [|e entries IH]; intros documents Hin;
    [now left|].
  cbn [fold_left] in Hin. destruct (IH _ Hin) as [Hd|(e' & He' & Ht & Hk & Hp)].
  - rewrite scan_entry_taken in Hd. destruct (taken e) eqn:Et; [|now left].
    destruct item as [k p]. apply dict_set_In in Hd as [[-> ->]|Hd]; [|now left].
    right. exists e. repeat split; [now left | exact Et].
  - right. exists e'. repeat split; try assumption. now right.
Qed.

Lemma scan_fold_grows entries documents k :
  is_Some (dict_get k documents) ->
  is_Some (dict_get k (fold_left (scan_entry folder) entries documents)).
Proof.
  revert documents. induction entries as [|e entries IH]; intros documents H;
    [exact H|].
  cbn [fold_left]. apply IH. rewrite scan_entry_taken.
  destruct (taken e); [now apply dict_get_set_Some | exact H].
Qed.

Lemma scan_fold_complete entries documents e :
  In e entries -> taken e = true ->
  is_Some (dict_get (doc_key (d_name e))
             (fold_left (scan_entry folder) entries documents)).
Proof.
  revert documents. induction entries as [|e' entries IH]; intros documents Hin Ht;
    [destruct Hin|].
  cbn [fold_left]. destruct Hin as [->|Hin]; [|now apply IH].
  apply scan_fold_grows. rewrite scan_entry_taken, Ht, dict_get_set_eq. eauto.
Qed.

End ScanMore.

(** X6: the scan lists exactly the supported files: an identifier is a key of
    the result exactly when it is the identifier of a file of the folder with
    a supported extension, and the path stored under a key is the path of
    such a file with that identifier.  Directories and files with other
    extensions never appear. *)
Theorem scan_entries_exact (folder : string) (entries : list dirent) (k : string) :
  (is_Some (dict_get k (DynamicDocumentProcessor.scan_entries folder entries))
   <-> exists e, In e entries /\ taken e = true
                 /\ DynamicDocumentProcessor.doc_key (d_name e) = k)
  /\ forall p,
       In (k, p) (DynamicDocumentProcessor.scan_entries folder entries) ->
       exists e, In e entries /\ d_is_dir e = false
                 /\ DynamicDocumentProcessor.is_supported
                      (snd (OsPath.splitext (PyStr.lower (d_name e)))) = true
                 /\ DynamicDocumentProcessor.doc_key (d_name e) = k
                 /\ p = OsPath.join folder (d_name e).
Proof.
  unfold DynamicDocumentProcessor.scan_entries.
  assert (Hsound : forall p,
    In (k, p) (fold_left (DynamicDocumentProcessor.scan_entry folder) entries []) ->
    exists e, In e entries /\ taken e = true
              /\ DynamicDocumentProcessor.doc_key (d_name e) = k
              /\ p = OsPath.join folder (d_name e)).
  { intros p Hin. apply scan_fold_sound in Hin as [[]|(e & He & Ht & Hk & Hp)].
    exists e. cbn [fst snd] in *. auto. }
  split; [split|].
  - intros [p Hp]. apply dict_get_In, Hsound in Hp as (e & He & Ht & Hk & _).
    exists e. auto.
  - intros (e & He & Ht & <-). now apply scan_fold_complete.
  - intros p Hin. destruct (Hsound p Hin) as (e & He & Ht & Hk & Hp).
    exists e. unfold taken in Ht. apply andb_prop in Ht as [Hd Hs].
    apply negb_true_iff in Hd. auto.
Qed.

Section Paths.

Lemma append_nil_l s : "" ++ s = s.
Proof. reflexivity. Qed.

Lemma append_cons c a b : String c a ++ b = String c (a ++ b).
Proof. reflexivity. Qed.

Lemma append_assoc3 a b c : (a ++ b) ++ c = a ++ b ++ c.
Proof.
  induction a as [|d t IH]; [reflexivity|].
  rewrite !append_cons. now rewrite IH.
Qed.

Lemma length_append1 a c :
  String.length (a ++ String c "") = String.length a + 1.
Proof.
  induction a as [|d t IH]; [reflexivity|].
  rewrite append_cons. cbn [String.length]. now rewrite IH.
Qed.

Lemma rfind_from_rindex c s i last :
  PyStr.rfind_from c s i last
  = match rindex c s with
    | Some k => (i + Z.of_nat k)%Z
    | None => last
    end.
Proof.
  revert i last. induction s as [|d t IH]; intros i last; [reflexivity|].
  cbn [PyStr.rfind_from rindex]. rewrite IH.
  destruct (rindex c t); [lia|]. destruct (Ascii.eqb d c); [lia | reflexivity].
Qed.

Lemma rfind_rindex c s :
  PyStr.rfind c s = match rindex c s with
                    | Some k => Z.of_nat k
                    | None => (-1)%Z
                    end.
Proof. unfold PyStr.rfind. rewrite rfind_from_rindex. now destruct (rindex c s). Qed.

Lemma rindex_app c a b :
  rindex c (a ++ b)
  = match rindex c b with
    | Some k => Some (String.length a + k)
    | None => rindex c a
    end.
Proof.
  induction a as [|d t IH].
  - rewrite append_nil_l. now destruct (rindex c b).
  - rewrite append_cons. cbn [rindex String.length]. rewrite IH.
    now destruct (rindex c b).
Qed.

Lemma rindex_lt c s k : rindex c s = Some k -> k < String.length s.
Proof.
  revert k. induction s as [|d t IH]; intros k; cbn [rindex String.length];
    [discriminate|].
  destruct (rindex c t) as [j|].
  - intros H. injection H as <-. specialize (IH j eq_refl). lia.
  - destruct (Ascii.eqb d c); [|discriminate]. intros H. injection H as <-. lia.
Qed.

Lemma rindex_absent c s :
  PyStr.any_char (fun x => Ascii.eqb x c) s = false -> rindex c s = None.
Proof.
  induction s as [|d t IH]; [reflexivity|]. cbn [PyStr.any_char rindex].
  intros H. apply orb_false_iff in H as [Hd Ht]. now rewrite (IH Ht), Hd.
Qed.

Lemma drop_app_length a b n : PyStr.drop (String.length a + n) (a ++ b) = PyStr.drop n b.
Proof.
  induction a as [|d t IH]; [reflexivity|].
  rewrite append_cons. exact IH.
Qed.

Lemma str_take_drop s n : PyStr.take n s ++ PyStr.drop n s = s.
Proof.
  revert s. induction n as [|n IH]; intros [|c t]; try reflexivity.
  cbn [PyStr.take PyStr.drop]. now rewrite append_cons, IH.
Qed.

Lemma lower_app a b : PyStr.lower (a ++ b) = PyStr.lower a ++ PyStr.lower b.
Proof.
  induction a as [|c t IH]; [reflexivity|].
  rewrite append_cons. cbn [PyStr.lower]. now rewrite append_cons, IH.
Qed.

Lemma lower_char_slash c :
  Ascii.eqb (PyStr.lower_char c) "/" = Ascii.eqb c "/".
Proof. destruct c as [[] [] [] [] [] [] [] []]; reflexivity. Qed.

Lemma lower_no_slash s : no_slash s -> no_slash (PyStr.lower s).
Proof.
  unfold no_slash. induction s as [|c t IH]; [reflexivity|].
  cbn [PyStr.lower PyStr.any_char]. intros H.
  apply orb_false_iff in H as [Hc Ht]. now rewrite lower_char_slash, Hc, IH.
Qed.

Lemma rfind_slash_component pre n :
  no_slash n ->
  PyStr.rfind "/" ((pre ++ "/") ++ n) = Z.of_nat (String.length pre)
  /\ PyStr.rfind "/" n = (-1)%Z.
Proof.
  intros Hn. apply rindex_absent in Hn. rewrite !rfind_rindex.
  rewrite (rindex_app "/" (pre ++ "/") n), Hn, (rindex_app "/" pre "/").
  change (rindex "/" "/") with (Some 0). split; [f_equal; lia | reflexivity].
Qed.

Lemma rfind_dot_component pre n :
  match rindex "." n with
  | Some d =>
      PyStr.rfind "." ((pre ++ "/") ++ n) = Z.of_nat (String.length (pre ++ "/") + d)
      /\ PyStr.rfind "." n = Z.of_nat d
  | None =>
      (PyStr.rfind "." ((pre ++ "/") ++ n) < Z.of_nat (String.length pre))%Z
      /\ PyStr.rfind "." n = (-1)%Z
  end.
Proof.
  rewrite !rfind_rindex, (rindex_app "." (pre ++ "/") n).
  destruct (rindex "." n) as [d|]; [now split|].
  split; [|reflexivity]. rewrite (rindex_app "." pre "/").
  change (rindex "." "/") with (@None nat).
  destruct (rindex "." pre) as [k|] eqn:Ek; [|lia].
  apply rindex_lt in Ek. lia.
Qed.

(** The extension of a path is that of its last component. *)
Lemma splitext_component pre n :
  no_slash n ->
  snd (OsPath.splitext ((pre ++ "/") ++ n)) = snd (OsPath.splitext n).
Proof.
  intros Hn. destruct (rfind_slash_component pre n Hn) as [Hs Hsn].
  pose proof (rfind_dot_component pre n) as Hdot.
  pose proof (length_append1 pre "/") as Hlen.
  unfold OsPath.splitext. rewrite Hs, Hsn.
  destruct (rindex "." n) as [d|]; destruct Hdot as [Hd Hdn]; rewrite Hdn.
  - rewrite Hd.
    replace (Z.of_nat (String.length pre) <? Z.of_nat (String.length (pre ++ "/") + d))%Z
      with true by (symmetry; apply Z.ltb_lt; lia).
    replace (-1 <? Z.of_nat d)%Z with true by (symmetry; apply Z.ltb_lt; lia).
    replace (Z.to_nat (Z.of_nat (String.length pre) + 1))
      with (String.length (pre ++ "/") + 0) by lia.
    replace (Z.to_nat (Z.of_nat (String.length (pre ++ "/") + d)))
      with (String.length (pre ++ "/") + d) by lia.
    replace (String.length (pre ++ "/") + d - (String.length (pre ++ "/") + 0))
      with d by lia.
    rewrite !drop_app_length.
    replace (Z.to_nat (-1 + 1)) with 0 by lia.
    replace (Z.to_nat (Z.of_nat d)) with d by lia.
    replace (d - 0) with d by lia.
    assert (Hd0 : PyStr.drop 0 n = n) by (now destruct n).
    rewrite Hd0. destruct (PyStr.any_char _ _); reflexivity.
  - replace (Z.of_nat (String.length pre) <? PyStr.rfind "." ((pre ++ "/") ++ n))%Z
      with false by (symmetry; apply Z.ltb_ge; lia).
    reflexivity.
Qed.

Lemma join_cases folder name :
  no_slash name ->
  OsPath.join folder name = name
  \/ exists pre, OsPath.join folder name = (pre ++ "/") ++ name.
Proof.
  intros Hn. unfold OsPath.join.
  destruct (String.prefix "/" name) eqn:Ep.
  - destruct name as [|c t]; [discriminate|].
    unfold no_slash in Hn. cbn [PyStr.any_char] in Hn.
    apply orb_false_iff in Hn as [Hc _]. apply Ascii.eqb_neq in Hc.
    cbn [String.prefix] in Ep.
    destruct (Ascii.ascii_dec "/" c); [congruence | discriminate].
  - destruct (String.eqb folder "") eqn:Ee; cbn [orb].
    + apply String.eqb_eq in Ee. subst folder. now left.
    + destruct (String.eqb (PyStr.drop (String.length folder - 1) folder) "/") eqn:El.
      * apply String.eqb_eq in El. right.
        exists (PyStr.take (String.length folder - 1) folder).
        replace (folder ++ name)
          with ((PyStr.take (String.length folder - 1) folder
                 ++ PyStr.drop (String.length folder - 1) folder) ++ name)
          by (now rewrite str_take_drop).
        now rewrite El.
      * right. exists folder. symmetry. apply append_assoc3.
Qed.

End Paths.

(** X7: the scan and the extractor agree on the format of a file: for a file
    the scan takes, [extract_text_from_file] at the joined path selects the
    reader of the extension the scan saw in the file name, whatever the
    documents folder is called; it never answers that the format is
    unsupported. *)
Theorem scanned_file_is_read (fs : filesystem) (folder : string) (e : dirent) :
  taken e = true ->
  no_slash (d_name e) ->
  let ext := snd (OsPath.splitext (PyStr.lower (d_name e))) in
  DynamicDocumentProcessor.is_supported ext = true
  /\ DynamicDocumentProcessor.extract_text_from_file fs (OsPath.join folder (d_name e))
     = read_with fs ext (OsPath.join folder (d_name e)).
Proof.
  intros Ht Hn. cbv zeta. unfold taken in Ht. apply andb_prop in Ht as [_ Hs].
  split; [exact Hs|].
  unfold DynamicDocumentProcessor.extract_text_from_file, read_with.
  assert (Hext : snd (OsPath.splitext (PyStr.lower (OsPath.join folder (d_name e))))
                 = snd (OsPath.splitext (PyStr.lower (d_name e)))).
  { destruct (join_cases folder (d_name e) Hn) as [->|[pre ->]]; [reflexivity|].
    rewrite !lower_app. cbn [PyStr.lower].
    change (String (PyStr.lower_char "/") "") with "/".
    apply splitext_component. now apply lower_no_slash. }
  now rewrite Hext, Hs.
Qed.

Lemma scanned_file_is_read_witness :
  DynamicDocumentProcessor.extract_text_from_file Samples.fs_two
    "my.docs/v1/pto-policy.TXT"
  = Samples.pto_text
  \/ DynamicDocumentProcessor.extract_text_from_file Samples.fs_two
       "my.docs/v1/pto-policy.TXT"
     = Extras.health_text.
Proof.
  right.
  exact (proj2 (scanned_file_is_read Samples.fs_two "my.docs/v1"
                  (Samples.file "pto-policy.TXT") eq_refl eq_refl)).
Defined.

(* ===================================================================== *)
(** * Further properties of the context assembler *)
(* ===================================================================== *)

Lemma excerpts_loop_map (ws : list string) l acc :
  fold_left (fun excerpts c => (excerpts ++ [excerpt_of ws c])%list) l acc
  = (acc ++ map (excerpt_of ws) l)%list.
Proof.
  revert acc. induction l as [|c l IH]; intros acc; cbn [fold_left map].
  - now rewrite app_nil_r.
  - rewrite IH. now rewrite <- app_assoc.
Qed.

Lemma get_document_excerpts_map docs q :
  exists ws, get_document_excerpts docs q = map (excerpt_of ws) docs.
Proof. eexists. unfold get_document_excerpts. now rewrite excerpts_loop_map. Qed.

Lemma take_length_le n s : String.length (PyStr.take n s) <= String.length s.
Proof.
  revert s. induction n as [|n IH]; intros [|c t]; cbn [PyStr.take String.length];
    try lia.
  specialize (IH t). lia.
Qed.

Lemma length_append a b :
  String.length (a ++ b) = String.length a + String.length b.
Proof.
  induction a as [|c t IH]; [reflexivity|].
  rewrite append_cons. cbn [String.length]. now rewrite IH.
Qed.

Lemma highlight_bound ws c : String.length (highlight (excerpt_of ws c)) <= 203.
Proof.
  unfold excerpt_of. cbn [highlight].
  match goal with
  | |- String.length (if 200 <? String.length ?h then _ else _) <= _ =>
      destruct (200 <? String.length h) eqn:E
  end.
  - rewrite length_append. pose proof (take_length 200) as Ht.
    match goal with |- String.length (PyStr.take 200 ?h) + _ <= _ =>
      specialize (Ht h) end.
    cbn [String.length]. lia.
  - apply Nat.ltb_ge in E. lia.
Qed.

(** X8: the context assembler gives one excerpt per candidate, in the order
    of the candidates and under their identifiers, and no highlight is longer
    than 203 characters (200 and the ellipsis). *)
Theorem get_document_excerpts_shape (relevant_docs : list candidate) (query : string) :
  map document (get_document_excerpts relevant_docs query) = map c_name relevant_docs
  /\ length (get_document_excerpts relevant_docs query) = length relevant_docs
  /\ Forall (fun e => String.length (highlight e) <= 203)
       (get_document_excerpts relevant_docs query).
Proof.
  destruct (get_document_excerpts_map relevant_docs query) as [ws ->].
  split; [|split].
  - rewrite map_map. reflexivity.
  - apply length_map.
  - apply List.Forall_forall. intros e He.
    apply in_map_iff in He as [c [<- _]]. apply highlight_bound.
Qed.

(* ===================================================================== *)
(** * Further properties of the response generator *)
(* ===================================================================== *)

Lemma last_n_app_ge {A} n (old recent : list A) :
  n <= length recent -> PyStr.last_n n (old ++ recent) = PyStr.last_n n recent.
Proof.
  intros Hn. unfold PyStr.last_n. rewrite length_app.
  replace (length old + length recent - n)
    with (length old + (length recent - n)) by lia.
  now rewrite drop_app_add.
Qed.

Lemma conversation_context_window old recent :
  4 <= length recent ->
  conversation_context_of (Some (old ++ recent)%list)
  = conversation_context_of (Some recent).
Proof.
  intros Hn. unfold conversation_context_of.
  rewrite (last_n_app_ge 4 old recent Hn).
  destruct recent as [|r0 recent]; [cbn in Hn; lia|].
  destruct (old ++ r0 :: recent)%list eqn:E; [|reflexivity].
  apply app_eq_nil in E as [_ E]. discriminate.
Qed.

(** X9: only the last four entries of the conversation history reach the
    generator: any older entries, malformed ones included, leave the result
    and the log of [generate_response] unchanged. *)
Theorem generate_response_window
    (client : option generator) (query context : string)
    (old recent : list history_item) :
  4 <= length recent ->
  generate_response client query context (Some (old ++ recent)%list)
  = generate_response client query context (Some recent).
Proof.
  intros Hn. unfold generate_response.
  now rewrite (conversation_context_window old recent Hn).
Qed.

Lemma generate_response_window_witness :
  generate_response (Some Extras.echo) "PTO?" ""
    (Some ([NotAnObject "'str' object has no attribute 'get'"] ++ Extras.recent)%list)
  = (Returned "Noted.", []).
Proof.
  rewrite (generate_response_window (Some Extras.echo) "PTO?" ""
             [NotAnObject "'str' object has no attribute 'get'"] Extras.recent).
  - reflexivity.
  - cbn. lia.
Defined.

Lemma render_history_raised acc msgs :
  raised (render_history acc msgs) = existsb malformed msgs.
Proof.
  revert acc. induction msgs as [|[role content|e] msgs IH]; intros acc;
    cbn [render_history existsb malformed orb]; [reflexivity | apply IH | reflexivity].
Qed.

Lemma conversation_context_raised h :
  raised (conversation_context_of h) = existsb malformed (recent_history h).
Proof.
  destruct h as [[|m h]|]; try reflexivity.
  unfold conversation_context_of, recent_history. apply render_history_raised.
Qed.

Lemma generate_response_raised client q ctx h :
  raised (fst (generate_response client q ctx h))
  = match client with
    | None => false
    | Some _ => existsb malformed (recent_history h)
    end.
Proof.
  unfold generate_response. destruct client as [create|]; [|reflexivity].
  rewrite <- conversation_context_raised.
  destruct (conversation_context_of h) as [ctx'|e]; [|reflexivity].
  destruct (create _) as [[|[t|b] blocks]|e]; reflexivity.
Qed.

(** X10: [generate_response] raises exactly when a client is configured and
    one of the last four history entries is not an object; a failure of the
    generator itself never raises, and without a client the history is not
    even looked at. *)
Theorem generate_response_raises_iff
    (client : option generator) (query context : string)
    (conversation_history : option (list history_item)) :
  raised (fst (generate_response client query context conversation_history)) = true
  <-> client <> None
      /\ exists item, In item (recent_history conversation_history)
                      /\ malformed item = true.
Proof.
  rewrite generate_response_raised. destruct client as [create|].
  - rewrite existsb_exists. split.
    + intros H. split; [discriminate | exact H].
    + intros [_ H]. exact H.
  - split; [discriminate | intros [H _]; now contradict H].
Qed.

(* ===================================================================== *)
(** * Further properties of [process_query] *)
(* ===================================================================== *)

Lemma process_query_cases today elapsed s q u d h :
  let docs := fst (find_relevant_documents (app_world s) q) in
  let offered := get_document_excerpts docs q in
  let gen := generate_response (app_client s) q (build_context 0 "" offered) h in
  match fst gen with
  | Returned resp =>
      exists r s',
        process_query today elapsed s q u d h = (Returned r, s')
        /\ response r = resp
        /\ sources r = verify_sources resp offered
        /\ processing_time r = elapsed
        /\ (optimization_tips r = [] <-> sources r = [])
        /\ app_analytics s'
           = log_usage_analytics today (app_analytics s) u d q elapsed
               (sources r) false
  | Raised e =>
      exists s',
        process_query today elapsed s q u d h = (Raised e, s')
        /\ app_analytics s'
           = log_usage_analytics today (app_analytics s) u d q elapsed [] true
  end.
Proof.
  cbv zeta. unfold process_query.
  destruct (find_relevant_documents (app_world s) q) as [docs w]. cbn [fst].
  destruct (generate_response _ _ _ _) as [[resp|e] logged]; cbn [fst].
  - eexists. eexists. split; [reflexivity|]. cbn [response sources processing_time
      optimization_tips app_analytics].
    repeat split; try reflexivity.
    + destruct (verify_sources resp _); [reflexivity | discriminate].
    + intros ->. reflexivity.
  - eexists. split; reflexivity.
Qed.

(** X11: when [process_query] returns, its sources are at most two, their
    identifiers are a subsequence of the identifiers of the matcher's
    candidates, the tips are empty exactly when the sources are, and the
    processing time is the elapsed time. *)
Theorem process_query_result_shape
    (today : string) (elapsed : N) (s s' : app_state)
    (query user_id department : string)
    (conversation_history : option (list history_item)) (r : query_result) :
  process_query today elapsed s query user_id department conversation_history
  = (Returned r, s') ->
  length (sources r) <= 2
  /\ map document (sources r)
     `sublist_of` map c_name (fst (find_relevant_documents (app_world s) query))
  /\ (optimization_tips r = [] <-> sources r = [])
  /\ processing_time r = elapsed.
Proof.
  intros Hrun.
  pose proof (process_query_cases today elapsed s query user_id department
                conversation_history) as Hc. cbv zeta in Hc.
  destruct (fst (generate_response _ _ _ _)) as [resp|e].
  - destruct Hc as (r0 & s0 & Hrun0 & _ & Hsrc & Htime & Htips & _).
    rewrite Hrun in Hrun0. injection Hrun0 as <- <-.
    split; [|split; [|split; assumption]].
    + rewrite Hsrc, verify_sources_filter.
      etransitivity; [apply sublist_length, filter_sublist|].
      destruct (get_document_excerpts_map
                  (fst (find_relevant_documents (app_world s) query)) query)
        as [ws ->].
      rewrite length_map, find_relevant_documents_result.
      apply top_candidates_length.
    + rewrite Hsrc, verify_sources_filter.
      destruct (get_document_excerpts_map
                  (fst (find_relevant_documents (app_world s) query)) query)
        as [ws Hmap].
      replace (map c_name (fst (find_relevant_documents (app_world s) query)))
        with (map document
                (get_document_excerpts
                   (fst (find_relevant_documents (app_world s) query)) query))
        by (rewrite Hmap, map_map; reflexivity).
      apply sublist_map, filter_sublist.
  - destruct Hc as (s0 & Hrun0 & _). rewrite Hrun in Hrun0. discriminate.
Qed.

Lemma process_query_result_shape_witness :
  exists r s',
    process_query "2025-01-01" 7%N Extras.s_echo "vacation insurance" "u1"
      "Engineering" (Some Extras.recent) = (Returned r, s')
    /\ length (sources r) <= 2.
Proof.
  destruct (process_query "2025-01-01" 7%N Extras.s_echo "vacation insurance" "u1"
              "Engineering" (Some Extras.recent)) as [[r|e] s'] eqn:Erun.
  - exists r, s'. split; [reflexivity|].
    exact (proj1 (process_query_result_shape _ _ _ _ _ _ _ _ _ Erun)).
  - exfalso. vm_compute in Erun. discriminate Erun.
Defined.

(** X12: [process_query] raises exactly when a client is configured and one
    of the last four history entries is not an object.  Either way the
    request is logged once: the total of queries grows by one; the error
    counter grows by one when it raises, and then no document is counted as
    accessed; it is unchanged when it returns. *)
Theorem process_query_logs_once
    (today : string) (elapsed : N) (s : app_state)
    (query user_id department : string)
    (conversation_history : option (list history_item)) :
  let run := process_query today elapsed s query user_id department
               conversation_history in
  (raised (fst run) = true
   <-> app_client s <> None
       /\ existsb malformed (recent_history conversation_history) = true)
  /\ total_queries (app_analytics (snd run)) = total_queries (app_analytics s) + 1
  /\ error_count (app_analytics (snd run))
     = error_count (app_analytics s) + (if raised (fst run) then 1 else 0)
  /\ (raised (fst run) = true ->
      documents_accessed (app_analytics (snd run))
      = documents_accessed (app_analytics s)).
Proof.
  cbv zeta.
  pose proof (process_query_cases today elapsed s query user_id department
                conversation_history) as Hc. cbv zeta in Hc.
  pose proof (generate_response_raised (app_client s) query
                (build_context 0 ""
                   (get_document_excerpts
                      (fst (find_relevant_documents (app_world s) query)) query))
                conversation_history) as Hr.
  destruct (fst (generate_response _ _ _ _)) as [resp|e].
  - destruct Hc as (r & s' & Hrun & _ & _ & _ & _ & Han).
    rewrite Hrun. cbn [fst snd raised] in *. rewrite Han.
    repeat split; try (cbn; lia); try discriminate.
    intros [Hne Hm]. destruct (app_client s); [congruence | now contradict Hne].
  - destruct Hc as (s' & Hrun & Han).
    rewrite Hrun. cbn [fst snd raised] in *. rewrite Han.
    repeat split; try (cbn; lia); try reflexivity.
    + destruct (app_client s); [discriminate | discriminate Hr].
    + destruct (app_client s); [now symmetry | discriminate Hr].
Qed.

(* ===================================================================== *)
(** * Further properties of the query classifier *)
(* ===================================================================== *)

Lemma lower_char_idem c : PyStr.lower_char (PyStr.lower_char c) = PyStr.lower_char c.
Proof. destruct c as [[] [] [] [] [] [] [] []]; reflexivity. Qed.

Lemma lower_idem s : PyStr.lower (PyStr.lower s) = PyStr.lower s.
Proof.
  induction s as [|c t IH]; [reflexivity|].
  cbn [PyStr.lower]. now rewrite lower_char_idem, IH.
Qed.

(** X13: the classifier answers with one of its seven labels, and the case
    of the letters of the query does not matter. *)
Theorem classify_query_type_labels (query : string) :
  In (classify_query_type query) query_type_labels
  /\ classify_query_type (PyStr.lower query) = classify_query_type query.
Proof.
  split.
  - unfold classify_query_type, query_type_labels.
    repeat match goal with
           | |- In (if ?b then _ else _) _ => destruct b
           end; cbn; tauto.
  - unfold classify_query_type. now rewrite lower_idem.
Qed.

Lemma any_in_app l1 l2 s : any_in (l1 ++ l2) s = any_in l1 s || any_in l2 s.
Proof. unfold any_in. apply existsb_app. Qed.

Lemma any_in_cons w l s : any_in (w :: l) s = PyStr.contains w s || any_in l s.
Proof. reflexivity. Qed.

(** X14: the label [AI Usage] is given exactly when none of the keywords of
    the five earlier rules occurs in the lowercased query and one of
    [claude], [ai], [usage] does.  The keyword [policy] of the last rule
    never decides: a query that mentions it is labelled by an earlier
    rule. *)
Theorem classify_ai_usage_iff (query : string) :
  (classify_query_type query = "AI Usage"
   <-> any_in earlier_rule_keywords (PyStr.lower query) = false
       /\ any_in ["claude"; "ai"; "usage"] (PyStr.lower query) = true)
  /\ (PyStr.contains "policy" (PyStr.lower query) = true ->
      classify_query_type query <> "AI Usage").
Proof.
  unfold classify_query_type. generalize (PyStr.lower query). intros ql.
  change earlier_rule_keywords
    with (["pto"; "vacation"; "time off"; "leave"; "holiday"]
          ++ ["health"; "medical"; "benefits"; "insurance"; "dental"]
          ++ ["security"; "password"; "it policy"; "vpn"; "network"]
          ++ ["handbook"; "policy"; "employee"; "work hours"; "dress code"]
          ++ ["org"; "organization"; "structure"; "contact"; "email"; "phone"])%list.
  rewrite !any_in_app.
  assert (H4 : any_in ["handbook"; "policy"; "employee"; "work hours"; "dress code"] ql
               = PyStr.contains "policy" ql
                 || any_in ["handbook"; "employee"; "work hours"; "dress code"] ql).
  { rewrite !any_in_cons. destruct (PyStr.contains "handbook" ql),
      (PyStr.contains "policy" ql); reflexivity. }
  assert (H6 : any_in ["claude"; "ai"; "usage"; "policy"] ql
               = any_in ["claude"; "ai"; "usage"] ql || PyStr.contains "policy" ql).
  { rewrite !any_in_cons. unfold any_in. cbn [existsb].
    destruct (PyStr.contains "claude" ql), (PyStr.contains "ai" ql),
      (PyStr.contains "usage" ql), (PyStr.contains "policy" ql); reflexivity. }
  rewrite H4, H6.
  destruct (any_in ["pto"; "vacation"; "time off"; "leave"; "holiday"] ql),
    (any_in ["health"; "medical"; "benefits"; "insurance"; "dental"] ql),
    (any_in ["security"; "password"; "it policy"; "vpn"; "network"] ql),
    (PyStr.contains "policy" ql),
    (any_in ["handbook"; "employee"; "work hours"; "dress code"] ql),
    (any_in ["org"; "organization"; "structure"; "contact"; "email"; "phone"] ql),
    (any_in ["claude"; "ai"; "usage"] ql);
    cbn [orb]; (split; [split|]);
    try discriminate; try (intros [? ?]; discriminate);
    try (intros _; split; reflexivity); try (intros; reflexivity);
    try (intros _ H; discriminate H).
Qed.

Example classify_claude_usage_policy :
  classify_query_type "What is the Claude usage policy?" = "Employee Handbook".
Proof. vm_compute. reflexivity. Qed.

(* ===================================================================== *)
(** * Further properties of the usage ledger *)
(* ===================================================================== *)

Section Counters.

Implicit Types (m : gmap string nat) (k : string).

Lemma bump_insert m k : bump k m = <[k := default 0 (m !! k) + 1]> m.
Proof.
  unfold bump. destruct (m !! k) as [v|] eqn:E.
  - now rewrite E.
  - rewrite lookup_insert_eq. cbn. now rewrite insert_insert_eq.
Qed.

Lemma bump_lookup m k : bump k m !! k = Some (default 0 (m !! k) + 1).
Proof. rewrite bump_insert. apply lookup_insert_eq. Qed.

Lemma bump_lookup_ne m k k' : k <> k' -> bump k m !! k' = m !! k'.
Proof. intros Hne. rewrite bump_insert. now apply lookup_insert_ne. Qed.

Lemma total_of_insert_fresh m k v :
  m !! k = None -> total_of (<[k := v]> m) = v + total_of m.
Proof.
  intros Hk. unfold total_of.
  rewrite map_fold_insert_L; [reflexivity | intros; apply Nat.add_shuffle3 | exact Hk].
Qed.

Lemma total_of_bump m k : total_of (bump k m) = total_of m + 1.
Proof.
  rewrite bump_insert. destruct (m !! k) as [v|] eqn:E; cbn [default from_option id].
  - rewrite <- insert_delete_eq.
    rewrite total_of_insert_fresh by apply lookup_delete_eq.
    assert (Hm : total_of m = v + total_of (delete k m)).
    { unfold total_of.
      apply (map_fold_delete_L (fun _ x acc => x + acc) 0 k v m);
        [intros; apply Nat.add_shuffle3 | exact E]. }
    lia.
  - rewrite total_of_insert_fresh by exact E. lia.
Qed.

End Counters.

Lemma bump_fold_lookup (docs : list excerpt) (m : gmap string nat) (name : string) :
  default 0 (fold_left (fun d doc => bump (document doc) d) docs m !! name)
  = default 0 (m !! name) + uses_of name docs.
Proof.
  revert m. induction docs as [|doc docs IH]; intros m.
  - cbn. lia.
  - cbn [fold_left]. rewrite IH. unfold uses_of. cbn [List.filter].
    destruct (String.eqb_spec (document doc) name) as [->|Hne].
    + rewrite bump_lookup. cbn [default from_option id length]. lia.
    + rewrite bump_lookup_ne by exact Hne. lia.
Qed.

(** X15: a call of the update hook adds one to the counter of the request's
    department, of its query type and of the day, and leaves the counters of
    the other departments, types and days as they were; the counter of a
    document grows by the number of the sources that come from it. *)
Theorem log_usage_analytics_counters
    (today : string) (a : analytics) (user_id department query : string)
    (response_time : N) (documents_used : list excerpt) (error_occurred : bool) :
  let a' := log_usage_analytics today a user_id department query response_time
              documents_used error_occurred in
  departments a' !! department = Some (default 0 (departments a !! department) + 1)
  /\ (forall d, d <> department -> departments a' !! d = departments a !! d)
  /\ query_types a' !! classify_query_type query
     = Some (default 0 (query_types a !! classify_query_type query) + 1)
  /\ (forall t, t <> classify_query_type query ->
        query_types a' !! t = query_types a !! t)
  /\ daily_usage a' !! today = Some (default 0 (daily_usage a !! today) + 1)
  /\ (forall day, day <> today -> daily_usage a' !! day = daily_usage a !! day)
  /\ (forall name,
        default 0 (documents_accessed a' !! name)
        = default 0 (documents_accessed a !! name) + uses_of name documents_used).
Proof.
  cbv zeta. cbn [log_usage_analytics departments query_types daily_usage
                 documents_accessed].
  repeat split; try apply bump_lookup;
    try (intros k Hne; apply bump_lookup_ne; congruence).
  intros name. apply bump_fold_lookup.
Qed.

Lemma track_user_lookup today u d (us : gmap string user_data) :
  track_user today u d us !! u
  = Some {| query_count := from_option query_count 0 (us !! u) + 1;
            first_seen := from_option first_seen today (us !! u);
            last_seen := today;
            user_departments :=
              from_option user_departments ∅ (us !! u) ∪ {[d]} |}.
Proof.
  unfold track_user. destruct (us !! u) as [ud|] eqn:E.
  - rewrite E. now rewrite lookup_insert_eq.
  - rewrite lookup_insert_eq. now rewrite lookup_insert_eq.
Qed.

Lemma track_user_lookup_ne today u u' d (us : gmap string user_data) :
  u <> u' -> track_user today u d us !! u' = us !! u'.
Proof.
  intros Hne. unfold track_user. destruct (us !! u) as [ud|] eqn:E.
  - rewrite E. now rewrite lookup_insert_ne.
  - rewrite lookup_insert_eq. now rewrite !lookup_insert_ne.
Qed.

(** X16: a call of the update hook records the user: the entry of the user
    counts one query more (one for a new user), keeps the day the user was
    first seen (today for a new user), is last seen today and lists the
    department of the request beside those listed before; the entries of the
    other users are untouched. *)
Theorem log_usage_analytics_user
    (today : string) (a : analytics) (user_id department query : string)
    (response_time : N) (documents_used : list excerpt) (error_occurred : bool) :
  let a' := log_usage_analytics today a user_id department query response_time
              documents_used error_occurred in
  (exists entry,
     users a' !! user_id = Some entry
     /\ query_count entry = from_option query_count 0 (users a !! user_id) + 1
     /\ first_seen entry = from_option first_seen today (users a !! user_id)
     /\ last_seen entry = today
     /\ department ∈ user_departments entry
     /\ from_option user_departments ∅ (users a !! user_id) ⊆ user_departments entry)
  /\ forall other, other <> user_id -> users a' !! other = users a !! other.
Proof.
  cbv zeta. cbn [log_usage_analytics users]. split.
  - eexists. split; [apply track_user_lookup|].
    cbn [query_count first_seen last_seen user_departments].
    repeat split; try reflexivity; set_solver.
  - intros other Hne. apply track_user_lookup_ne. congruence.
Qed.

Lemma ledger_consistent_initial : ledger_consistent initial_analytics.
Proof.
  unfold ledger_consistent, initial_analytics, total_of. cbn.
  rewrite !map_fold_empty. repeat split; try lia. apply map_Forall_empty.
Qed.

Lemma ledger_consistent_step today a u d q t docs err :
  ledger_consistent a ->
  ledger_consistent (log_usage_analytics today a u d q t docs err).
Proof.
  intros (He & Hd & Hq & Hday & Hu). unfold ledger_consistent.
  cbn [log_usage_analytics error_count total_queries departments query_types
       daily_usage users].
  rewrite !total_of_bump, Hd, Hq, Hday.
  repeat split; try lia.
  - destruct err; lia.
  - intros k ud Hk. destruct (decide (k = u)) as [->|Hne].
    + rewrite track_user_lookup in Hk. injection Hk as <-. cbn. lia.
    + rewrite track_user_lookup_ne in Hk by congruence. exact (Hu k ud Hk).
Qed.

(** X17: after any sequence of calls of the update hook from the initial
    ledger the counters agree: the errors are at most the total of queries,
    the counters of the departments, of the query types and of the days each
    add up to the total of queries, and every recorded user has at least one
    query. *)
Theorem ledger_counters_agree (calls : list call) :
  ledger_consistent (fold_left apply_call calls initial_analytics).
Proof.
  pose proof ledger_consistent_initial as H0. revert H0.
  generalize initial_analytics.
  induction calls as [|c calls IH]; intros a Ha; [exact Ha|].
  cbn [fold_left]. apply IH. now apply ledger_consistent_step.
Qed.

Lemma last_drop_lt {A} n (l : list A) : n < length l -> last (drop n l) = last l.
Proof.
  intros Hn. rewrite <- (take_drop n l) at 2. rewrite last_app.
  destruct (last (drop n l)) eqn:E; [reflexivity|].
  apply last_None in E. apply (f_equal length) in E.
  rewrite length_drop in E. cbn in E. lia.
Qed.

Lemma append_keep_last_last {A} n (x : A) l :
  n <> 0 -> last (append_keep_last n x l) = Some x.
Proof.
  intros Hn. unfold append_keep_last, PyStr.last_n.
  destruct (n <? length (l ++ [x])%list) eqn:E.
  - rewrite last_drop_lt; [apply last_snoc|].
    rewrite length_app in *. cbn [length] in *. lia.
  - apply last_snoc.
Qed.

Lemma append_keep_last_suffix {A} n (x : A) l :
  append_keep_last n x l `suffix_of` (l ++ [x])%list.
Proof.
  unfold append_keep_last, PyStr.last_n.
  destruct (n <? length (l ++ [x])%list); [apply suffix_drop | reflexivity].
Qed.

(** X18: the two bounded lists of the ledger keep the most recent entries:
    after a call the last response time is that of the call and the last
    stored query is the first 100 characters of its query, and each list is
    the end of the former list with the new entry appended. *)
Theorem log_usage_analytics_recent
    (today : string) (a : analytics) (user_id department query : string)
    (response_time : N) (documents_used : list excerpt) (error_occurred : bool) :
  let a' := log_usage_analytics today a user_id department query response_time
              documents_used error_occurred in
  last (response_times a') = Some response_time
  /\ response_times a' `suffix_of` (response_times a ++ [response_time])%list
  /\ last (popular_queries a') = Some (PyStr.take 100 query)
  /\ popular_queries a' `suffix_of` (popular_queries a ++ [PyStr.take 100 query])%list.
Proof.
  cbv zeta. cbn [log_usage_analytics response_times popular_queries].
  repeat split; try (apply append_keep_last_last; lia);
    apply append_keep_last_suffix.
Qed.

(* ===================================================================== *)
(** * Sessions of [SimpleUserAuth] *)
(* ===================================================================== *)

Section Sessions.

Import SimpleUserAuth.

Lemma load_data_sessions a : sessions (snd (load_data a)) = sessions a.
Proof. unfold load_data. now destruct (data_file a). Qed.

(** What a returned answer says of the record it was read from. *)
Lemma info_of_Returned user t info :
  info_of user t = Returned info ->
  employee_id user = Some (ui_employee_id info)
  /\ username user = Some (ui_username info)
  /\ email user = Some (ui_email info)
  /\ first_name user = Some (ui_first_name info)
  /\ last_name user = Some (ui_last_name info)
  /\ department user = Some (ui_department info)
  /\ position user = Some (ui_position info)
  /\ is_admin user = Some (ui_is_admin info)
  /\ ui_session_token info = t.
Proof.
  unfold info_of, bind, item.
  destruct (employee_id user); [|discriminate].
  destruct (username user); [|discriminate].
  destruct (email user); [|discriminate].
  destruct (first_name user); [|discriminate].
  destruct (last_name user); [|discriminate].
  destruct (department user); [|discriminate].
  destruct (position user); [|discriminate].
  destruct (is_admin user); [|discriminate].
  intros H. injection H as <-. cbn. repeat split.
Qed.

Lemma info_of_complete user t :
  complete user <-> exists info, info_of user t = Returned info.
Proof.
  split.
  - intros ([? H1] & [? H2] & [? H3] & [? H4] & [? H5] & [? H6] & [? H7] & [? H8]).
    unfold info_of, bind, item. rewrite H1, H2, H3, H4, H5, H6, H7, H8. eauto.
  - intros [info H]. apply info_of_Returned in H.
    destruct H as (H1 & H2 & H3 & H4 & H5 & H6 & H7 & H8 & _).
    unfold complete. rewrite H1, H2, H3, H4, H5, H6, H7, H8. repeat split; eauto.
Qed.

Lemma info_of_logged_in user now_iso t :
  info_of (logged_in user now_iso) t = info_of user t.
Proof. reflexivity. Qed.

Lemma find_employee_first id employees info :
  find_employee id employees = Returned (Some info)
  <-> first_with_id id employees info.
Proof.
  split.
  - induction employees as [|[name user] rest IH]; [discriminate|].
    cbn [find_employee]. unfold bind at 1, item.
    destruct (employee_id user) as [i|] eqn:Ei; [|discriminate].
    destruct (String.eqb_spec i id) as [->|Hne].
    + unfold bind. destruct (info_of user None) as [info'|e] eqn:Einfo;
        [|discriminate].
      intros H. injection H as ->.
      exists [], name, user, rest. repeat split; auto.
    + intros H. destruct (IH H) as (before & n & u & after & -> & Hb & Hu & Hi).
      exists ((name, user) :: before), n, u, after. repeat split; auto.
      constructor; [|exact Hb]. exists i. auto.
  - intros (before & n & u & after & -> & Hb & Hu & Hi).
    induction Hb as [|[name user] before (other & Ho & Hne) _ IH];
      cbn [List.app find_employee]; unfold bind at 1, item.
    + rewrite Hu, String.eqb_refl. unfold bind. now rewrite Hi.
    + cbn [snd] in Ho. rewrite Ho.
      apply String.eqb_neq in Hne. rewrite Hne. exact IH.
Qed.

Lemma get_user_Some a t now info :
  fst (get_user_from_session a t now) = Some info ->
  t <> ""
  /\ exists session, sessions a !! t = Some session
                     /\ (now <= expires_at session)%Z
                     /\ ui_employee_id info = s_employee_id session
                     /\ ui_session_token info = None.
Proof.
  unfold get_user_from_session.
  destruct (String.eqb_spec t "") as [->|Ht]; [discriminate|].
  destruct (sessions a !! t) as [session|] eqn:Es; [|discriminate].
  destruct (expires_at session <? now)%Z eqn:Ex; [discriminate|].
  apply Z.ltb_ge in Ex.
  destruct (load_data a) as [employees a1].
  destruct (find_employee (s_employee_id session) employees) as [found|e] eqn:Ef;
    [|discriminate].
  cbn [fst]. intros ->. split; [exact Ht|].
  exists session. repeat split; try assumption.
  - apply find_employee_first in Ef.
    destruct Ef as (before & n & u & after & _ & _ & Hu & Hi).
    apply info_of_Returned in Hi. destruct Hi as (Hid & _). congruence.
  - apply find_employee_first in Ef.
    destruct Ef as (before & n & u & after & _ & _ & Hu & Hi).
    apply info_of_Returned in Hi. tauto.
Qed.

Lemma get_user_no_session a t now :
  sessions a !! t = None -> fst (get_user_from_session a t now) = None.
Proof.
  intros Hs. unfold get_user_from_session.
  destruct (String.eqb t ""); [reflexivity|]. now rewrite Hs.
Qed.

Lemma logout_removes a t : sessions (snd (logout_user a t)) !! t = None.
Proof.
  unfold logout_user. destruct (sessions a !! t) eqn:E; cbn [snd]; [|exact E].
  apply lookup_delete_eq.
Qed.

End Sessions.

(** X19: [logout_user] answers [True] exactly when the token had a session;
    afterwards the token has none, [get_user_from_session] gives nothing for
    it at any time, a second logout answers [False], and the sessions of the
    other tokens are as before. *)
Theorem logout_invalidates (a : SimpleUserAuth.auth) (token : string) (now : Z) :
  let a' := snd (SimpleUserAuth.logout_user a token) in
  (fst (SimpleUserAuth.logout_user a token) = true
   <-> is_Some (SimpleUserAuth.sessions a !! token))
  /\ SimpleUserAuth.sessions a' !! token = None
  /\ fst (SimpleUserAuth.get_user_from_session a' token now) = None
  /\ fst (SimpleUserAuth.logout_user a' token) = false
  /\ forall other, other <> token ->
       SimpleUserAuth.sessions a' !! other = SimpleUserAuth.sessions a !! other.
Proof.
  cbv zeta.
  pose proof (logout_removes a token) as Hnone.
  split; [|split; [exact Hnone | split; [|split]]].
  - unfold SimpleUserAuth.logout_user.
    destruct (SimpleUserAuth.sessions a !! token); cbn [fst]; split;
      eauto; try discriminate. intros [? ?]. discriminate.
  - now apply get_user_no_session.
  - unfold SimpleUserAuth.logout_user at 1. now rewrite Hnone.
  - intros other Hne. unfold SimpleUserAuth.logout_user.
    destruct (SimpleUserAuth.sessions a !! token); cbn [snd]; [|reflexivity].
    cbn [SimpleUserAuth.with_sessions SimpleUserAuth.sessions].
    now apply lookup_delete_ne.
Qed.

(** X20: [get_user_from_session] gives a user only for a non-empty token
    that has a session which has not expired, and the user it gives is an
    employee with the identifier stored in the session, without a session
    token in the answer. *)
Theorem session_lookup_sound (a : SimpleUserAuth.auth) (token : string) (now : Z)
    (info : SimpleUserAuth.user_info) :
  fst (SimpleUserAuth.get_user_from_session a token now) = Some info ->
  token <> ""
  /\ exists session,
       SimpleUserAuth.sessions a !! token = Some session
       /\ (now <= SimpleUserAuth.expires_at session)%Z
       /\ SimpleUserAuth.ui_employee_id info = SimpleUserAuth.s_employee_id session
       /\ SimpleUserAuth.ui_session_token info = None.
Proof. apply get_user_Some. Qed.

(** X21: a lookup of a session after its expiry gives nothing and removes the
    session, so that the token stays invalid even for a clock set back; a
    lookup up to the expiry (the instant of expiry included) leaves the
    sessions as they are and gives the first employee with the identifier of
    the session: it gives an answer exactly when every record listed before
    that employee has an identifier and the employee's record has the eight
    keys of the answer. *)
Theorem session_expiry (a : SimpleUserAuth.auth) (token : string) (now : Z)
    (session : SimpleUserAuth.session) :
  token <> "" ->
  SimpleUserAuth.sessions a !! token = Some session ->
  let run := SimpleUserAuth.get_user_from_session a token now in
  ((SimpleUserAuth.expires_at session < now)%Z ->
     fst run = None
     /\ SimpleUserAuth.sessions (snd run) !! token = None
     /\ forall earlier,
          fst (SimpleUserAuth.get_user_from_session (snd run) token earlier) = None)
  /\ ((now <= SimpleUserAuth.expires_at session)%Z ->
      SimpleUserAuth.sessions (snd run) = SimpleUserAuth.sessions a
      /\ forall info,
           fst run = Some info
           <-> first_with_id (SimpleUserAuth.s_employee_id session)
                 (fst (SimpleUserAuth.load_data a)) info).
Proof.
  intros Ht Hs. cbv zeta. apply String.eqb_neq in Ht.
  assert (Hrun : SimpleUserAuth.get_user_from_session a token now
    = if (SimpleUserAuth.expires_at session <? now)%Z
      then (None, SimpleUserAuth.with_sessions a
                    (delete token (SimpleUserAuth.sessions a)))
      else let '(employees, a1) := SimpleUserAuth.load_data a in
           match SimpleUserAuth.find_employee
                   (SimpleUserAuth.s_employee_id session) employees with
           | Returned found => (found, a1)
           | Raised e =>
               (None, SimpleUserAuth.with_log a1 ("Session validation error: " ++ e))
           end).
  { unfold SimpleUserAuth.get_user_from_session. now rewrite Ht, Hs. }
  rewrite Hrun. clear Hrun. split.
  - intros Hlt. apply Z.ltb_lt in Hlt. rewrite Hlt. cbn [fst snd].
    assert (Hgone : SimpleUserAuth.sessions
                      (SimpleUserAuth.with_sessions a
                         (delete token (SimpleUserAuth.sessions a))) !! token = None)
      by apply lookup_delete_eq.
    split; [reflexivity|]. split; [exact Hgone|].
    intros earlier. now apply get_user_no_session.
  - intros Hle. apply Z.ltb_ge in Hle. rewrite Hle.
    pose proof (load_data_sessions a) as Hl.
    destruct (SimpleUserAuth.load_data a) as [employees a1]. cbn [fst snd] in *.
    pose proof (find_employee_first (SimpleUserAuth.s_employee_id session) employees)
      as Hfirst.
    destruct (SimpleUserAuth.find_employee _ employees) as [found|e];
      cbn [fst snd SimpleUserAuth.with_log SimpleUserAuth.sessions];
      (split; [exact Hl|]); intros info; rewrite <- Hfirst.
    + split; congruence.
    + split; discriminate.
Qed.

Lemma session_expiry_witness :
  fst (SimpleUserAuth.get_user_from_session AuthSamples.a_old "tok" 101) = None
  /\ fst (SimpleUserAuth.get_user_from_session AuthSamples.a_old "tok" 100)
     = Some (AuthSamples.jane_info None).
Proof.
  pose proof (session_expiry AuthSamples.a_old "tok" 101 AuthSamples.old_session
                ltac:(discriminate) eq_refl) as [Hafter _].
  pose proof (session_expiry AuthSamples.a_old "tok" 100 AuthSamples.old_session
                ltac:(discriminate) eq_refl) as [_ Hbefore].
  cbv zeta in *. split.
  - apply Hafter. reflexivity.
  - apply Hbefore; [discriminate|].
    exists [], "jane.smith", AuthSamples.jane, []. repeat split. constructor.
Defined.

Lemma session_lookup_sound_witness :
  exists session,
    SimpleUserAuth.sessions AuthSamples.a_old !! "tok" = Some session
    /\ (100 <= SimpleUserAuth.expires_at session)%Z.
Proof.
  destruct (session_lookup_sound AuthSamples.a_old "tok" 100
              (AuthSamples.jane_info None) eq_refl)
    as (_ & session & Hs & Hle & _).
  exists session. split; assumption.
Defined.

Section Login.

Import SimpleUserAuth.

Variable hash_password : string -> string.

Lemma password_accepted_ok a name password user :
  dict_get name (fst (load_data a)) = Some user ->
  password_accepted user (hash_password password) = true
  <-> credentials_ok hash_password a name password user.
Proof.
  intros Hu. unfold password_accepted, credentials_ok.
  destruct (password_hash user) as [stored|]; cbn [andb].
  - destruct (String.eqb_spec stored (hash_password password)) as [->|Hne];
      cbn [andb from_option].
    + destruct (is_active user); cbn [from_option]; tauto.
    + split; [discriminate|]. intros (_ & H & _). congruence.
  - split; [discriminate|]. intros (_ & H & _). discriminate.
Qed.

Lemma save_data_effect a employees :
  sessions (snd (save_data a employees)) = sessions a
  /\ data_file (snd (save_data a employees))
     = match write_error a with
       | None => Returned employees
       | Some _ => data_file a
       end.
Proof. unfold save_data. now destruct (write_error a). Qed.

(** The two ways [authenticate_user] runs: on good credentials the data file
    is saved with the new last login, a session is created when the record
    has an identifier, and the answer is given when the record has all the
    keys; otherwise nothing is touched. *)
Lemma authenticate_cases a name password now_iso token now created :
  let run := authenticate_user hash_password a name password now_iso token now created in
  (exists user,
     credentials_ok hash_password a name password user
     /\ fst run = match info_of user (Some token) with
                  | Returned info => Some info
                  | Raised _ => None
                  end
     /\ sessions (snd run)
        = match employee_id user with
          | Some id => <[token := session_of id now created]> (sessions a)
          | None => sessions a
          end
     /\ data_file (snd run)
        = match write_error a with
          | None => Returned (dict_set name (logged_in user now_iso)
                                (fst (load_data a)))
          | Some _ => data_file a
          end)
  \/ ((forall user, ~ credentials_ok hash_password a name password user)
      /\ fst run = None
      /\ sessions (snd run) = sessions a
      /\ data_file (snd run) = data_file a).
Proof.
  cbv zeta.
  pose proof (password_accepted_ok a name password) as Hacc.
  unfold authenticate_user.
  assert (Hload : exists employees a1,
            load_data a = (employees, a1)
            /\ sessions a1 = sessions a /\ data_file a1 = data_file a
            /\ write_error a1 = write_error a).
  { unfold load_data. destruct (data_file a) as [employees|e] eqn:Ed.
    - exists employees, a. rewrite Ed. auto.
    - eexists. eexists. split; [reflexivity|]. cbn. rewrite Ed. auto. }
  destruct Hload as (employees & a1 & El & Hs1 & Hd1 & Hw1).
  rewrite El in *. cbn [fst] in *.
  destruct (dict_get name employees) as [user|] eqn:Eu.
  - specialize (Hacc user eq_refl).
    destruct (password_accepted user (hash_password password)).
    + left. exists user. split; [now apply Hacc|].
      pose proof (save_data_effect a1
                    (dict_set name (logged_in user now_iso) employees)) as [Hs2 Hd2].
      destruct (save_data a1 _) as [saved a2]. cbn [snd] in Hs2, Hd2.
      rewrite Hs1 in Hs2. rewrite Hw1, Hd1 in Hd2.
      unfold create_session. cbv zeta.
      change (employee_id (logged_in user now_iso)) with (employee_id user).
      rewrite info_of_logged_in.
      destruct (employee_id user) as [id|] eqn:Eid; cbn [item].
      * destruct (info_of user (Some token)) as [info|e];
          cbn [fst snd sessions data_file with_sessions with_log];
          rewrite Hs2; auto.
      * assert (Hraise : info_of user (Some token) = Raised "'employee_id'")
          by (unfold info_of; now rewrite Eid).
        rewrite Hraise. cbn [fst snd sessions data_file with_log]. auto.
    + right. cbn [fst snd]. repeat split; auto.
      intros user' Hok. pose proof Hok as (Hu & _).
      rewrite El in Hu. cbn [fst] in Hu. rewrite Eu in Hu.
      injection Hu as <-. apply Hacc in Hok. discriminate.
  - right. cbn [fst snd]. repeat split; auto. intros user' (Hu & _).
    rewrite El in Hu. cbn [fst] in Hu. congruence.
Qed.

End Login.

Section LoginMore.

Import SimpleUserAuth.

Lemma load_data_fst a :
  fst (load_data a)
  = match data_file a with
    | Returned employees => employees
    | Raised _ => []
    end.
Proof. unfold load_data. now destruct (data_file a). Qed.

Lemma dict_set_Forall {V} (P : string * V -> Prop) k v d :
  (forall k', P (k', v)) -> Forall P d -> Forall P (dict_set k v d).
Proof.
  intros Hv. induction 1 as [|[k' v'] d Hx Hd IH]; cbn [dict_set].
  - repeat constructor. apply Hv.
  - destruct (String.eqb k' k); constructor; auto.
Qed.

Lemma find_employee_complete id employees n u :
  Forall (fun entry => complete (snd entry)) employees ->
  In (n, u) employees ->
  employee_id u = Some id ->
  exists found, find_employee id employees = Returned (Some found)
                /\ ui_employee_id found = id.
Proof.
  intros Hall Hin Hu.
  induction Hall as [|[k v] rest Hv _ IH]; [destruct Hin|].
  cbn [snd] in Hv. cbn [find_employee].
  destruct (proj1 (info_of_complete v None) Hv) as [info Hinfo].
  pose proof (info_of_Returned _ _ _ Hinfo) as (Hid & _).
  unfold bind at 1, item. rewrite Hid.
  destruct (String.eqb_spec (ui_employee_id info) id) as [He|He].
  - exists info. unfold bind. rewrite Hinfo. auto.
  - apply IH. destruct Hin as [Heq|Hin]; [|exact Hin].
    injection Heq as -> ->. congruence.
Qed.

End LoginMore.

(** X22: [authenticate_user] gives an answer exactly when the user name is
    in the data file, the stored hash is the hash of the password, the user
    is not marked inactive ([is_active] is absent or counts as true) and the
    record has the eight keys of the answer; the answer then holds the values
    of the record and the new session token.  On other credentials it gives
    nothing, creates no session and leaves the data file alone.  On good
    credentials it saves the data file with the new last login, unless the
    file cannot be written, and stores a session for the token when the
    record has an employee identifier, also when it then gives no answer
    because another key is missing. *)
Theorem authenticate_user_iff (hash_password : string -> string)
    (a : SimpleUserAuth.auth) (name password now_iso token : string)
    (now created : Z) :
  let run := SimpleUserAuth.authenticate_user hash_password a name password
               now_iso token now created in
  (forall info,
     fst run = Some info
     <-> exists user,
           credentials_ok hash_password a name password user
           /\ SimpleUserAuth.info_of user (Some token) = Returned info)
  /\ ((forall user, ~ credentials_ok hash_password a name password user) ->
      fst run = None
      /\ SimpleUserAuth.sessions (snd run) = SimpleUserAuth.sessions a
      /\ SimpleUserAuth.data_file (snd run) = SimpleUserAuth.data_file a)
  /\ (forall user,
        credentials_ok hash_password a name password user ->
        SimpleUserAuth.sessions (snd run)
        = match SimpleUserAuth.employee_id user with
          | Some id =>
              <[token := session_of id now created]> (SimpleUserAuth.sessions a)
          | None => SimpleUserAuth.sessions a
          end
        /\ SimpleUserAuth.data_file (snd run)
           = match SimpleUserAuth.write_error a with
             | None =>
                 Returned (dict_set name (SimpleUserAuth.logged_in user now_iso)
                             (fst (SimpleUserAuth.load_data a)))
             | Some _ => SimpleUserAuth.data_file a
             end).
Proof.
  cbv zeta.
  destruct (authenticate_cases hash_password a name password now_iso token now created)
    as [(user & Hok & Hrun & Hs & Hf)|(Hno & Hrun & Hs & Hf)];
    cbv zeta in *.
  - assert (Hsame : forall user', credentials_ok hash_password a name password user' ->
                                  user' = user).
    { intros user' (Hu' & _). destruct Hok as (Hu & _). congruence. }
    split; [|split].
    + intros info. rewrite Hrun. split.
      * intros Hinfo. exists user. split; [exact Hok|].
        destruct (SimpleUserAuth.info_of user (Some token)); congruence.
      * intros (user' & Hok' & Hinfo). rewrite (Hsame user' Hok') in Hinfo.
        now rewrite Hinfo.
    + intros Hno. exfalso. exact (Hno user Hok).
    + intros user' Hok'. rewrite (Hsame user' Hok'). split; assumption.
  - split; [|split].
    + intros info. rewrite Hrun. split; [discriminate|].
      intros (user & Hok & _). exfalso. exact (Hno user Hok).
    + intros _. auto.
    + intros user Hok. exfalso. exact (Hno user Hok).
Qed.

(** X23: a successful login can be used at once: the session of the login's
    employee identifier is stored under the token; in a data file whose
    records all have the eight keys of the answer, for a non-empty token and
    up to twenty-four hours after the login [get_user_from_session] gives a
    user with the employee identifier of the login's answer; after a logout
    it gives nothing.  The condition on the records cannot be dropped: a
    record without identifier that is listed before the user's makes the
    lookup raise ([lookup_fails_on_incomplete_record]). *)
Theorem login_session_round_trip (hash_password : string -> string)
    (a : SimpleUserAuth.auth) (name password now_iso token : string)
    (now created later : Z) (info : SimpleUserAuth.user_info) :
  fst (SimpleUserAuth.authenticate_user hash_password a name password
         now_iso token now created) = Some info ->
  token <> "" ->
  (later <= now + SimpleUserAuth.session_lifetime)%Z ->
  let a' := snd (SimpleUserAuth.authenticate_user hash_password a name password
                   now_iso token now created) in
  SimpleUserAuth.sessions a' !! token
  = Some (session_of (SimpleUserAuth.ui_employee_id info) now created)
  /\ (Forall (fun entry => complete (snd entry)) (fst (SimpleUserAuth.load_data a)) ->
      exists found,
        fst (SimpleUserAuth.get_user_from_session a' token later) = Some found
        /\ SimpleUserAuth.ui_employee_id found = SimpleUserAuth.ui_employee_id info)
  /\ fst (SimpleUserAuth.get_user_from_session
            (snd (SimpleUserAuth.logout_user a' token)) token later) = None.
Proof.
  intros Hlogin Ht Hlater. cbv zeta.
  destruct (authenticate_cases hash_password a name password now_iso token now created)
    as [(user & Hok & Hrun & Hs & Hf)|(_ & Hrun & _)];
    cbv zeta in *; [|congruence].
  rewrite Hrun in Hlogin.
  destruct (SimpleUserAuth.info_of user (Some token)) as [info'|e] eqn:Einfo;
    [|discriminate].
  injection Hlogin as ->.
  pose proof (info_of_Returned _ _ _ Einfo) as (Hid & _).
  rewrite Hid in Hs.
  set (a' := snd (SimpleUserAuth.authenticate_user hash_password a name password
                    now_iso token now created)) in *.
  assert (Hsess : SimpleUserAuth.sessions a' !! token
                  = Some (session_of (SimpleUserAuth.ui_employee_id info) now created))
    by (rewrite Hs; apply lookup_insert_eq).
  split; [exact Hsess|]. split.
  - intros Hall.
    assert (Hfind : exists found,
              SimpleUserAuth.find_employee (SimpleUserAuth.ui_employee_id info)
                (fst (SimpleUserAuth.load_data a')) = Returned (Some found)
              /\ SimpleUserAuth.ui_employee_id found
                 = SimpleUserAuth.ui_employee_id info).
    { destruct Hok as (Hu & _).
      rewrite (load_data_fst a'), Hf.
      destruct (SimpleUserAuth.write_error a).
      - rewrite <- load_data_fst.
        eapply find_employee_complete; [exact Hall | | exact Hid].
        apply dict_get_In. exact Hu.
      - eapply (find_employee_complete _ _ name
                  (SimpleUserAuth.logged_in user now_iso)); [| |exact Hid].
        + apply dict_set_Forall; [|exact Hall].
          intros k'. cbn [snd].
          apply (info_of_complete _ (Some token)). exists info. exact Einfo.
        + apply dict_get_In, dict_get_set_eq. }
    destruct Hfind as (found & Hfind & Hfid).
    exists found. split; [|exact Hfid].
    unfold SimpleUserAuth.get_user_from_session.
    apply String.eqb_neq in Ht. rewrite Ht, Hsess.
    cbn [session_of SimpleUserAuth.expires_at SimpleUserAuth.s_employee_id].
    replace (now + SimpleUserAuth.session_lifetime <? later)%Z with false
      by (symmetry; apply Z.ltb_ge; lia).
    destruct (SimpleUserAuth.load_data a') as [employees' a2]. cbn [fst] in Hfind.
    now rewrite Hfind.
  - apply get_user_no_session, logout_removes.
Qed.

Lemma login_session_round_trip_witness :
  exists found,
    fst (SimpleUserAuth.get_user_from_session
           (snd (SimpleUserAuth.authenticate_user AuthSamples.toy_hash AuthSamples.a0
                   "jane.smith" "password123" "2025-01-02T08:00:00" "tok" 0 0))
           "tok" SimpleUserAuth.session_lifetime) = Some found
    /\ SimpleUserAuth.ui_employee_id found = "EMP002".
Proof.
  destruct (login_session_round_trip AuthSamples.toy_hash AuthSamples.a0
              "jane.smith" "password123" "2025-01-02T08:00:00" "tok" 0 0
              SimpleUserAuth.session_lifetime
              (AuthSamples.jane_info (Some "tok"))
              eq_refl ltac:(discriminate) ltac:(reflexivity))
    as (_ & Hget & _).
  destruct Hget as [found [Hget Hid]].
  - repeat constructor; cbn; eauto.
  - exists found. split; [exact Hget | exact Hid].
Defined.

(** A record without the key [email]: the login is refused, with the data
    file saved and the session stored all the same. *)
Example login_refused_session_kept :
  let run := SimpleUserAuth.authenticate_user AuthSamples.toy_hash
               AuthSamples.a_no_email "jane.smith" "password123"
               "2025-01-02T08:00:00" "tok" 0 0 in
  fst run = None
  /\ SimpleUserAuth.sessions (snd run) !! "tok" = Some (session_of "EMP002" 0 0)
  /\ SimpleUserAuth.data_file (snd run)
     = Returned [("jane.smith",
                  SimpleUserAuth.logged_in AuthSamples.jane_no_email
                    "2025-01-02T08:00:00")]
  /\ SimpleUserAuth.auth_log (snd run) = ["Authentication error: 'email'"].
Proof. repeat split. Qed.

(** A record whose [is_active] is [null] is refused, without a trace. *)
Example null_is_active_refused :
  SimpleUserAuth.authenticate_user AuthSamples.toy_hash AuthSamples.a_null_active
    "jane.smith" "password123" "2025-01-02T08:00:00" "tok" 0 0
  = (None, AuthSamples.a_null_active).
Proof. reflexivity. Qed.

(** A record without an identifier that is listed before the user's makes
    the lookup of a fresh session fail. *)
Example lookup_fails_on_incomplete_record :
  let run := SimpleUserAuth.authenticate_user AuthSamples.toy_hash
               AuthSamples.a_ghost "jane.smith" "password123"
               "2025-01-02T08:00:00" "tok" 0 0 in
  let lookup := SimpleUserAuth.get_user_from_session (snd run) "tok" 1 in
  fst run = Some (AuthSamples.jane_info (Some "tok"))
  /\ fst lookup = None
  /\ SimpleUserAuth.auth_log (snd lookup)
     = ["Session validation error: 'employee_id'"].
Proof. repeat split. Qed.

(* ===================================================================== *)
(** * Further properties of the source attribution verifier *)
(* ===================================================================== *)

Lemma split_nonempty s : Forall (fun w => w <> "") (PyStr.split s).
Proof.
  induction s as [|c t IH]; [constructor|].
  cbn [PyStr.split]. destruct (PyStr.is_space c); [exact IH|].
  destruct t as [|d t']; [repeat constructor; discriminate|].
  destruct (PyStr.is_space d); [constructor; [discriminate | exact IH]|].
  destruct (PyStr.split (String d t')) as [|h r]; [repeat constructor; discriminate|].
  apply Forall_cons in IH as [_ IH]. constructor; [discriminate | exact IH].
Qed.

Lemma contains_empty_hay w : w <> "" -> PyStr.contains w "" = false.
Proof. destruct w; [congruence | reflexivity]. Qed.

Lemma count_if_none {A} (p : A -> bool) l :
  Forall (fun x => p x = false) l -> count_if p l = 0.
Proof.
  unfold count_if. induction 1 as [|x l Hx _ IH]; [reflexivity|].
  cbn [List.filter]. now rewrite Hx.
Qed.

Lemma existsb_none {A} (p : A -> bool) l :
  Forall (fun x => p x = false) l -> existsb p l = false.
Proof.
  induction 1 as [|x l Hx _ IH]; [reflexivity|]. cbn [existsb]. now rewrite Hx, IH.
Qed.

Lemma phrase_echoed_empty_answer phrase : phrase_echoed "" phrase = false.
Proof.
  unfold phrase_echoed. destruct (2 <=? length (phrase_words phrase)) eqn:E;
    [|reflexivity].
  apply Nat.leb_le in E. cbn [andb]. rewrite count_if_none.
  - unfold overlap_reached. apply Nat.leb_gt. lia.
  - unfold phrase_words. apply List.Forall_forall. intros w Hw.
    apply List.filter_In in Hw as [_ Hlen]. apply Nat.ltb_lt in Hlen.
    apply contains_empty_hay. intros ->. cbn in Hlen. lia.
Qed.

(** X24: a candidate one of whose identifier tokens occurs in the lowercased
    answer is kept as a source whatever its text; and an empty answer cites
    nothing: the verifier returns no source for it. *)
Theorem verify_sources_edges (response : string) (offered : list excerpt) (e : excerpt) :
  (name_mentioned (PyStr.lower response) (PyStr.lower (document e)) = true ->
   is_referenced (PyStr.lower response) e = true
   /\ (In e offered -> In e (verify_sources response offered)))
  /\ verify_sources "" offered = [].
Proof.
  split.
  - intros Hname.
    assert (Href : is_referenced (PyStr.lower response) e = true).
    { unfold is_referenced. now rewrite Hname, phrase_loop_exists. }
    split; [exact Href|]. intros Hin. rewrite verify_sources_filter.
    apply List.filter_In. split; assumption.
  - rewrite verify_sources_filter. cbn [PyStr.lower].
    induction offered as [|x l IH]; [reflexivity|].
    cbn [List.filter]. rewrite IH.
    replace (is_referenced "" x) with false; [reflexivity|]. symmetry.
    unfold is_referenced, name_mentioned, name_parts.
    rewrite existsb_none, phrase_loop_exists.
    + cbn [orb]. apply existsb_none. apply List.Forall_forall.
      intros p _. apply phrase_echoed_empty_answer.
    + eapply List.Forall_impl; [|apply split_nonempty].
      intros w Hw. now apply contains_empty_hay.
Qed.
